(** * terraform-provider-mysql: grants reconciliation

    A shallow embedding of the grant resources of the provider
    ([mysql/utils.go], [mysql/resource_grant.go], [mysql/resource_grants.go])
    and the properties of its specification.

    Go strings are byte strings and are modelled by [string]; [len] is
    [String.length]; [fmt.Sprintf] with [%s] verbs is concatenation.  A call
    that returns [(T, error)] is modelled by [result T].  The SQL connection
    is modelled by the trace of the statements sent over it and a server that
    answers each statement from the history so far. *)

From Stdlib Require Import String Ascii List ZArith Bool Arith Lia.
From Stdlib Require Import Sorting.Sorted Sorting.Permutation Structures.OrderedTypeEx.
Import ListNotations.
Open Scope list_scope.
Open Scope string_scope.

(** * Results of fallible calls *)

Inductive result (A : Type) : Type :=
| Ok (a : A)
| Err (e : string).
Arguments Ok {A} a.
Arguments Err {A} e.

(** * The part of Go's [strings] package the provider uses *)

Module strings.

(** [strings.Compare(a, b)]: -1, 0 or 1, bytes compared in order. *)
Definition Compare (a b : string) : Z :=
  match String.compare a b with
  | Lt => (-1)%Z
  | Eq => 0%Z
  | Gt => 1%Z
  end.

Fixpoint HasPrefix (s pre : string) {struct pre} : bool :=
  match pre with
  | EmptyString => true
  | String a pre' =>
      match s with
      | EmptyString => false
      | String b s' => Ascii.eqb a b && HasPrefix s' pre'
      end
  end.

Fixpoint HasSuffix (s suffix : string) : bool :=
  (s =? suffix) ||
  match s with
  | EmptyString => false
  | String _ s' => HasSuffix s' suffix
  end.

Fixpoint Contains (s substr : string) : bool :=
  HasPrefix s substr ||
  match s with
  | EmptyString => false
  | String _ s' => Contains s' substr
  end.

(** [strings.Join(elems, sep)]. *)
Definition Join (elems : list string) (sep : string) : string :=
  String.concat sep elems.

(** [strings.Replace(s, old, new, n)] for a non-empty [old] (every call in
    the provider has one): the first [n] non-overlapping occurrences of
    [old], leftmost first; all of them when [n < 0].  [skip] counts the
    bytes of an occurrence that are still to be dropped. *)
Fixpoint replace_go (old new : string) (n skip : nat) (s : string) : string :=
  match s with
  | EmptyString => EmptyString
  | String c s' =>
      match skip with
      | S k => replace_go old new n k s'
      | O =>
          match n with
          | O => s
          | S n' =>
              if HasPrefix s old
              then new ++ replace_go old new n' (String.length old - 1) s'
              else String c (replace_go old new n 0 s')
          end
      end
  end.

Definition Replace (s old new : string) (n : Z) : string :=
  replace_go old new (if (n <? 0)%Z then String.length s else Z.to_nat n) 0 s.

Definition ReplaceAll (s old new : string) : string := Replace s old new (-1).

(** [strings.Split(s, sep)] for a non-empty [sep]: the pieces between the
    non-overlapping occurrences of [sep], leftmost first.  The head of the
    result is the piece being read. *)
Fixpoint split_go (sep : string) (skip : nat) (s : string) : list string :=
  match s with
  | EmptyString => [EmptyString]
  | String c s' =>
      match skip with
      | S k => split_go sep k s'
      | O =>
          if HasPrefix s sep
          then EmptyString :: split_go sep (String.length sep - 1) s'
          else match split_go sep 0 s' with
               | p :: ps => String c p :: ps
               | [] => [String c EmptyString]
               end
      end
  end.

Definition Split (s sep : string) : list string := split_go sep 0 s.

Fixpoint trim_left (p : ascii -> bool) (s : string) : string :=
  match s with
  | EmptyString => EmptyString
  | String c s' => if p c then trim_left p s' else s
  end.

Fixpoint trim_right (p : ascii -> bool) (s : string) : string :=
  match s with
  | EmptyString => EmptyString
  | String c s' =>
      match trim_right p s' with
      | EmptyString => if p c then EmptyString else String c EmptyString
      | r => String c r
      end
  end.

(** White space of [unicode.IsSpace] in the ASCII range: tab, line feed,
    vertical tab, form feed, carriage return and space.  [TrimSpace] is
    only applied to matches of the privilege pattern, which are ASCII. *)
Definition isSpace (c : ascii) : bool :=
  let n := nat_of_ascii c in
  ((9 <=? n)%nat && (n <=? 13)%nat) || (n =? 32)%nat.

Definition TrimSpace (s : string) : string :=
  trim_right isSpace (trim_left isSpace s).

Fixpoint in_cutset (cutset : string) (c : ascii) : bool :=
  match cutset with
  | EmptyString => false
  | String d cutset' => Ascii.eqb c d || in_cutset cutset' c
  end.

(** [strings.Trim(s, cutset)]. *)
Definition Trim (s cutset : string) : string :=
  trim_right (in_cutset cutset) (trim_left (in_cutset cutset) s).

(** [strings.LastIndex(s, substr)]: the index of the last occurrence of
    [substr] in [s], [-1] when there is none. *)
Fixpoint LastIndex (s substr : string) : Z :=
  match s with
  | EmptyString => if HasPrefix s substr then 0%Z else (-1)%Z
  | String _ s' =>
      let i := LastIndex s' substr in
      if (0 <=? i)%Z then (i + 1)%Z
      else if HasPrefix s substr then 0%Z else (-1)%Z
  end.

End strings.

(** * [sort.Strings]: ascending, bytes compared in order *)

Module sort.

Fixpoint insert (x : string) (l : list string) : list string :=
  match l with
  | [] => [x]
  | y :: l' => if String.leb x y then x :: l else y :: insert x l'
  end.

Fixpoint Strings (l : list string) : list string :=
  match l with
  | [] => []
  | x :: l' => insert x (Strings l')
  end.

End sort.

(** * [github.com/hashicorp/go-version]

    A parsed version is its numeric segments (at least three, [NewVersion]
    pads with zeros) and its prerelease tag; build metadata plays no part in
    comparisons.  How two prerelease tags compare is the library's business
    and is a parameter here: the provider only compares against a release. *)

Module version.

Record Version : Type := mkVersion {
  segments : list Z;
  prerelease : string
}.

Definition allZero (segs : list Z) : bool := forallb (Z.eqb 0) segs.

(** The segment loop of [Compare]: a missing segment counts as equal when
    the other side has only zeros left. *)
Fixpoint compareSegments (self other : list Z) : Z :=
  match self, other with
  | [], [] => 0
  | [], _ => if allZero other then 0 else (-1)
  | _, [] => if allZero self then 0 else 1
  | lhs :: self', rhs :: other' =>
      if (lhs =? rhs)%Z then compareSegments self' other'
      else if (lhs <? rhs)%Z then (-1) else 1
  end%Z.

Fixpoint segments_eqb (a b : list Z) : bool :=
  match a, b with
  | [], [] => true
  | x :: a', y :: b' => (x =? y)%Z && segments_eqb a' b'
  | _, _ => false
  end.

Section Compare.

Variable comparePrereleases : string -> string -> Z.

Definition Compare (v other : Version) : Z :=
  if segments_eqb (segments v) (segments other) then
    let preSelf := prerelease v in
    let preOther := prerelease other in
    if (preSelf =? "") && (preOther =? "") then 0%Z
    else if preSelf =? "" then 1%Z
    else if preOther =? "" then (-1)%Z
    else comparePrereleases preSelf preOther
  else compareSegments (segments v) (segments other).

Definition GreaterThan (v o : Version) : bool := (Compare v o >? 0)%Z.
Definition GreaterThanOrEqual (v o : Version) : bool := (Compare v o >=? 0)%Z.
Definition LessThan (v o : Version) : bool := (Compare v o <? 0)%Z.

End Compare.

End version.

(** * The fragment of Go's [regexp] package the provider uses

    Go's matcher returns the leftmost match and, among the matches that start
    there, the one a backtracking search finds first: alternatives are tried
    in order, [x+] and [x?] take as much as they can first and [x+?] as little.
    Only classes of single bytes are ever repeated in the provider's
    patterns.  The matcher is written in continuation-passing style: the
    continuation receives the text matched, the text that is left and the
    submatches captured so far, and a failing continuation makes the matcher
    try its next choice. *)

Module regexp.

Inductive Regexp : Type :=
| Chr (c : ascii)
| Plus (p : ascii -> bool)
| PlusLazy (p : ascii -> bool)
| Opt (r : Regexp)
| Seq (r1 r2 : Regexp)
| Alt (r1 r2 : Regexp)
| Group (r : Regexp).

(** A match: its text and its submatches, in the order of the groups. *)
Definition Match : Type := string * list string.

Fixpoint plusGreedy (p : ascii -> bool) (s : string)
         (k : string -> string -> option Match) : option Match :=
  match s with
  | EmptyString => None
  | String c s' =>
      if p c then
        match plusGreedy p s' (fun m rest => k (String c m) rest) with
        | Some r => Some r
        | None => k (String c EmptyString) s'
        end
      else None
  end.

Fixpoint plusLazy (p : ascii -> bool) (s : string)
         (k : string -> string -> option Match) : option Match :=
  match s with
  | EmptyString => None
  | String c s' =>
      if p c then
        match k (String c EmptyString) s' with
        | Some r => Some r
        | None => plusLazy p s' (fun m rest => k (String c m) rest)
        end
      else None
  end.

Fixpoint run (r : Regexp) (s : string) (caps : list string)
         (k : string -> string -> list string -> option Match) : option Match :=
  match r with
  | Chr c =>
      match s with
      | String c' s' =>
          if Ascii.eqb c c' then k (String c EmptyString) s' caps else None
      | EmptyString => None
      end
  | Plus p => plusGreedy p s (fun m rest => k m rest caps)
  | PlusLazy p => plusLazy p s (fun m rest => k m rest caps)
  | Opt r1 =>
      match run r1 s caps k with
      | Some x => Some x
      | None => k EmptyString s caps
      end
  | Seq r1 r2 =>
      run r1 s caps (fun m1 s1 caps1 =>
        run r2 s1 caps1 (fun m2 s2 caps2 => k (m1 ++ m2) s2 caps2))
  | Alt r1 r2 =>
      match run r1 s caps k with
      | Some x => Some x
      | None => run r2 s caps k
      end
  | Group r1 =>
      run r1 s caps (fun m s1 caps1 => k m s1 (caps1 ++ [m])%list)
  end.

(** The match of [r] that starts at the first byte of [s], if there is one. *)
Definition matchAt (r : Regexp) (s : string) : option Match :=
  run r s [] (fun m _ caps => Some (m, caps)).

(** The leftmost match. *)
Fixpoint find (r : Regexp) (s : string) : option Match :=
  match matchAt r s with
  | Some x => Some x
  | None =>
      match s with
      | EmptyString => None
      | String _ s' => find r s'
      end
  end.

(** A compiled pattern: [AtStart r] is [^r]. *)
Inductive Pattern : Type :=
| Anywhere (r : Regexp)
| AtStart (r : Regexp).

Definition findPattern (re : Pattern) (s : string) : option Match :=
  match re with
  | Anywhere r => find r s
  | AtStart r => matchAt r s
  end.

Definition MatchString (re : Pattern) (s : string) : bool :=
  match findPattern re s with
  | Some _ => true
  | None => false
  end.

(** [re.FindStringSubmatch(s)]: the match then its submatches, [nil]
    when there is no match. *)
Definition FindStringSubmatch (re : Pattern) (s : string) : list string :=
  match findPattern re s with
  | Some (m, caps) => m :: caps
  | None => []
  end.

(** [re.FindAllString(s, -1)] for a pattern that matches no empty text:
    the successive matches, each search starting where the match before
    ended.  [skip] counts the bytes of a match still to be passed. *)
Fixpoint findAll (r : Regexp) (skip : nat) (s : string) : list string :=
  match s with
  | EmptyString => []
  | String _ s' =>
      match skip with
      | S k => findAll r k s'
      | O =>
          match matchAt r s with
          | Some (m, _) => m :: findAll r (String.length m - 1) s'
          | None => findAll r 0 s'
          end
      end
  end.

Definition FindAllString (r : Regexp) (s : string) : list string :=
  findAll r 0 s.

(** A literal text. *)
Fixpoint Lit (c : ascii) (s : string) : Regexp :=
  match s with
  | EmptyString => Chr c
  | String d s' => Seq (Chr c) (Lit d s')
  end.

Definition inRange (lo hi : nat) (c : ascii) : bool :=
  let n := nat_of_ascii c in (lo <=? n)%nat && (n <=? hi)%nat.

(** [[A-Z]], [[a-z]], [[0-9]] and [.] (any byte but a line feed). *)
Definition upper : ascii -> bool := inRange 65 90.
Definition lower : ascii -> bool := inRange 97 122.
Definition digit : ascii -> bool := inRange 48 57.
Definition anyChar (c : ascii) : bool := negb (nat_of_ascii c =? 10)%nat.

(** [\b] around a text that starts and ends with a word byte: the text
    occurs with no word byte ([[0-9A-Za-z_]]) next to it. *)
Definition isWord (c : ascii) : bool :=
  upper c || lower c || digit c || Ascii.eqb c "_".

Definition startsWithWord (s : string) : bool :=
  match s with
  | EmptyString => false
  | String c _ => isWord c
  end.

Fixpoint dropPrefix (word s : string) {struct word} : option string :=
  match word with
  | EmptyString => Some s
  | String a word' =>
      match s with
      | EmptyString => None
      | String b s' => if Ascii.eqb a b then dropPrefix word' s' else None
      end
  end.

Fixpoint matchWord (word : string) (prevIsWord : bool) (s : string) : bool :=
  (negb prevIsWord
   && match dropPrefix word s with
      | Some rest => negb (startsWithWord rest)
      | None => false
      end)
  || match s with
     | EmptyString => false
     | String c s' => matchWord word (isWord c) s'
     end.

End regexp.

(** * [mysql/utils.go] *)

(** [flattenList(list, template)]; the two templates in use are ["%s"] and
    ["'%s'"], given here by the text around the verb. *)
Definition flattenList (list : list string) (before after : string) : string :=
  strings.Join (map (fun v => before ++ v ++ after) list) ", ".

Definition formatDatabaseName (database : string) : string :=
  if negb (strings.Compare database "*" =? 0)%Z
     && negb (strings.HasSuffix database "`")
  then
    let database := "`" ++ database ++ "`" in
    if strings.HasPrefix database ("`" ++ "PROCEDURE ")
    then strings.Replace database ("`" ++ "PROCEDURE ") ("PROCEDURE " ++ "`") 1
    else database
  else database.

Definition formatTableName (table : string) : string :=
  if (table =? "") || (table =? "*") then "*"
  else "`" ++ table ++ "`".

Definition userOrRole (user host role : string) (hasRoles : bool)
  : result (string * bool) :=
  if (0 <? String.length user)%nat && (0 <? String.length host)%nat then
    Ok ("'" ++ user ++ "'@'" ++ host ++ "'", false)
  else if (0 <? String.length role)%nat then
    if negb hasRoles then
      Err "roles are only supported on MySQL 8 and above"
    else Ok ("'" ++ role ++ "'", true)
  else Err "user with host or a role is required".

(** The pattern of [parsePrivileges]:
    [[A-Z]+\ ?\([a-zA-Z0-9_,\ `]+\)|[A-Z]+ [A-Z]+ [A-Z]+|[A-Z]+ [A-Z]+|[A-Z]+]. *)
Definition columnChar (c : ascii) : bool :=
  regexp.lower c || regexp.upper c || regexp.digit c
  || Ascii.eqb c "_" || Ascii.eqb c "," || Ascii.eqb c " " || Ascii.eqb c "`".

Definition rem1 : regexp.Regexp :=
  let word := regexp.Plus regexp.upper in
  let sp := regexp.Chr " " in
  regexp.Alt
    (regexp.Seq word (regexp.Seq (regexp.Opt sp)
       (regexp.Seq (regexp.Chr "(") (regexp.Seq (regexp.Plus columnChar) (regexp.Chr ")")))))
    (regexp.Alt
       (regexp.Seq word (regexp.Seq sp (regexp.Seq word (regexp.Seq sp word))))
       (regexp.Alt
          (regexp.Seq word (regexp.Seq sp word))
          word)).

(** One entry of the loop of [parsePrivileges]. *)
Definition normalizePrivilege (priv : string) : string :=
  if strings.Contains priv "(" then
    let privilegeSplit := strings.Split priv "(" in
    let grantAction := strings.TrimSpace (nth 0 privilegeSplit "") in
    let columns :=
      strings.Split (strings.Replace (nth 1 privilegeSplit "") ")" "" 1) ", " in
    let columns := sort.Strings columns in
    grantAction ++ " (" ++ strings.Join columns ", " ++ ")"
  else strings.TrimSpace priv.

Definition parsePrivileges (privilegesString : string) : list string :=
  let privList := regexp.FindAllString rem1 privilegesString in
  map normalizePrivilege privList.

(** * [helper/schema]

    A [*schema.Set] is represented by its [List()]: its items, each once, in
    the order of their hash codes.  Two items with the same code are the same
    item (collisions of the hash aside), so [Difference] keeps the items that
    are not in the other set, in their order. *)

Module schema.

Definition Set_ (A : Type) : Type := list A.

Definition List {A : Type} (s : Set_ A) : list A := s.

Definition Len {A : Type} (s : Set_ A) : nat := List.length s.

(** [schema.NewSet(f, nil)]. *)
Definition NewSet {A : Type} : Set_ A := [].

Definition Contains {A : Type} (eqb : A -> A -> bool) (s : Set_ A) (x : A) : bool :=
  existsb (eqb x) s.

(** [s.Difference(other)]. *)
Definition Difference {A : Type} (eqb : A -> A -> bool) (s other : Set_ A) : Set_ A :=
  filter (fun x => negb (Contains eqb other x)) s.

Fixpoint Equal {A : Type} (eqb : A -> A -> bool) (s other : Set_ A) : bool :=
  match s, other with
  | [], [] => true
  | x :: s', y :: other' => eqb x y && Equal eqb s' other'
  | _, _ => false
  end.

End schema.

(** [schema.HashString] identifies a string by its text. *)
Definition HashString : string -> string -> bool := String.eqb.

(** One block of [grants] ([SubGrantRead] in [resource_grants.go]). *)
Module SubGrantRead.
Record t : Type := mk {
  Database : string;
  Table : string;
  Privileges : schema.Set_ string;
  Roles : schema.Set_ string;
  Grant : bool
}.

(** The hash of a block covers all its attributes. *)
Definition eqb (a b : t) : bool :=
  (Database a =? Database b) && (Table a =? Table b)
  && schema.Equal HashString (Privileges a) (Privileges b)
  && schema.Equal HashString (Roles a) (Roles b)
  && Bool.eqb (Grant a) (Grant b).
End SubGrantRead.

(** [MySQLGrant] of [resource_grant.go]: one line of [SHOW GRANTS]. *)
Module MySQLGrant.
Record t : Type := mk {
  Database : string;
  Table : string;
  Privileges : list string;
  Grant : bool
}.
End MySQLGrant.

(** [*schema.ResourceData]: the attributes of [mysql_grant] and of
    [mysql_grants], read by [d.Get], and the values they had before the
    change, read by [d.GetChange].  [d.Set] stores the list it is given (the
    framework orders it as a set when the attribute is next read). *)
Record ResourceData : Type := mkResourceData {
  Id : string;
  user : string;
  host : string;
  role : string;
  database : string;
  table : string;
  tls_option : string;
  grant : bool;
  privileges_old : schema.Set_ string;
  privileges : schema.Set_ string;
  roles : schema.Set_ string;
  grants_old : schema.Set_ SubGrantRead.t;
  grants : schema.Set_ SubGrantRead.t
}.

Definition SetId (id : string) (d : ResourceData) : ResourceData :=
  mkResourceData id (user d) (host d) (role d) (database d) (table d)
    (tls_option d) (grant d) (privileges_old d) (privileges d) (roles d)
    (grants_old d) (grants d).

Definition Set_privileges (v : list string) (d : ResourceData) : ResourceData :=
  mkResourceData (Id d) (user d) (host d) (role d) (database d) (table d)
    (tls_option d) (grant d) (privileges_old d) v (roles d)
    (grants_old d) (grants d).

Definition Set_grant (v : bool) (d : ResourceData) : ResourceData :=
  mkResourceData (Id d) (user d) (host d) (role d) (database d) (table d)
    (tls_option d) v (privileges_old d) (privileges d) (roles d)
    (grants_old d) (grants d).

Definition Set_grants (v : list SubGrantRead.t) (d : ResourceData) : ResourceData :=
  mkResourceData (Id d) (user d) (host d) (role d) (database d) (table d)
    (tls_option d) (grant d) (privileges_old d) (privileges d) (roles d)
    (grants_old d) v.

Definition Set_user (v : string) (d : ResourceData) : ResourceData :=
  mkResourceData (Id d) v (host d) (role d) (database d) (table d)
    (tls_option d) (grant d) (privileges_old d) (privileges d) (roles d)
    (grants_old d) (grants d).

Definition Set_host (v : string) (d : ResourceData) : ResourceData :=
  mkResourceData (Id d) (user d) v (role d) (database d) (table d)
    (tls_option d) (grant d) (privileges_old d) (privileges d) (roles d)
    (grants_old d) (grants d).

Definition Set_database (v : string) (d : ResourceData) : ResourceData :=
  mkResourceData (Id d) (user d) (host d) (role d) v (table d)
    (tls_option d) (grant d) (privileges_old d) (privileges d) (roles d)
    (grants_old d) (grants d).

Definition Set_table (v : string) (d : ResourceData) : ResourceData :=
  mkResourceData (Id d) (user d) (host d) (role d) (database d) v
    (tls_option d) (grant d) (privileges_old d) (privileges d) (roles d)
    (grants_old d) (grants d).

Definition Set_tls_option (v : string) (d : ResourceData) : ResourceData :=
  mkResourceData (Id d) (user d) (host d) (role d) (database d) (table d)
    v (grant d) (privileges_old d) (privileges d) (roles d)
    (grants_old d) (grants d).

(** [resourceGrant().Data(nil)] and [resourceGrants().Data(nil)]: resource
    data with no state and no change, every attribute at its zero value. *)
Definition Data_nil : ResourceData :=
  mkResourceData "" "" "" "" "" "" "" false [] [] [] [] [].

(** * The connection

    What goes over the connection is recorded as a trace of events.  The
    server is given by its answers, each a function of the events so far:
    the version it reports to [serverVersion], the error, if any, of a
    statement sent with [db.Exec], and for [db.Query] the rows or the error,
    each row holding the text [rows.Scan] reads or its error. *)

Inductive event : Type :=
| Exec (stmtSQL : string)
| Query (stmtSQL : string).

Record DB : Type := mkDB {
  serverVersion : list event -> result version.Version;
  exec : list event -> string -> option string;
  query : list event -> string -> result (list (result string))
}.

Record MySQLConfiguration : Type := mkMySQLConfiguration {
  GetDbConn : result DB
}.

(** A call runs on the resource data and the events so far; it gives the
    events it adds, the resource data it leaves and what it returns. *)
Definition M (A : Type) : Type :=
  ResourceData -> list event -> list event * ResourceData * result A.

Definition ret {A : Type} (a : A) : M A := fun d _ => ([], d, Ok a).

Definition fail {A : Type} (e : string) : M A := fun d _ => ([], d, Err e).

Definition bind {A B : Type} (m : M A) (f : A -> M B) : M B :=
  fun d h =>
    match m d h with
    | (t1, d1, Err e) => (t1, d1, Err e)
    | (t1, d1, Ok a) =>
        match f a d1 (h ++ t1)%list with
        | (t2, d2, r) => ((t1 ++ t2)%list, d2, r)
        end
    end.

Notation "x <- c1 ;; c2" := (bind c1 (fun x => c2))
  (at level 61, c1 at next level, right associativity).
Notation "' pat <- c1 ;; c2" := (bind c1 (fun x => match x with pat => c2 end))
  (at level 61, pat pattern, c1 at next level, right associativity).
Notation "c1 ;;; c2" := (bind c1 (fun _ => c2))
  (at level 61, right associativity).

Definition lift {A : Type} (r : result A) : M A := fun d _ => ([], d, r).

Definition getData : M ResourceData := fun d _ => ([], d, Ok d).

Definition modify (f : ResourceData -> ResourceData) : M unit :=
  fun d _ => ([], f d, Ok tt).

(** [db.Exec(stmtSQL)]: the statement is sent; the value is the error. *)
Definition dbExec (db : DB) (stmtSQL : string) : M (option string) :=
  fun d h => ([Exec stmtSQL], d, Ok (exec db h stmtSQL)).

(** [db.Query(stmtSQL)]. *)
Definition dbQuery (db : DB) (stmtSQL : string) : M (result (list (result string))) :=
  fun d h => ([Query stmtSQL], d, Ok (query db h stmtSQL)).

Definition emitted {A : Type} (x : list event * ResourceData * result A) : list event :=
  fst (fst x).
Definition dataAfter {A : Type} (x : list event * ResourceData * result A) : ResourceData :=
  snd (fst x).
Definition returned {A : Type} (x : list event * ResourceData * result A) : result A :=
  snd x.

(** * The provider *)

(** Control flow of a loop body: go on with the next item, or return from
    the function. *)
Inductive flow : Type :=
| Continue
| Return.

(** The patterns of [showGrants]: [^GRANT (.+) ON (.+?)\.(.+?) TO] and
    [\bGRANT OPTION\b]. *)
Definition re : regexp.Pattern :=
  let any := regexp.Plus regexp.anyChar in
  let few := regexp.PlusLazy regexp.anyChar in
  regexp.AtStart
    (regexp.Seq (regexp.Lit "G" "RANT ")
       (regexp.Seq (regexp.Group any)
          (regexp.Seq (regexp.Lit " " "ON ")
             (regexp.Seq (regexp.Group few)
                (regexp.Seq (regexp.Chr ".")
                   (regexp.Seq (regexp.Group few) (regexp.Lit " " "TO"))))))).

Definition reGrant (rawGrant : string) : bool :=
  regexp.matchWord "GRANT OPTION" false rawGrant.

(** The pattern of [DeleteGrant]: [Error 1141:]. *)
Definition reError1141 : regexp.Pattern :=
  regexp.Anywhere (regexp.Lit "E" "rror 1141:").

(** The loop of [showGrants] over the rows. *)
Fixpoint showGrants_rows (rows : list (result string)) (grants : list MySQLGrant.t)
  : result (list MySQLGrant.t) :=
  match rows with
  | [] => Ok grants
  | row :: rows' =>
      match row with
      | Err err => Err err
      | Ok rawGrant =>
          let m := regexp.FindStringSubmatch re rawGrant in
          if negb (List.length m =? 4)%nat then
            Err ("failed to parse grant statement: " ++ rawGrant)
          else
            let privileges := parsePrivileges (nth 1 m "") in
            let grant :=
              MySQLGrant.mk (strings.ReplaceAll (nth 2 m "") "`" "")
                            (strings.Trim (nth 3 m "") "`")
                            privileges
                            (reGrant rawGrant) in
            showGrants_rows rows' (grants ++ [grant])%list
      end
  end.

Definition showGrants (db : DB) (user : string) : M (list MySQLGrant.t) :=
  let stmtSQL := "SHOW GRANTS FOR " ++ user in
  rows <- dbQuery db stmtSQL ;;
  match rows with
  | Err err => fail err
  | Ok rows => lift (showGrants_rows rows [])
  end.

(** [updatePrivileges(newPrivs, oldPrivs, db, user, database, table)]. *)
Definition updatePrivileges (newPrivs oldPrivs : schema.Set_ string) (db : DB)
           (user database table : string) : M unit :=
  let grantIfs := schema.List (schema.Difference HashString newPrivs oldPrivs) in
  let revokeIfs := schema.List (schema.Difference HashString oldPrivs newPrivs) in
  (if (0 <? List.length revokeIfs)%nat then
     let revokes := revokeIfs in
     let stmtSQL :=
       "REVOKE " ++ strings.Join revokes "," ++ " ON " ++ database ++ "." ++ table
       ++ " FROM " ++ user in
     err <- dbExec db stmtSQL ;;
     match err with
     | Some err => fail err
     | None => ret tt
     end
   else ret tt) ;;;
  (if (0 <? List.length grantIfs)%nat then
     let grants := grantIfs in
     let stmtSQL :=
       "GRANT " ++ strings.Join grants "," ++ " ON " ++ database ++ "." ++ table
       ++ " TO " ++ user in
     err <- dbExec db stmtSQL ;;
     match err with
     | Some err => fail err
     | None => ret tt
     end
   else ret tt).

Section Provider.

(** The order of two prerelease tags in go-version. *)
Variable comparePrereleases : string -> string -> Z.

(** [version.NewVersion("8.0.0")]. *)
Definition requiredVersion : version.Version := version.mkVersion [8; 0; 0]%Z "".

Definition supportsRoles (db : DB) : M bool :=
  fun d h =>
    match serverVersion db h with
    | Err err => ([], d, Err err)
    | Ok currentVersion =>
        let hasRoles :=
          version.GreaterThan comparePrereleases currentVersion requiredVersion in
        ([], d, Ok hasRoles)
    end.

(** ** [resource_grant.go] *)

Definition ReadGrant (meta : MySQLConfiguration) : M unit :=
  db <- lift (GetDbConn meta) ;;
  hasRoles <- supportsRoles db ;;
  d <- getData ;;
  '(userOrRole', _) <- lift (userOrRole (user d) (host d) (role d) hasRoles) ;;
  fun d0 h =>
    match showGrants db userOrRole' d0 h with
    | (t, d1, Err _) =>
        (* GRANT not found - removing from state *)
        (t, SetId "" d1, Ok tt)
    | (t, d1, Ok grants) =>
        let database := database d1 in
        let table := table d1 in
        let found :=
          List.find (fun grant =>
                       (MySQLGrant.Database grant =? database)
                       && (MySQLGrant.Table grant =? table)) grants in
        let privileges :=
          match found with
          | Some grant => MySQLGrant.Privileges grant
          | None => []
          end in
        let grantOption :=
          match found with
          | Some grant => MySQLGrant.Grant grant
          | None => false
          end in
        (t, Set_grant grantOption (Set_privileges privileges d1), Ok tt)
    end.

Definition CreateGrant (meta : MySQLConfiguration) : M unit :=
  db <- lift (GetDbConn meta) ;;
  hasRoles <- supportsRoles db ;;
  d <- getData ;;
  '(privilegesOrRoles, hasPrivs, rolesGranted) <-
    (if (0 <? schema.Len (privileges d))%nat then
       ret (flattenList (schema.List (privileges d)) "" "", true, 0%nat)
     else if (0 <? schema.Len (roles d))%nat then
       if negb hasRoles then
         fail "Roles are only supported on MySQL 8 and above"
       else
         let listOfRoles := schema.List (roles d) in
         ret (flattenList listOfRoles "'" "'", false, List.length listOfRoles)
     else fail "One of privileges or roles is required") ;;
  let user := user d in
  let host := host d in
  let role := role d in
  '(userOrRole', isRole) <- lift (userOrRole user host role hasRoles) ;;
  let database := formatDatabaseName (database d) in
  let table := formatTableName (table d) in
  let grantOn :=
    if (negb isRole || hasPrivs) && (rolesGranted =? 0)%nat
    then " ON " ++ database ++ "." ++ table
    else "" in
  let stmtSQL := "GRANT " ++ privilegesOrRoles ++ grantOn ++ " TO " ++ userOrRole' in
  (* MySQL 8+ doesn't allow REQUIRE on a GRANT statement. *)
  let stmtSQL :=
    if negb hasRoles && negb (tls_option d =? "")
    then stmtSQL ++ " REQUIRE " ++ tls_option d
    else stmtSQL in
  let stmtSQL :=
    if negb hasRoles && negb isRole && grant d
    then stmtSQL ++ " WITH GRANT OPTION"
    else stmtSQL in
  err <- dbExec db stmtSQL ;;
  match err with
  | Some err => fail ("Error running SQL (" ++ stmtSQL ++ "): " ++ err)
  | None =>
      let id :=
        if isRole then role ++ ":" ++ database
        else user ++ "@" ++ host ++ ":" ++ database in
      modify (SetId id) ;;;
      ReadGrant meta
  end.

Definition UpdateGrant (meta : MySQLConfiguration) : M unit :=
  db <- lift (GetDbConn meta) ;;
  hasRoles <- supportsRoles db ;;
  d <- getData ;;
  '(userOrRole', _) <- lift (userOrRole (user d) (host d) (role d) hasRoles) ;;
  let database := formatDatabaseName (database d) in
  let table := table d in
  if negb (schema.Equal HashString (privileges_old d) (privileges d)) then
    let oldPrivs := privileges_old d in
    let newPrivs := privileges d in
    updatePrivileges oldPrivs newPrivs db userOrRole' database table
  else ret tt.

Definition DeleteGrant (meta : MySQLConfiguration) : M unit :=
  db <- lift (GetDbConn meta) ;;
  d <- getData ;;
  let database := formatDatabaseName (database d) in
  let table := formatTableName (table d) in
  hasRoles <- supportsRoles db ;;
  '(userOrRole', isRole) <- lift (userOrRole (user d) (host d) (role d) hasRoles) ;;
  let roles := roles d in
  let privileges := privileges d in
  fl <-
    (if negb isRole && (List.length (schema.List roles) =? 0)%nat then
       let sql :=
         "REVOKE GRANT OPTION ON " ++ database ++ "." ++ table ++ " FROM "
         ++ userOrRole' in
       err <- dbExec db sql ;;
       match err with
       | Some err =>
           if regexp.MatchString reError1141 err then
             (* Error 1141: There is no such grant defined for user *)
             ret Return
           else fail ("error revoking GRANT (" ++ sql ++ "): " ++ err)
       | None => ret Continue
       end
     else ret Continue) ;;
  match fl with
  | Return => ret tt
  | Continue =>
      let whatToRevoke :=
        if (0 <? List.length (schema.List roles))%nat then
          flattenList (schema.List roles) "'" "'"
        else if (0 <? List.length (schema.List privileges))%nat then
          let privilegeList := flattenList (schema.List privileges) "" "" in
          privilegeList ++ " ON " ++ database ++ "." ++ table
        else "ALL ON " ++ database ++ "." ++ table in
      let sql := "REVOKE " ++ whatToRevoke ++ " FROM " ++ userOrRole' in
      err <- dbExec db sql ;;
      match err with
      | Some err => fail ("error revoking ALL (" ++ sql ++ "): " ++ err)
      | None => ret tt
      end
  end.

(** ** [resource_grants.go] *)

Definition expandGrants (p : schema.Set_ SubGrantRead.t) : list SubGrantRead.t :=
  map (fun in_ =>
         SubGrantRead.mk
           (let v := SubGrantRead.Database in_ in
            if (0 <? String.length v)%nat then v else "")
           (let v := SubGrantRead.Table in_ in
            if (0 <? String.length v)%nat then v else "")
           (SubGrantRead.Privileges in_)
           (SubGrantRead.Roles in_)
           (SubGrantRead.Grant in_))
      (schema.List p).

Definition ReadGrants (meta : MySQLConfiguration) : M unit :=
  db <- lift (GetDbConn meta) ;;
  hasRoles <- supportsRoles db ;;
  d <- getData ;;
  '(userOrRole', _) <- lift (userOrRole (user d) (host d) (role d) hasRoles) ;;
  fun d0 h =>
    match showGrants db userOrRole' d0 h with
    | (t, d1, Err _) =>
        (* GRANT not found - removing from state *)
        (t, SetId "" d1, Ok tt)
    | (t, d1, Ok grants) =>
        let subGranter :=
          map (fun grant =>
                 SubGrantRead.mk (MySQLGrant.Database grant)
                                 (MySQLGrant.Table grant)
                                 (MySQLGrant.Privileges grant)
                                 []
                                 (MySQLGrant.Grant grant)) grants in
        (t, Set_grants subGranter d1, Ok tt)
    end.

(** The body of the loop of [CreateGrants]. *)
Definition CreateGrants_body (db : DB) (f : SubGrantRead.t) : M unit :=
  hasRoles <- supportsRoles db ;;
  d <- getData ;;
  '(privilegesOrRoles, hasPrivs, rolesGranted) <-
    (if (0 <? schema.Len (SubGrantRead.Privileges f))%nat then
       ret (flattenList (schema.List (SubGrantRead.Privileges f)) "" "", true, 0%nat)
     else if (0 <? schema.Len (SubGrantRead.Roles f))%nat then
       if negb hasRoles then
         fail "roles are only supported on MySQL 8 and above"
       else
         let listOfRoles := schema.List (SubGrantRead.Roles f) in
         ret (flattenList listOfRoles "'" "'", false, List.length listOfRoles)
     else fail "one of privileges or roles is required") ;;
  let user := user d in
  let host := host d in
  let role := role d in
  '(userOrRole', isRole) <- lift (userOrRole user host role hasRoles) ;;
  let database := formatDatabaseName (SubGrantRead.Database f) in
  let table := formatTableName (SubGrantRead.Table f) in
  let grantOn :=
    if (negb isRole || hasPrivs) && (rolesGranted =? 0)%nat
    then " ON " ++ database ++ "." ++ table
    else "" in
  let stmtSQL := "GRANT " ++ privilegesOrRoles ++ grantOn ++ " TO " ++ userOrRole' in
  (* MySQL 8+ doesn't allow REQUIRE on a GRANT statement. *)
  let stmtSQL :=
    if negb hasRoles && negb (tls_option d =? "")
    then stmtSQL ++ " REQUIRE " ++ tls_option d
    else stmtSQL in
  let stmtSQL :=
    if negb hasRoles && negb isRole && SubGrantRead.Grant f
    then stmtSQL ++ " WITH GRANT OPTION"
    else stmtSQL in
  err <- dbExec db stmtSQL ;;
  match err with
  | Some err => fail ("error running SQL (" ++ stmtSQL ++ "): " ++ err)
  | None => ret tt
  end.

Fixpoint CreateGrants_loop (db : DB) (fs : list SubGrantRead.t) : M unit :=
  match fs with
  | [] => ret tt
  | f :: fs' => CreateGrants_body db f ;;; CreateGrants_loop db fs'
  end.

Definition CreateGrants (meta : MySQLConfiguration) : M unit :=
  db <- lift (GetDbConn meta) ;;
  d <- getData ;;
  let user := user d in
  let host := host d in
  let id := user ++ "@" ++ host in
  let fs := expandGrants (grants d) in
  CreateGrants_loop db fs ;;;
  modify (SetId id) ;;;
  ReadGrants meta.

(** The test of [updatePrivilegesMulti] that pairs an old block with a
    new one. *)
Definition sameScope (oldPrivObj newPrivObj : SubGrantRead.t) : bool :=
  (formatTableName (SubGrantRead.Table newPrivObj)
   =? formatTableName (SubGrantRead.Table oldPrivObj))
  && (formatDatabaseName (SubGrantRead.Database oldPrivObj)
      =? formatDatabaseName (SubGrantRead.Database newPrivObj)).

(** The inner loop of the first loop of [updatePrivilegesMulti]; its value
    is [found]. *)
Fixpoint updatePrivilegesMulti_find (db : DB) (user : string)
         (oldPrivObj : SubGrantRead.t) (newPrivsList : list SubGrantRead.t) : M bool :=
  match newPrivsList with
  | [] => ret false
  | newPrivObj :: newPrivsList' =>
      if sameScope oldPrivObj newPrivObj then
        updatePrivileges
          (SubGrantRead.Privileges newPrivObj)
          (SubGrantRead.Privileges oldPrivObj)
          db user
          (formatDatabaseName (SubGrantRead.Database oldPrivObj))
          (formatTableName (SubGrantRead.Table oldPrivObj)) ;;;
        ret true
      else updatePrivilegesMulti_find db user oldPrivObj newPrivsList'
  end.

(** The first loop, over the old blocks. *)
Fixpoint updatePrivilegesMulti_old (db : DB) (user : string)
         (oldPrivsList newPrivsList : list SubGrantRead.t) : M unit :=
  match oldPrivsList with
  | [] => ret tt
  | oldPrivObj :: oldPrivsList' =>
      found <- updatePrivilegesMulti_find db user oldPrivObj newPrivsList ;;
      (if negb found then
         updatePrivileges
           schema.NewSet
           (SubGrantRead.Privileges oldPrivObj)
           db user
           (formatDatabaseName (SubGrantRead.Database oldPrivObj))
           (formatTableName (SubGrantRead.Table oldPrivObj))
       else ret tt) ;;;
      updatePrivilegesMulti_old db user oldPrivsList' newPrivsList
  end.

(** The second loop, over the new blocks. *)
Fixpoint updatePrivilegesMulti_new (db : DB) (user : string)
         (newPrivsList oldPrivsList : list SubGrantRead.t) : M unit :=
  match newPrivsList with
  | [] => ret tt
  | newPrivObj :: newPrivsList' =>
      let found := existsb (fun oldPrivObj => sameScope oldPrivObj newPrivObj) oldPrivsList in
      (if negb found then
         updatePrivileges
           (SubGrantRead.Privileges newPrivObj)
           schema.NewSet
           db user
           (formatDatabaseName (SubGrantRead.Database newPrivObj))
           (formatTableName (SubGrantRead.Table newPrivObj))
       else ret tt (* covered by previous iterator *)) ;;;
      updatePrivilegesMulti_new db user newPrivsList' oldPrivsList
  end.

Definition updatePrivilegesMulti (db : DB) (user : string) : M unit :=
  d <- getData ;;
  let oldPrivsSet := grants_old d in
  let newPrivsSet := grants d in
  let newPrivsList := schema.List (schema.Difference SubGrantRead.eqb newPrivsSet oldPrivsSet) in
  let oldPrivsList := schema.List (schema.Difference SubGrantRead.eqb oldPrivsSet newPrivsSet) in
  updatePrivilegesMulti_old db user oldPrivsList newPrivsList ;;;
  updatePrivilegesMulti_new db user newPrivsList oldPrivsList.

Definition UpdateGrants (meta : MySQLConfiguration) : M unit :=
  db <- lift (GetDbConn meta) ;;
  hasRoles <- supportsRoles db ;;
  d <- getData ;;
  '(userOrRole', _) <- lift (userOrRole (user d) (host d) (role d) hasRoles) ;;
  if negb (schema.Equal SubGrantRead.eqb (grants_old d) (grants d)) then
    updatePrivilegesMulti db userOrRole'
  else ret tt.

(** The body of the loop of [DeleteGrants]. *)
Definition DeleteGrants_body (db : DB) (userOrRole' : string) (isRole : bool)
           (f : SubGrantRead.t) : M flow :=
  let roles := SubGrantRead.Roles f in
  let database := formatDatabaseName (SubGrantRead.Database f) in
  let table := formatTableName (SubGrantRead.Table f) in
  let privileges := SubGrantRead.Privileges f in
  fl <-
    (if negb isRole && (List.length (schema.List roles) =? 0)%nat then
       let sql :=
         "REVOKE GRANT OPTION ON " ++ database ++ "." ++ table ++ " FROM "
         ++ userOrRole' in
       err <- dbExec db sql ;;
       match err with
       | Some err =>
           if regexp.MatchString reError1141 err then
             (* Error 1141: There is no such grant defined for user *)
             ret Return
           else fail ("error revoking GRANT (" ++ sql ++ "): " ++ err)
       | None => ret Continue
       end
     else ret Continue) ;;
  match fl with
  | Return => ret Return
  | Continue =>
      let whatToRevoke :=
        if (0 <? List.length (schema.List roles))%nat then
          flattenList (schema.List roles) "'" "'"
        else if (0 <? List.length (schema.List privileges))%nat then
          let privilegeList := flattenList (schema.List privileges) "" "" in
          privilegeList ++ " ON " ++ database ++ "." ++ table
        else "ALL ON " ++ database ++ "." ++ table in
      let sql := "REVOKE " ++ whatToRevoke ++ " FROM " ++ userOrRole' in
      err <- dbExec db sql ;;
      match err with
      | Some err => fail ("error revoking ALL (" ++ sql ++ "): " ++ err)
      | None => ret Continue
      end
  end.

Fixpoint DeleteGrants_loop (db : DB) (userOrRole' : string) (isRole : bool)
         (fs : list SubGrantRead.t) : M unit :=
  match fs with
  | [] => ret tt
  | f :: fs' =>
      fl <- DeleteGrants_body db userOrRole' isRole f ;;
      match fl with
      | Return => ret tt
      | Continue => DeleteGrants_loop db userOrRole' isRole fs'
      end
  end.

Definition DeleteGrants (meta : MySQLConfiguration) : M unit :=
  db <- lift (GetDbConn meta) ;;
  hasRoles <- supportsRoles db ;;
  d <- getData ;;
  '(userOrRole', isRole) <- lift (userOrRole (user d) (host d) (role d) hasRoles) ;;
  let fs := expandGrants (grants d) in
  DeleteGrants_loop db userOrRole' isRole fs.

End Provider.

(** ** The importers *)

(** [s[lo:hi]] and [s[lo:]], for indices within [s] (the importers slice
    at an index [strings.LastIndex] found, which is). *)
Definition slice (s : string) (lo hi : Z) : string :=
  String.substring (Z.to_nat lo) (Z.to_nat (hi - lo)) s.

Definition sliceFrom (s : string) (lo : Z) : string :=
  String.substring (Z.to_nat lo) (String.length s - Z.to_nat lo) s.

Definition restoreGrant (user host : string) (grant : MySQLGrant.t) : ResourceData :=
  let d := Data_nil in
  let database := MySQLGrant.Database grant in
  let id := user ++ "@" ++ host ++ ":" ++ formatDatabaseName database in
  let d := SetId id d in
  let d := Set_user user d in
  let d := Set_host host d in
  let d := Set_database database d in
  let d := Set_table (MySQLGrant.Table grant) d in
  let d := Set_grant (MySQLGrant.Grant grant) d in
  let d := Set_tls_option "NONE" d in
  let d := Set_privileges (MySQLGrant.Privileges grant) d in
  d.

Definition ImportGrant (meta : MySQLConfiguration) : M (list ResourceData) :=
  d <- getData ;;
  let lastSeparatorIndex := strings.LastIndex (Id d) "@" in
  if (lastSeparatorIndex <=? 0)%Z then
    fail ("wrong ID format " ++ Id d ++ " (expected USER@HOST)")
  else
    let user := slice (Id d) 0 lastSeparatorIndex in
    let host := sliceFrom (Id d) (lastSeparatorIndex + 1) in
    db <- lift (GetDbConn meta) ;;
    grants <- showGrants db ("'" ++ user ++ "'@'" ++ host ++ "'") ;;
    ret (map (restoreGrant user host) grants).

Definition restoreGrants (user host : string) (grants : list MySQLGrant.t)
  : ResourceData :=
  let d := Data_nil in
  let id := user ++ "@" ++ host in
  let d := SetId id d in
  let d := Set_user user d in
  let d := Set_host host d in
  let grantResources :=
    map (fun grant =>
           SubGrantRead.mk (formatDatabaseName (MySQLGrant.Database grant))
                           (formatTableName (MySQLGrant.Table grant))
                           (MySQLGrant.Privileges grant)
                           []
                           (MySQLGrant.Grant grant)) grants in
  let d := Set_grants grantResources d in
  let d := Set_tls_option "NONE" d in
  d.

Definition ImportGrants (meta : MySQLConfiguration) : M (list ResourceData) :=
  d <- getData ;;
  let lastSeparatorIndex := strings.LastIndex (Id d) "@" in
  if (lastSeparatorIndex <=? 0)%Z then
    fail ("wrong ID format " ++ Id d ++ " (expected USER@HOST)")
  else
    let user := slice (Id d) 0 lastSeparatorIndex in
    let host := sliceFrom (Id d) (lastSeparatorIndex + 1) in
    db <- lift (GetDbConn meta) ;;
    grants <- showGrants db ("'" ++ user ++ "'@'" ++ host ++ "'") ;;
    ret [restoreGrants user host grants].

(** * The reconciliation the specification describes

    The statements of the specification's modes, as lists of statements to
    run in order, for comparison with what the provider sends. *)

Module Spec.

Definition revokeStatement (privs : list string) (database table principal : string)
  : string :=
  "REVOKE " ++ strings.Join privs "," ++ " ON " ++ database ++ "." ++ table
  ++ " FROM " ++ principal.

Definition grantStatement (privs : list string) (database table principal : string)
  : string :=
  "GRANT " ++ strings.Join privs "," ++ " ON " ++ database ++ "." ++ table
  ++ " TO " ++ principal.

(** Single-scope mode: revoke [current - desired] when it is not empty,
    then grant [desired - current] when it is not empty. *)
Definition singleScope (current desired : schema.Set_ string)
           (database table principal : string) : list string :=
  let toRevoke := schema.Difference HashString current desired in
  let toGrant := schema.Difference HashString desired current in
  ((match toRevoke with
    | [] => []
    | _ => [revokeStatement toRevoke database table principal]
    end)
   ++
   (match toGrant with
    | [] => []
    | _ => [grantStatement toGrant database table principal]
    end))%list.

(** Running a list of statements: in order, stopping at the first one the
    server refuses, whose error is returned. *)
Fixpoint runPlan (db : DB) (plan : list string) : M unit :=
  match plan with
  | [] => ret tt
  | stmtSQL :: plan' =>
      err <- dbExec db stmtSQL ;;
      match err with
      | Some err => fail err
      | None => runPlan db plan'
      end
  end.

Definition scope (g : SubGrantRead.t) : string * string :=
  (formatDatabaseName (SubGrantRead.Database g), formatTableName (SubGrantRead.Table g)).

Definition scope_eqb (a b : SubGrantRead.t) : bool :=
  (fst (scope a) =? fst (scope b)) && (snd (scope a) =? snd (scope b)).

(** Multi-scope mode over the blocks that changed, with the pairs the
    provider makes.  An old block is
    reconciled with the first new block of the same formatted scope, or
    fully revoked when there is none; then every new block whose scope no
    old block has is fully granted. *)
Definition multiScope (principal : string) (oldSpecs newSpecs : list SubGrantRead.t)
  : list string :=
  (flat_map
     (fun o =>
        match List.find (scope_eqb o) newSpecs with
        | Some n =>
            singleScope (SubGrantRead.Privileges o) (SubGrantRead.Privileges n)
                        (fst (scope o)) (snd (scope o)) principal
        | None =>
            singleScope (SubGrantRead.Privileges o) []
                        (fst (scope o)) (snd (scope o)) principal
        end) oldSpecs
   ++
   flat_map
     (fun n =>
        if existsb (fun o => scope_eqb o n) oldSpecs then []
        else singleScope [] (SubGrantRead.Privileges n)
                         (fst (scope n)) (snd (scope n)) principal) newSpecs)%list.

(** The statement of creation, clause by clause, as the provider decides
    it: it looks at the privileges first, so a block is handled as
    role-based when it names roles and no privileges. *)
Definition roleBased (privs roles : schema.Set_ string) : bool :=
  match privs, roles with
  | [], _ :: _ => true
  | _, _ => false
  end.

Definition privilegeBased (privs : schema.Set_ string) : bool :=
  match privs with
  | [] => false
  | _ => true
  end.

Definition createStatement (privs roles : schema.Set_ string)
           (database table principal tlsOption : string)
           (isRole grantOption hasRoles : bool) : string :=
  "GRANT "
  ++ (if roleBased privs roles then flattenList roles "'" "'" else flattenList privs "" "")
  ++ (if roleBased privs roles then ""
      else " ON " ++ formatDatabaseName database ++ "." ++ formatTableName table)
  ++ " TO " ++ principal
  ++ (if hasRoles || (tlsOption =? "") then "" else " REQUIRE " ++ tlsOption)
  ++ (if privilegeBased privs && negb isRole && grantOption && negb hasRoles
      then " WITH GRANT OPTION" else "").




(** Multi-scope mode read with every pair of an old and a new block of
    the same formatted scope reconciled: each statement of the
    single-scope diff of such a pair is among the events. *)
Definition reconcilesEveryMatchedPair (principal : string)
           (oldSpecs newSpecs : list SubGrantRead.t) (trace : list event) : Prop :=
  forall o n,
    In o oldSpecs -> In n newSpecs -> scope_eqb o n = true ->
    forall stmtSQL,
      In stmtSQL (singleScope (SubGrantRead.Privileges o) (SubGrantRead.Privileges n)
                              (fst (scope o)) (snd (scope o)) principal) ->
      In (Exec stmtSQL) trace.

(** Creation sends a statement when the block is privilege-based, or is
    role-based on a server with roles. *)
Definition creates (privs roles : schema.Set_ string) (hasRoles : bool) : bool :=
  privilegeBased privs || (roleBased privs roles && hasRoles).

(** The first statement of the deletion of one block of a principal that
    is not a role, when the block names no role. *)
Definition revokeGrantOption (database table principal : string) : string :=
  "REVOKE GRANT OPTION ON " ++ formatDatabaseName database ++ "."
  ++ formatTableName table ++ " FROM " ++ principal.

End Spec.


(** Two runs that send the same events and leave the same resource data,
    and fail with the same error or both succeed, whatever the value. *)
Definition sameButValue {A B : Type}
           (x : list event * ResourceData * result A)
           (y : list event * ResourceData * result B) : Prop :=
  emitted x = emitted y /\ dataAfter x = dataAfter y
  /\ match returned x, returned y with
     | Ok _, Ok _ => True
     | Err e1, Err e2 => e1 = e2
     | _, _ => False
     end.

(** * Servers and resources for running the provider *)

Module Examples.

Definition mysql_5_7_30 : version.Version := version.mkVersion [5; 7; 30]%Z "".
Definition mysql_8_0_0 : version.Version := version.mkVersion [8; 0; 0]%Z "".
Definition mysql_8_0_23 : version.Version := version.mkVersion [8; 0; 23]%Z "".

(** An order of prerelease tags for the runs below; none of them has a
    version with a prerelease tag, so it is never consulted. *)
Definition lexical : string -> string -> Z := strings.Compare.

(** A server of version [v] that accepts every statement and has no grant
    to show. *)
Definition accepting (v : version.Version) : DB :=
  mkDB (fun _ => Ok v) (fun _ _ => None) (fun _ _ => Ok []).

(** A server that answers every statement with error 1141. *)
Definition noSuchGrant (v : version.Version) : DB :=
  mkDB (fun _ => Ok v)
       (fun _ _ => Some "Error 1141: There is no such grant defined for user 'jdoe' on host 'example.com'")
       (fun _ _ => Err "Error 1141: There is no such grant defined for user 'jdoe' on host 'example.com'").

(** A server that has lost the connection. *)
Definition broken (v : version.Version) : DB :=
  mkDB (fun _ => Ok v)
       (fun _ _ => Some "invalid connection")
       (fun _ _ => Err "invalid connection").

(** A server that accepts every statement and shows the given lines. *)
Definition showing (v : version.Version) (lines : list string) : DB :=
  mkDB (fun _ => Ok v) (fun _ _ => None) (fun _ _ => Ok (map Ok lines)).

(** A server that accepts every statement and fails every query. *)
Definition unreadable (v : version.Version) : DB :=
  mkDB (fun _ => Ok v) (fun _ _ => None) (fun _ _ => Err "invalid connection").

Definition connected (db : DB) : MySQLConfiguration := mkMySQLConfiguration (Ok db).

(** [mysql_grant] for ['jdoe'@'example.com'] on database [d1]. *)
Definition grantOf (privileges_old privileges roles : list string) (grant : bool)
  : ResourceData :=
  mkResourceData "jdoe@example.com:`d1`" "jdoe" "example.com" "" "d1" "*" "NONE"
                 grant privileges_old privileges roles [] [].

(** [mysql_grants] for ['jdoe'@'example.com']. *)
Definition grantsOf (grants_old grants : list SubGrantRead.t) : ResourceData :=
  mkResourceData "jdoe@example.com" "jdoe" "example.com" "" "" "" "NONE"
                 false [] [] [] grants_old grants.

Definition block (database : string) (privileges : list string) : SubGrantRead.t :=
  SubGrantRead.mk database "*" privileges [] false.

End Examples.

(** * Words, matches and tokens *)

Fixpoint allChars (p : ascii -> bool) (s : string) : bool :=
  match s with
  | EmptyString => true
  | String c s' => p c && allChars p s'
  end.

Definition headIs (p : ascii -> bool) (s : string) : bool :=
  match s with
  | EmptyString => false
  | String c _ => p c
  end.

(** A text is a word of the class [p]: not empty, all its bytes in [p]. *)
Definition isWordOf (p : ascii -> bool) (w : string) : Prop :=
  w <> "" /\ allChars p w = true.

(** The texts a pattern matches. *)
Inductive Matches : regexp.Regexp -> string -> Prop :=
| MChr c : Matches (regexp.Chr c) (String c "")
| MPlus p w : isWordOf p w -> Matches (regexp.Plus p) w
| MPlusLazy p w : isWordOf p w -> Matches (regexp.PlusLazy p) w
| MOptSome r m : Matches r m -> Matches (regexp.Opt r) m
| MOptNone r : Matches (regexp.Opt r) ""
| MSeq r1 r2 m1 m2 : Matches r1 m1 -> Matches r2 m2 -> Matches (regexp.Seq r1 r2) (m1 ++ m2)
| MAltL r1 r2 m : Matches r1 m -> Matches (regexp.Alt r1 r2) m
| MAltR r1 r2 m : Matches r2 m -> Matches (regexp.Alt r1 r2) m
| MGroup r m : Matches r m -> Matches (regexp.Group r) m.

(** A pattern that cannot start with a byte of the class [p]. *)
Definition rejectsHead (p : ascii -> bool) (r : regexp.Regexp) : Prop :=
  forall s caps k, headIs p s = true -> regexp.run r s caps k = None.

(** What may follow a token in a rendered list: nothing, or a comma. *)
Definition tailOk (rest : string) : bool :=
  match rest with
  | EmptyString => true
  | String c _ => Ascii.eqb c ","
  end.

(** The tokens [parsePrivileges] gives: one, two or three words, or a word
    and a column list in one space and parentheses. *)
Inductive Normalized : string -> Prop :=
| NWord1 w : isWordOf regexp.upper w -> Normalized w
| NWord2 w1 w2 :
    isWordOf regexp.upper w1 -> isWordOf regexp.upper w2 ->
    Normalized (w1 ++ " " ++ w2)
| NWord3 w1 w2 w3 :
    isWordOf regexp.upper w1 -> isWordOf regexp.upper w2 -> isWordOf regexp.upper w3 ->
    Normalized (w1 ++ " " ++ w2 ++ " " ++ w3)
| NColumns w cols :
    isWordOf regexp.upper w -> isWordOf columnChar cols ->
    Normalized (w ++ " (" ++ cols ++ ")").

(** A text without the byte [c]. *)
Definition without (c : ascii) (s : string) : bool :=
  allChars (fun d => negb (Ascii.eqb c d)) s.

(** A text without the separator of column lists. *)
Definition sepFree (p : string) : Prop := strings.Contains p ", " = false.

(** The order of [sort.Strings]. *)
Definition le (a b : string) : Prop := String.leb a b = true.

(** The columns of a column list, in order. *)
Definition sortedColumns (cols : string) : string :=
  strings.Join (sort.Strings (strings.Split cols ", ")) ", ".

(** The bytes of a column name: [[a-zA-Z0-9_`]]. *)
Definition nameChar (c : ascii) : bool :=
  regexp.lower c || regexp.upper c || regexp.digit c
  || Ascii.eqb c "_" || Ascii.eqb c "`".

(** * Properties *)

(** ** The tests of [utils_test.go] *)

Example TestParsePrivileges :
  parsePrivileges "SELECT, UPDATE, DELETE" = ["SELECT"; "UPDATE"; "DELETE"].
Proof. reflexivity. Qed.

Example TestParsePrivilegesWithoutSpaces :
  parsePrivileges "SELECT,UPDATE,DELETE" = ["SELECT"; "UPDATE"; "DELETE"].
Proof. reflexivity. Qed.

Example TestParsePrivilegesWithColumnGrants :
  parsePrivileges "SELECT (id, user),UPDATE, DELETE"
  = ["SELECT (id, user)"; "UPDATE"; "DELETE"].
Proof. reflexivity. Qed.

Example TestParsePrivilegesWithColumnGrantsSorting :
  parsePrivileges "SELECT (user, id), UPDATE, DELETE"
  = ["SELECT (id, user)"; "UPDATE"; "DELETE"].
Proof. reflexivity. Qed.

(** ** Identifier formatting *)

Lemma length_pos_iff (s : string) : (0 <? String.length s)%nat = true <-> s <> "".
Proof.
  destruct s; simpl; split; intro H; try congruence; try discriminate.
  reflexivity.
Qed.

Lemma strings_replace_go_done (old new s : string) :
  strings.replace_go old new 0 0 s = s.
Proof. destruct s; reflexivity. Qed.

Lemma formatDatabaseName_quoted (database : string) :
  strings.HasSuffix database "`" = true -> formatDatabaseName database = database.
Proof.
  intro H. unfold formatDatabaseName. rewrite H.
  rewrite andb_false_r. reflexivity.
Qed.

Lemma formatDatabaseName_procedure (name : string) :
  strings.HasSuffix ("PROCEDURE " ++ name) "`" = false ->
  formatDatabaseName ("PROCEDURE " ++ name) = "PROCEDURE `" ++ name ++ "`".
Proof.
  intro H. unfold formatDatabaseName. rewrite H.
  unfold strings.Replace. simpl. rewrite strings_replace_go_done. reflexivity.
Qed.

(** C9: [formatDatabaseName] leaves the wildcard and a name that already
    ends with the quote character unchanged, quotes any other name, and
    keeps a leading [PROCEDURE ] outside the quotes; [formatTableName] gives
    the wildcard for the empty name and for the wildcard and quotes any
    other name.  Both are total functions: every name has a result. *)
Theorem identifier_formatting :
  formatDatabaseName "*" = "*"
  /\ formatDatabaseName "mydb" = "`mydb`"
  /\ (forall database, strings.HasSuffix database "`" = true ->
        formatDatabaseName database = database)
  /\ (forall name, strings.HasSuffix ("PROCEDURE " ++ name) "`" = false ->
        formatDatabaseName ("PROCEDURE " ++ name) = "PROCEDURE `" ++ name ++ "`")
  /\ formatTableName "" = "*"
  /\ formatTableName "*" = "*"
  /\ formatTableName "t1" = "`t1`"
  /\ (forall table, table <> "" -> table <> "*" ->
        formatTableName table = "`" ++ table ++ "`")
  /\ (forall name, exists quoted, formatDatabaseName name = quoted)
  /\ (forall name, exists quoted, formatTableName name = quoted).
Proof.
  repeat split; try reflexivity.
  - apply formatDatabaseName_quoted.
  - apply formatDatabaseName_procedure.
  - intros table H1 H2. unfold formatTableName.
    apply String.eqb_neq in H1, H2. rewrite H1, H2. reflexivity.
  - intro name. eexists. reflexivity.
  - intro name. eexists. reflexivity.
Qed.

Lemma identifier_formatting_witness :
  formatDatabaseName "`mydb`" = "`mydb`"
  /\ formatDatabaseName "PROCEDURE mydb.proc" = "PROCEDURE `mydb.proc`"
  /\ formatTableName "t1" = "`" ++ "t1" ++ "`".
Proof.
  destruct identifier_formatting as (_ & _ & Hq & Hp & _ & _ & _ & Ht & _).
  split; [ apply Hq; reflexivity | split ].
  - apply (Hp "mydb.proc"). reflexivity.
  - apply Ht; discriminate.
Defined.

(** ** The principal resolver *)

(** C6: with a user and a host the principal is ['user'@'host'] and is not a
    role, whatever the role; otherwise, with a role, the resolver fails when
    the server has no roles and gives the role principal ['role'] when it
    has; with neither it fails.  Every input has a result. *)
Theorem userOrRole_decision_table (user host role : string) (hasRoles : bool) :
  (user <> "" -> host <> "" ->
     userOrRole user host role hasRoles
     = Ok ("'" ++ user ++ "'@'" ++ host ++ "'", false))
  /\ (user = "" \/ host = "" -> role <> "" -> hasRoles = false ->
        exists err, userOrRole user host role hasRoles = Err err)
  /\ (user = "" \/ host = "" -> role <> "" -> hasRoles = true ->
        userOrRole user host role hasRoles = Ok ("'" ++ role ++ "'", true))
  /\ (user = "" \/ host = "" -> role = "" ->
        exists err, userOrRole user host role hasRoles = Err err)
  /\ (exists r, userOrRole user host role hasRoles = r).
Proof.
  unfold userOrRole.
  assert (Hno : user = "" \/ host = "" ->
                (0 <? String.length user)%nat && (0 <? String.length host)%nat = false).
  { intros [H | H]; subst; simpl; [reflexivity | apply andb_false_r]. }
  repeat split.
  - intros Hu Hh. apply length_pos_iff in Hu, Hh. rewrite Hu, Hh. reflexivity.
  - intros H Hr Hs. rewrite (Hno H). apply length_pos_iff in Hr. rewrite Hr. subst.
    eexists. reflexivity.
  - intros H Hr Hs. rewrite (Hno H). apply length_pos_iff in Hr. rewrite Hr. subst.
    reflexivity.
  - intros H Hr. rewrite (Hno H). subst role. eexists. reflexivity.
  - eexists. reflexivity.
Qed.

Lemma userOrRole_decision_table_witness :
  userOrRole "jdoe" "example.com" "admin" false = Ok ("'jdoe'@'example.com'", false)
  /\ (exists err, userOrRole "" "localhost" "admin" false = Err err)
  /\ userOrRole "" "localhost" "admin" true = Ok ("'admin'", true)
  /\ (exists err, userOrRole "jdoe" "" "" true = Err err).
Proof.
  split; [| split; [| split]].
  - destruct (userOrRole_decision_table "jdoe" "example.com" "admin" false) as (H & _).
    apply H; discriminate.
  - destruct (userOrRole_decision_table "" "localhost" "admin" false) as (_ & H & _).
    apply H; [left; reflexivity | discriminate | reflexivity].
  - destruct (userOrRole_decision_table "" "localhost" "admin" true) as (_ & _ & H & _).
    apply H; [left; reflexivity | discriminate | reflexivity].
  - destruct (userOrRole_decision_table "jdoe" "" "" true) as (_ & _ & _ & H & _).
    apply H; [right; reflexivity | reflexivity].
Defined.

(** ** Role support *)

Lemma segments_eqb_eq (a b : list Z) : version.segments_eqb a b = true -> a = b.
Proof.
  revert b. induction a as [| x a IH]; intros [| y b] H; simpl in H;
    try discriminate; [reflexivity |].
  apply andb_true_iff in H as [Hx H]. apply Z.eqb_eq in Hx. subst y.
  f_equal. apply IH. exact H.
Qed.

Lemma GreaterThan_release (v : version.Version) (cmp : string -> string -> Z) :
  version.prerelease v = "" ->
  version.GreaterThan cmp v requiredVersion
  = (version.compareSegments (version.segments v) [8; 0; 0] >? 0)%Z.
Proof.
  intro Hpre. unfold version.GreaterThan, version.Compare. rewrite Hpre. simpl.
  destruct (version.segments_eqb (version.segments v) [8; 0; 0]%Z) eqn:E; [| reflexivity].
  apply segments_eqb_eq in E. rewrite E. reflexivity.
Qed.

(** What [supportsRoles] computes: the version is above 8.0.0, strictly. *)
Lemma supportsRoles_strict (cmp : string -> string -> Z) (db : DB)
      (d : ResourceData) (h : list event) (v : version.Version) :
  serverVersion db h = Ok v ->
  supportsRoles cmp db d h = ([], d, Ok (version.Compare cmp v requiredVersion >? 0)%Z).
Proof.
  intro H. unfold supportsRoles. rewrite H. reflexivity.
Qed.

(** C3: on a server that reports version 8.0.0, [supportsRoles] answers
    false, although 8.0.0 is at least the threshold 8.0.0: the comparison is
    [GreaterThan], not [GreaterThanOrEqual]. *)
Theorem supportsRoles_at_8_0_0 (cmp : string -> string -> Z)
        (d : ResourceData) (h : list event) :
  returned (supportsRoles cmp (Examples.accepting Examples.mysql_8_0_0) d h) = Ok false
  /\ version.GreaterThanOrEqual cmp Examples.mysql_8_0_0 requiredVersion = true
  /\ returned (supportsRoles cmp (Examples.accepting Examples.mysql_8_0_23) d h) = Ok true
  /\ returned (supportsRoles cmp (Examples.accepting Examples.mysql_5_7_30) d h) = Ok false.
Proof. repeat split. Qed.

(** ** Steps of a call *)

Lemma bind_pure {A B : Type} (m : M A) (f : A -> M B)
      (d : ResourceData) (h : list event) (a : A) :
  m d h = ([], d, Ok a) -> bind m f d h = f a d h.
Proof.
  intro H. unfold bind. rewrite H, app_nil_r.
  destruct (f a d h) as [[t d'] r]. reflexivity.
Qed.

Lemma bind_error {A B : Type} (m : M A) (f : A -> M B)
      (d d' : ResourceData) (h t : list event) (e : string) :
  m d h = (t, d', Err e) -> bind m f d h = (t, d', Err e).
Proof. intro H. unfold bind. rewrite H. reflexivity. Qed.

Lemma bind_dbExec {B : Type} (db : DB) (stmtSQL : string) (f : option string -> M B)
      (d : ResourceData) (h : list event) :
  bind (dbExec db stmtSQL) f d h
  = (Exec stmtSQL :: emitted (f (exec db h stmtSQL) d (h ++ [Exec stmtSQL])%list),
     dataAfter (f (exec db h stmtSQL) d (h ++ [Exec stmtSQL])%list),
     returned (f (exec db h stmtSQL) d (h ++ [Exec stmtSQL])%list)).
Proof.
  unfold bind, dbExec, emitted, dataAfter, returned.
  destruct (f (exec db h stmtSQL) d (h ++ [Exec stmtSQL])%list) as [[t d'] r].
  reflexivity.
Qed.

Lemma supportsRoles_pure (cmp : string -> string -> Z) (db : DB)
      (d : ResourceData) (h : list event) :
  supportsRoles cmp db d h = ([], d, returned (supportsRoles cmp db d h)).
Proof.
  unfold supportsRoles, returned. destruct (serverVersion db h); reflexivity.
Qed.

(** ** Reading the grant *)

Lemma showGrants_data (db : DB) (user : string) (d : ResourceData) (h : list event) :
  dataAfter (showGrants db user d h) = d.
Proof.
  unfold showGrants, bind, dbQuery, fail, lift, dataAfter.
  destruct (query db h ("SHOW GRANTS FOR " ++ user)); reflexivity.
Qed.

Lemma showGrants_emitted (db : DB) (user : string) (d : ResourceData) (h : list event) :
  emitted (showGrants db user d h) = [Query ("SHOW GRANTS FOR " ++ user)].
Proof.
  unfold showGrants, bind, dbQuery, fail, lift, emitted.
  destruct (query db h ("SHOW GRANTS FOR " ++ user)); reflexivity.
Qed.

(** The three ways [showGrants] fails: the query fails, a row cannot be
    read, a row is not a grant line. *)
Lemma showGrants_query_error (db : DB) (user : string) (d : ResourceData)
      (h : list event) (err : string) :
  query db h ("SHOW GRANTS FOR " ++ user) = Err err ->
  returned (showGrants db user d h) = Err err.
Proof.
  intro H. unfold showGrants, bind, dbQuery, fail, returned. rewrite H. reflexivity.
Qed.

Lemma showGrants_rows_scan_error (rows rows' : list (result string)) (err : string)
      (grants : list MySQLGrant.t) :
  (forall row, In row rows -> exists rawGrant,
        row = Ok rawGrant
        /\ List.length (regexp.FindStringSubmatch re rawGrant) = 4%nat) ->
  showGrants_rows (rows ++ Err err :: rows')%list grants = Err err.
Proof.
  revert grants. induction rows as [| row rows IH]; intros grants Hrows; simpl.
  - reflexivity.
  - destruct (Hrows row (or_introl eq_refl)) as (rawGrant & -> & Hlen).
    rewrite Hlen. simpl. apply IH. intros r Hr. apply Hrows. right. exact Hr.
Qed.

Lemma showGrants_rows_parse_error (rows rows' : list (result string)) (rawGrant : string)
      (grants : list MySQLGrant.t) :
  (forall row, In row rows -> exists rawGrant,
        row = Ok rawGrant
        /\ List.length (regexp.FindStringSubmatch re rawGrant) = 4%nat) ->
  List.length (regexp.FindStringSubmatch re rawGrant) <> 4%nat ->
  showGrants_rows (rows ++ Ok rawGrant :: rows')%list grants
  = Err ("failed to parse grant statement: " ++ rawGrant).
Proof.
  revert grants. induction rows as [| row rows IH]; intros grants Hrows Hbad; simpl.
  - apply Nat.eqb_neq in Hbad. rewrite Hbad. reflexivity.
  - destruct (Hrows row (or_introl eq_refl)) as (raw & -> & Hlen).
    rewrite Hlen. simpl. apply IH; [| exact Hbad].
    intros r Hr. apply Hrows. right. exact Hr.
Qed.

(** C10: whenever [showGrants] returns an error, whatever the error,
    [ReadGrant] returns no error and clears the identifier of the resource;
    nothing else of the resource changes and nothing more is sent. *)
Theorem ReadGrant_absent_on_any_error
        (cmp : string -> string -> Z) (meta : MySQLConfiguration) (db : DB)
        (d : ResourceData) (h : list event) (hasRoles isRole : bool)
        (principal err : string) :
  GetDbConn meta = Ok db ->
  returned (supportsRoles cmp db d h) = Ok hasRoles ->
  userOrRole (user d) (host d) (role d) hasRoles = Ok (principal, isRole) ->
  returned (showGrants db principal d h) = Err err ->
  ReadGrant cmp meta d h
  = ([Query ("SHOW GRANTS FOR " ++ principal)], SetId "" d, Ok tt)
  /\ Id (dataAfter (ReadGrant cmp meta d h)) = "".
Proof.
  intros Hdb Hroles Hprincipal Herr.
  assert (E : ReadGrant cmp meta d h
              = ([Query ("SHOW GRANTS FOR " ++ principal)], SetId "" d, Ok tt)).
  { unfold ReadGrant.
    rewrite (bind_pure _ _ _ _ db) by (unfold lift; rewrite Hdb; reflexivity).
    rewrite (bind_pure _ _ _ _ hasRoles)
      by (rewrite supportsRoles_pure, Hroles; reflexivity).
    rewrite (bind_pure _ _ _ _ d) by reflexivity.
    rewrite (bind_pure _ _ _ _ (principal, isRole))
      by (unfold lift; rewrite Hprincipal; reflexivity).
    pose proof (showGrants_data db principal d h) as Hd.
    pose proof (showGrants_emitted db principal d h) as He.
    destruct (showGrants db principal d h) as [[t d1] r].
    unfold dataAfter, emitted, returned in *. simpl in *. subst. reflexivity. }
  split; [exact E | rewrite E; reflexivity].
Qed.

Lemma ReadGrant_absent_on_any_error_witness :
  ReadGrant Examples.lexical (Examples.connected (Examples.broken Examples.mysql_5_7_30))
            (Examples.grantOf [] ["SELECT"] [] false) []
  = ([Query "SHOW GRANTS FOR 'jdoe'@'example.com'"],
     SetId "" (Examples.grantOf [] ["SELECT"] [] false), Ok tt)
  /\ Id (dataAfter
           (ReadGrant Examples.lexical
                      (Examples.connected (Examples.broken Examples.mysql_5_7_30))
                      (Examples.grantOf [] ["SELECT"] [] false) [])) = "".
Proof.
  apply (ReadGrant_absent_on_any_error
           Examples.lexical (Examples.connected (Examples.broken Examples.mysql_5_7_30))
           (Examples.broken Examples.mysql_5_7_30)
           (Examples.grantOf [] ["SELECT"] [] false) [] false false
           "'jdoe'@'example.com'" "invalid connection"); reflexivity.
Defined.

(** ** Sets *)

Lemma schema_Equal_eq {A : Type} (eqb : A -> A -> bool) (s other : schema.Set_ A) :
  (forall x y, eqb x y = true <-> x = y) ->
  schema.Equal eqb s other = true -> s = other.
Proof.
  intro Heqb. revert other.
  induction s as [| x s IH]; intros [| y other] H; simpl in H; try discriminate.
  - reflexivity.
  - apply andb_true_iff in H as [Hxy H]. apply Heqb in Hxy. subst y.
    f_equal. apply IH. exact H.
Qed.

Lemma schema_Difference_self {A : Type} (eqb : A -> A -> bool) (s : schema.Set_ A) :
  (forall x, eqb x x = true) -> schema.Difference eqb s s = [].
Proof.
  intro Hrefl. unfold schema.Difference, schema.Contains.
  assert (H : forall l, (forall x, In x l -> In x s) ->
                        filter (fun x => negb (existsb (eqb x) s)) l = []).
  { induction l as [| x l IH]; intro Hl; [reflexivity |]. simpl.
    assert (E : existsb (eqb x) s = true).
    { apply existsb_exists. exists x. split; [apply Hl; left; reflexivity | apply Hrefl]. }
    rewrite E. simpl. apply IH. intros y Hy. apply Hl. right. exact Hy. }
  apply H. auto.
Qed.

(** ** Single-scope mode *)

Lemma bind_ret_tt {B : Type} (f : unit -> M B) (d : ResourceData) (h : list event) :
  bind (ret tt) f d h = f tt d h.
Proof. apply bind_pure. reflexivity. Qed.

Lemma runPlan_cons (db : DB) (stmtSQL : string) (plan : list string)
      (d : ResourceData) (h : list event) :
  Spec.runPlan db (stmtSQL :: plan) d h
  = match exec db h stmtSQL with
    | Some err => ([Exec stmtSQL], d, Err err)
    | None =>
        (Exec stmtSQL :: emitted (Spec.runPlan db plan d (h ++ [Exec stmtSQL])%list),
         dataAfter (Spec.runPlan db plan d (h ++ [Exec stmtSQL])%list),
         returned (Spec.runPlan db plan d (h ++ [Exec stmtSQL])%list))
    end.
Proof.
  simpl. rewrite bind_dbExec. destruct (exec db h stmtSQL); reflexivity.
Qed.

(** Running two plans one after the other is running their concatenation. *)
Lemma runPlan_app (db : DB) (p1 p2 : list string) (f : unit -> M unit)
      (d : ResourceData) (h : list event) :
  (forall u d' h', f u d' h' = Spec.runPlan db p2 d' h') ->
  bind (Spec.runPlan db p1) f d h = Spec.runPlan db (p1 ++ p2)%list d h.
Proof.
  intro Hf. revert h. induction p1 as [| s p1 IH]; intro h.
  - rewrite (bind_pure _ _ _ _ tt) by reflexivity. apply Hf.
  - simpl app. rewrite runPlan_cons.
    specialize (IH (h ++ [Exec s])%list).
    unfold bind in *. rewrite runPlan_cons.
    destruct (exec db h s) as [e |]; [reflexivity |].
    destruct (Spec.runPlan db p1 d (h ++ [Exec s])%list) as [[t1 d1] [[] | e1]];
      unfold emitted, dataAfter, returned; simpl.
    + rewrite <- IH. rewrite <- app_assoc. simpl.
      destruct (f tt d1 (h ++ Exec s :: t1)%list) as [[t2 d2] r2]. reflexivity.
    + rewrite <- IH. reflexivity.
Qed.

Lemma bind_exec_or_fail {B : Type} (db : DB) (stmtSQL : string) (f : unit -> M B)
      (d : ResourceData) (h : list event) :
  bind (bind (dbExec db stmtSQL)
             (fun err => match err with
                         | Some err0 => fail err0
                         | None => ret tt
                         end)) f d h
  = match exec db h stmtSQL with
    | Some err => ([Exec stmtSQL], d, Err err)
    | None =>
        (Exec stmtSQL :: emitted (f tt d (h ++ [Exec stmtSQL])%list),
         dataAfter (f tt d (h ++ [Exec stmtSQL])%list),
         returned (f tt d (h ++ [Exec stmtSQL])%list))
    end.
Proof.
  unfold bind, dbExec, fail, ret, emitted, dataAfter, returned.
  destruct (exec db h stmtSQL); simpl; [reflexivity |].
  destruct (f tt d (h ++ [Exec stmtSQL])%list) as [[t d'] r]. reflexivity.
Qed.

(** [updatePrivileges(newPrivs, oldPrivs, ...)] runs the single-scope plan
    from [oldPrivs] to [newPrivs]. *)
Lemma updatePrivileges_plan (newPrivs oldPrivs : schema.Set_ string) (db : DB)
      (user database table : string) (d : ResourceData) (h : list event) :
  updatePrivileges newPrivs oldPrivs db user database table d h
  = Spec.runPlan db (Spec.singleScope oldPrivs newPrivs database table user) d h.
Proof.
  unfold updatePrivileges, Spec.singleScope, schema.List.
  set (toRevoke := schema.Difference HashString oldPrivs newPrivs).
  set (toGrant := schema.Difference HashString newPrivs oldPrivs).
  assert (Hgrant : forall d' h',
             (if (0 <? List.length toGrant)%nat
              then bind (dbExec db ("GRANT " ++ strings.Join toGrant "," ++ " ON "
                                     ++ database ++ "." ++ table ++ " TO " ++ user))
                        (fun err => match err with
                                    | Some err0 => fail err0
                                    | None => ret tt
                                    end)
              else ret tt) d' h'
             = Spec.runPlan db
                 match toGrant with
                 | [] => []
                 | _ :: _ => [Spec.grantStatement toGrant database table user]
                 end d' h').
  { intros d' h'. destruct toGrant; reflexivity. }
  destruct toRevoke as [| r toRevoke].
  - simpl (0 <? _)%nat. cbv iota. rewrite bind_ret_tt. apply Hgrant.
  - change (0 <? List.length (r :: toRevoke))%nat with true. cbv iota.
    rewrite bind_exec_or_fail. simpl app. rewrite runPlan_cons.
    fold (Spec.revokeStatement (r :: toRevoke) database table user).
    destruct (exec db h (Spec.revokeStatement (r :: toRevoke) database table user));
      [reflexivity |].
    rewrite Hgrant. reflexivity.
Qed.

(** What [UpdateGrant] sends: the single-scope plan with the two privilege
    sets in each other's place, from the new set to the old one. *)
Lemma UpdateGrant_plan (cmp : string -> string -> Z) (meta : MySQLConfiguration)
      (db : DB) (d : ResourceData) (h : list event) (hasRoles isRole : bool)
      (principal : string) :
  GetDbConn meta = Ok db ->
  returned (supportsRoles cmp db d h) = Ok hasRoles ->
  userOrRole (user d) (host d) (role d) hasRoles = Ok (principal, isRole) ->
  UpdateGrant cmp meta d h
  = Spec.runPlan db
      (Spec.singleScope (privileges d) (privileges_old d)
                        (formatDatabaseName (database d)) (table d) principal) d h.
Proof.
  intros Hdb Hroles Hprincipal. unfold UpdateGrant.
  rewrite (bind_pure _ _ _ _ db) by (unfold lift; rewrite Hdb; reflexivity).
  rewrite (bind_pure _ _ _ _ hasRoles)
    by (rewrite supportsRoles_pure, Hroles; reflexivity).
  rewrite (bind_pure _ _ _ _ d) by reflexivity.
  rewrite (bind_pure _ _ _ _ (principal, isRole))
    by (unfold lift; rewrite Hprincipal; reflexivity).
  destruct (schema.Equal HashString (privileges_old d) (privileges d)) eqn:E.
  - simpl. apply schema_Equal_eq in E; [| exact String.eqb_eq].
    rewrite <- E. unfold Spec.singleScope.
    rewrite schema_Difference_self by exact String.eqb_refl. reflexivity.
  - simpl. apply updatePrivileges_plan.
Qed.

(** C1: with the privileges of ['jdoe'@'example.com'] on [d1] going from
    [SELECT] to [UPDATE, SELECT], [UpdateGrant] sends a REVOKE of [UPDATE],
    the difference desired - current, where single-scope mode sends a GRANT
    of it; going back from [UPDATE, SELECT] to [SELECT] it sends a GRANT of
    [UPDATE] where single-scope mode revokes it.  With equal sets it sends
    nothing. *)
Theorem UpdateGrant_at_added_privilege (cmp : string -> string -> Z) :
  emitted (UpdateGrant cmp (Examples.connected (Examples.accepting Examples.mysql_5_7_30))
                       (Examples.grantOf ["SELECT"] ["UPDATE"; "SELECT"] [] false) [])
  = [Exec "REVOKE UPDATE ON `d1`.* FROM 'jdoe'@'example.com'"]
  /\ Spec.singleScope ["SELECT"] ["UPDATE"; "SELECT"] "`d1`" "*" "'jdoe'@'example.com'"
     = ["GRANT UPDATE ON `d1`.* TO 'jdoe'@'example.com'"]
  /\ emitted (UpdateGrant cmp (Examples.connected (Examples.accepting Examples.mysql_5_7_30))
                          (Examples.grantOf ["UPDATE"; "SELECT"] ["SELECT"] [] false) [])
     = [Exec "GRANT UPDATE ON `d1`.* TO 'jdoe'@'example.com'"]
  /\ Spec.singleScope ["UPDATE"; "SELECT"] ["SELECT"] "`d1`" "*" "'jdoe'@'example.com'"
     = ["REVOKE UPDATE ON `d1`.* FROM 'jdoe'@'example.com'"]
  /\ emitted (UpdateGrant cmp (Examples.connected (Examples.accepting Examples.mysql_5_7_30))
                          (Examples.grantOf ["UPDATE"; "SELECT"] ["UPDATE"; "SELECT"] [] false) [])
     = [].
Proof. repeat split. Qed.

(** ** Deletion *)

Lemma bind_assoc {A B C : Type} (m : M A) (f : A -> M B) (g : B -> M C)
      (d : ResourceData) (h : list event) :
  bind (bind m f) g d h = bind m (fun a => bind (f a) g) d h.
Proof.
  unfold bind.
  destruct (m d h) as [[t1 d1] [a | e]]; [| reflexivity].
  destruct (f a d1 (h ++ t1)%list) as [[t2 d2] [b | e]]; [| reflexivity].
  rewrite <- app_assoc.
  destruct (g b d2 (h ++ t1 ++ t2)%list) as [[t3 d3] r].
  rewrite <- app_assoc. reflexivity.
Qed.

Lemma expandGrants_id (p : schema.Set_ SubGrantRead.t) : expandGrants p = p.
Proof.
  unfold expandGrants, schema.List. induction p as [| f p IH]; [reflexivity |].
  simpl. rewrite IH. f_equal.
  destruct f as [database table privs roles gr]. simpl.
  destruct database, table; reflexivity.
Qed.

Lemma DeleteGrants_body_first (db : DB) (principal : string) (f : SubGrantRead.t)
      (d : ResourceData) (h : list event) :
  SubGrantRead.Roles f = [] ->
  let sql := Spec.revokeGrantOption (SubGrantRead.Database f) (SubGrantRead.Table f) principal in
  (exists rest, emitted (DeleteGrants_body db principal false f d h) = Exec sql :: rest)
  /\ (forall err, exec db h sql = Some err ->
        regexp.MatchString reError1141 err = true ->
        DeleteGrants_body db principal false f d h = ([Exec sql], d, Ok Return))
  /\ (forall err, exec db h sql = Some err ->
        regexp.MatchString reError1141 err = false ->
        DeleteGrants_body db principal false f d h
        = ([Exec sql], d, Err ("error revoking GRANT (" ++ sql ++ "): " ++ err))).
Proof.
  intros Hroles sql. unfold DeleteGrants_body. rewrite Hroles.
  change (negb false && (List.length (schema.List (@nil string)) =? 0)%nat) with true.
  cbv iota. fold (Spec.revokeGrantOption (SubGrantRead.Database f) (SubGrantRead.Table f) principal).
  fold sql. rewrite bind_assoc, bind_dbExec.
  split; [eexists; reflexivity | split].
  - intros err He Hm. rewrite He, Hm. reflexivity.
  - intros err He Hm. rewrite He, Hm. reflexivity.
Qed.

Lemma DeleteGrants_loop_first (db : DB) (principal : string)
      (f : SubGrantRead.t) (fs : list SubGrantRead.t)
      (d : ResourceData) (h : list event) :
  SubGrantRead.Roles f = [] ->
  let sql := Spec.revokeGrantOption (SubGrantRead.Database f) (SubGrantRead.Table f) principal in
  (exists rest, emitted (DeleteGrants_loop db principal false (f :: fs) d h) = Exec sql :: rest)
  /\ (forall err, exec db h sql = Some err ->
        regexp.MatchString reError1141 err = true ->
        DeleteGrants_loop db principal false (f :: fs) d h = ([Exec sql], d, Ok tt))
  /\ (forall err, exec db h sql = Some err ->
        regexp.MatchString reError1141 err = false ->
        DeleteGrants_loop db principal false (f :: fs) d h
        = ([Exec sql], d, Err ("error revoking GRANT (" ++ sql ++ "): " ++ err))).
Proof.
  intros Hroles sql.
  destruct (DeleteGrants_body_first db principal f d h Hroles) as ((rest & H1) & H2 & H3).
  fold sql in H1, H2, H3. simpl DeleteGrants_loop.
  split; [| split].
  - unfold bind. destruct (DeleteGrants_body db principal false f d h) as [[t d1] r].
    unfold emitted in *. simpl in H1. subst t.
    destruct r as [fl | e]; [| eexists; reflexivity].
    destruct fl.
    + destruct (DeleteGrants_loop db principal false fs d1 _) as [[t2 d2] r2].
      eexists. reflexivity.
    + eexists. reflexivity.
  - intros err He Hm. unfold bind. rewrite (H2 err He Hm). reflexivity.
  - intros err He Hm. unfold bind. rewrite (H3 err He Hm). reflexivity.
Qed.

(** C5: when the principal is not a role and the block names no role, the
    first statement of its deletion is [REVOKE GRANT OPTION ON <scope> FROM
    <principal>]; when the server answers it with error 1141 the deletion
    returns no error and nothing more is sent; any other error of that
    statement is returned.  This holds for [DeleteGrant], for every turn of
    the loop of [DeleteGrants] and so for [DeleteGrants] at its first
    block. *)
Theorem delete_first_revokes_grant_option
        (cmp : string -> string -> Z) (meta : MySQLConfiguration) (db : DB)
        (d : ResourceData) (h : list event) (hasRoles : bool) (principal : string) :
  GetDbConn meta = Ok db ->
  returned (supportsRoles cmp db d h) = Ok hasRoles ->
  userOrRole (user d) (host d) (role d) hasRoles = Ok (principal, false) ->
  (roles d = [] ->
   let sql := Spec.revokeGrantOption (database d) (table d) principal in
   (exists rest, emitted (DeleteGrant cmp meta d h) = Exec sql :: rest)
   /\ (forall err, exec db h sql = Some err ->
         regexp.MatchString reError1141 err = true ->
         DeleteGrant cmp meta d h = ([Exec sql], d, Ok tt))
   /\ (forall err, exec db h sql = Some err ->
         regexp.MatchString reError1141 err = false ->
         DeleteGrant cmp meta d h
         = ([Exec sql], d, Err ("error revoking GRANT (" ++ sql ++ "): " ++ err))))
  /\ (forall f fs h',
        SubGrantRead.Roles f = [] ->
        let sql := Spec.revokeGrantOption (SubGrantRead.Database f) (SubGrantRead.Table f) principal in
        (exists rest,
            emitted (DeleteGrants_loop db principal false (f :: fs) d h') = Exec sql :: rest)
        /\ (forall err, exec db h' sql = Some err ->
              regexp.MatchString reError1141 err = true ->
              DeleteGrants_loop db principal false (f :: fs) d h' = ([Exec sql], d, Ok tt))
        /\ (forall err, exec db h' sql = Some err ->
              regexp.MatchString reError1141 err = false ->
              DeleteGrants_loop db principal false (f :: fs) d h'
              = ([Exec sql], d, Err ("error revoking GRANT (" ++ sql ++ "): " ++ err))))
  /\ (forall f fs,
        grants d = f :: fs ->
        SubGrantRead.Roles f = [] ->
        let sql := Spec.revokeGrantOption (SubGrantRead.Database f) (SubGrantRead.Table f) principal in
        (exists rest, emitted (DeleteGrants cmp meta d h) = Exec sql :: rest)
        /\ (forall err, exec db h sql = Some err ->
              regexp.MatchString reError1141 err = true ->
              DeleteGrants cmp meta d h = ([Exec sql], d, Ok tt))
        /\ (forall err, exec db h sql = Some err ->
              regexp.MatchString reError1141 err = false ->
              DeleteGrants cmp meta d h
              = ([Exec sql], d, Err ("error revoking GRANT (" ++ sql ++ "): " ++ err)))).
Proof.
  intros Hdb Hroles Hprincipal. split; [| split].
  - intros Hnone sql.
    assert (E : DeleteGrant cmp meta d h
                = bind (dbExec db sql)
                       (fun err =>
                          bind match err with
                               | Some err0 =>
                                   if regexp.MatchString reError1141 err0 then ret Return
                                   else fail ("error revoking GRANT (" ++ sql ++ "): " ++ err0)
                               | None => ret Continue
                               end
                               (fun fl =>
                                  match fl with
                                  | Return => ret tt
                                  | Continue =>
                                      let whatToRevoke :=
                                        if (0 <? List.length (schema.List (privileges d)))%nat
                                        then flattenList (schema.List (privileges d)) "" ""
                                             ++ " ON " ++ formatDatabaseName (database d)
                                             ++ "." ++ formatTableName (table d)
                                        else "ALL ON " ++ formatDatabaseName (database d)
                                             ++ "." ++ formatTableName (table d) in
                                      let sql2 := "REVOKE " ++ whatToRevoke ++ " FROM " ++ principal in
                                      bind (dbExec db sql2)
                                           (fun err =>
                                              match err with
                                              | Some err0 =>
                                                  fail ("error revoking ALL (" ++ sql2 ++ "): " ++ err0)
                                              | None => ret tt
                                              end)
                                  end)) d h).
    { unfold DeleteGrant.
      rewrite (bind_pure _ _ _ _ db) by (unfold lift; rewrite Hdb; reflexivity).
      rewrite (bind_pure _ _ _ _ d) by reflexivity.
      rewrite (bind_pure _ _ _ _ hasRoles)
        by (rewrite supportsRoles_pure, Hroles; reflexivity).
      rewrite (bind_pure _ _ _ _ (principal, false))
        by (unfold lift; rewrite Hprincipal; reflexivity).
      rewrite Hnone.
      change (negb false && (List.length (schema.List (@nil string)) =? 0)%nat) with true.
      cbv iota. rewrite bind_assoc. reflexivity. }
    rewrite E, bind_dbExec. split; [eexists; reflexivity | split].
    + intros err He Hm. rewrite He, Hm. reflexivity.
    + intros err He Hm. rewrite He, Hm. reflexivity.
  - intros f fs h' Hnone. apply DeleteGrants_loop_first. exact Hnone.
  - intros f fs Hgrants Hnone sql.
    assert (E : DeleteGrants cmp meta d h
                = DeleteGrants_loop db principal false (f :: fs) d h).
    { unfold DeleteGrants.
      rewrite (bind_pure _ _ _ _ db) by (unfold lift; rewrite Hdb; reflexivity).
      rewrite (bind_pure _ _ _ _ hasRoles)
        by (rewrite supportsRoles_pure, Hroles; reflexivity).
      rewrite (bind_pure _ _ _ _ d) by reflexivity.
      rewrite (bind_pure _ _ _ _ (principal, false))
        by (unfold lift; rewrite Hprincipal; reflexivity).
      rewrite expandGrants_id, Hgrants. reflexivity. }
    rewrite E. apply DeleteGrants_loop_first. exact Hnone.
Qed.

Lemma delete_first_revokes_grant_option_witness :
  DeleteGrant Examples.lexical
              (Examples.connected (Examples.noSuchGrant Examples.mysql_5_7_30))
              (Examples.grantOf [] ["SELECT"] [] false) []
  = ([Exec "REVOKE GRANT OPTION ON `d1`.* FROM 'jdoe'@'example.com'"],
     Examples.grantOf [] ["SELECT"] [] false, Ok tt)
  /\ DeleteGrants Examples.lexical
                  (Examples.connected (Examples.broken Examples.mysql_5_7_30))
                  (Examples.grantsOf [] [Examples.block "d1" ["SELECT"]]) []
     = ([Exec "REVOKE GRANT OPTION ON `d1`.* FROM 'jdoe'@'example.com'"],
        Examples.grantsOf [] [Examples.block "d1" ["SELECT"]],
        Err "error revoking GRANT (REVOKE GRANT OPTION ON `d1`.* FROM 'jdoe'@'example.com'): invalid connection").
Proof.
  split.
  - destruct (delete_first_revokes_grant_option
                Examples.lexical
                (Examples.connected (Examples.noSuchGrant Examples.mysql_5_7_30))
                (Examples.noSuchGrant Examples.mysql_5_7_30)
                (Examples.grantOf [] ["SELECT"] [] false) [] false
                "'jdoe'@'example.com'" eq_refl eq_refl eq_refl) as (H & _).
    destruct (H eq_refl) as (_ & H1 & _).
    apply (H1 "Error 1141: There is no such grant defined for user 'jdoe' on host 'example.com'");
      reflexivity.
  - destruct (delete_first_revokes_grant_option
                Examples.lexical
                (Examples.connected (Examples.broken Examples.mysql_5_7_30))
                (Examples.broken Examples.mysql_5_7_30)
                (Examples.grantsOf [] [Examples.block "d1" ["SELECT"]]) [] false
                "'jdoe'@'example.com'" eq_refl eq_refl eq_refl) as (_ & _ & H).
    destruct (H (Examples.block "d1" ["SELECT"]) [] eq_refl eq_refl) as (_ & _ & H2).
    apply (H2 "invalid connection"); reflexivity.
Defined.

(** ** Creation *)

Lemma string_app_assoc (a b c : string) : (a ++ b) ++ c = a ++ b ++ c.
Proof. induction a as [| x a IH]; simpl; [reflexivity | rewrite IH; reflexivity]. Qed.

Lemma string_app_nil_r (a : string) : a ++ "" = a.
Proof. induction a as [| x a IH]; simpl; [reflexivity | rewrite IH; reflexivity]. Qed.




Ltac norm_strings :=
  repeat first [rewrite string_app_assoc | rewrite string_app_nil_r | progress simpl].

Lemma CreateGrants_body_run (cmp : string -> string -> Z) (db : DB) (f : SubGrantRead.t)
      (d : ResourceData) (h : list event) (hasRoles isRole : bool) (principal : string) :
  returned (supportsRoles cmp db d h) = Ok hasRoles ->
  userOrRole (user d) (host d) (role d) hasRoles = Ok (principal, isRole) ->
  Spec.creates (SubGrantRead.Privileges f) (SubGrantRead.Roles f) hasRoles = true ->
  let stmtSQL :=
    Spec.createStatement (SubGrantRead.Privileges f) (SubGrantRead.Roles f)
                         (SubGrantRead.Database f) (SubGrantRead.Table f)
                         principal (tls_option d) isRole (SubGrantRead.Grant f) hasRoles in
  CreateGrants_body cmp db f d h
  = ([Exec stmtSQL], d,
     match exec db h stmtSQL with
     | Some err => Err ("error running SQL (" ++ stmtSQL ++ "): " ++ err)
     | None => Ok tt
     end).
Proof.
  intros Hroles Hprincipal Hcreates stmtSQL. unfold Spec.creates in Hcreates.
  unfold CreateGrants_body.
  rewrite (bind_pure _ _ _ _ hasRoles)
    by (rewrite supportsRoles_pure, Hroles; reflexivity).
  rewrite (bind_pure _ _ _ _ d) by reflexivity.
  destruct (SubGrantRead.Privileges f) as [| p ps] eqn:Hp.
  - destruct (SubGrantRead.Roles f) as [| r rs] eqn:Hr; [discriminate |].
    destruct hasRoles; [| discriminate]. simpl in Hcreates.
    rewrite (bind_pure _ _ _ _ (flattenList (r :: rs) "'" "'", false, List.length (r :: rs)))
      by reflexivity.
    rewrite (bind_pure _ _ _ _ (principal, isRole))
      by (unfold lift; rewrite Hprincipal; reflexivity).
    rewrite bind_dbExec.
    match goal with
    | |- context [exec db h ?s] =>
        assert (E : s = stmtSQL)
    end.
    { unfold stmtSQL, Spec.createStatement, Spec.roleBased, Spec.privilegeBased.
      destruct isRole, (SubGrantRead.Grant f), (tls_option d =? "");
        norm_strings; reflexivity. }
    rewrite E. destruct (exec db h stmtSQL); reflexivity.
  - rewrite (bind_pure _ _ _ _ (flattenList (p :: ps) "" "", true, 0%nat)) by reflexivity.
    rewrite (bind_pure _ _ _ _ (principal, isRole))
      by (unfold lift; rewrite Hprincipal; reflexivity).
    rewrite bind_dbExec.
    match goal with
    | |- context [exec db h ?s] =>
        assert (E : s = stmtSQL)
    end.
    { unfold stmtSQL, Spec.createStatement, Spec.roleBased, Spec.privilegeBased.
      rewrite orb_true_r.
      destruct hasRoles, isRole, (SubGrantRead.Grant f), (tls_option d =? "");
        norm_strings; reflexivity. }
    rewrite E. destruct (exec db h stmtSQL); reflexivity.
Qed.



(** The loop of [CreateGrants] over blocks whose statements are accepted. *)
Lemma CreateGrants_loop_prefix (cmp : string -> string -> Z) (db : DB) (d : ResourceData)
      (hasRoles isRole : bool) (principal : string)
      (fs1 fs2 : list SubGrantRead.t) (h : list event) :
  (forall h', returned (supportsRoles cmp db d h') = Ok hasRoles) ->
  userOrRole (user d) (host d) (role d) hasRoles = Ok (principal, isRole) ->
  let stmtOf := fun f =>
    Spec.createStatement (SubGrantRead.Privileges f) (SubGrantRead.Roles f)
                         (SubGrantRead.Database f) (SubGrantRead.Table f)
                         principal (tls_option d) isRole (SubGrantRead.Grant f) hasRoles in
  (forall f, In f fs1 ->
     Spec.creates (SubGrantRead.Privileges f) (SubGrantRead.Roles f) hasRoles = true) ->
  (forall f h', In f fs1 -> exec db h' (stmtOf f) = None) ->
  let sent := map Exec (map stmtOf fs1) in
  let rest := CreateGrants_loop cmp db fs2 d (h ++ sent)%list in
  CreateGrants_loop cmp db (fs1 ++ fs2)%list d h
  = ((sent ++ emitted rest)%list, dataAfter rest, returned rest).
Proof.
  intros Hroles Hprincipal stmtOf.
  revert h. induction fs1 as [| f fs1 IH]; intros h Hcreates Haccepts sent rest.
  - subst sent rest. simpl. rewrite app_nil_r.
    destruct (CreateGrants_loop cmp db fs2 d h) as [[t d'] r]. reflexivity.
  - subst sent rest. cbn [app map CreateGrants_loop]. unfold bind.
    pose proof (CreateGrants_body_run cmp db f d h hasRoles isRole principal
                  (Hroles h) Hprincipal (Hcreates f (or_introl eq_refl))) as Hbody.
    cbv zeta in Hbody. fold (stmtOf f) in Hbody.
    rewrite (Haccepts f h (or_introl eq_refl)) in Hbody. rewrite Hbody.
    rewrite IH.
    + cbv zeta. rewrite <- app_assoc. reflexivity.
    + intros g Hg. apply Hcreates. right. exact Hg.
    + intros g h' Hg. apply Haccepts. right. exact Hg.
Qed.















(** ** Multi-scope mode *)

Lemma bind_plan {A : Type} (db : DB) (m : M A) (f : A -> M unit) (p1 p2 : list string)
      (d : ResourceData) (h : list event) :
  (forall d' h', exists a, m d' h' = (emitted (Spec.runPlan db p1 d' h'),
                                     dataAfter (Spec.runPlan db p1 d' h'),
                                     match returned (Spec.runPlan db p1 d' h') with
                                     | Ok _ => Ok a
                                     | Err e => Err e
                                     end)
                           /\ forall d'' h'', f a d'' h'' = Spec.runPlan db p2 d'' h'') ->
  bind m f d h = Spec.runPlan db (p1 ++ p2)%list d h.
Proof.
  intro H. rewrite <- (runPlan_app db p1 p2 (fun _ => Spec.runPlan db p2)) by reflexivity.
  destruct (H d h) as (a & Hm & Hf). unfold bind. rewrite Hm.
  destruct (Spec.runPlan db p1 d h) as [[t1 d1] [[] | e]];
    unfold emitted, dataAfter, returned; simpl; [| reflexivity].
  rewrite Hf. reflexivity.
Qed.

Lemma sameScope_scope_eqb (o n : SubGrantRead.t) : sameScope o n = Spec.scope_eqb o n.
Proof.
  unfold sameScope, Spec.scope_eqb, Spec.scope. simpl.
  rewrite andb_comm. f_equal. apply String.eqb_sym.
Qed.

Lemma updatePrivilegesMulti_find_plan (db : DB) (user : string) (o : SubGrantRead.t)
      (newSpecs : list SubGrantRead.t) (d : ResourceData) (h : list event) :
  updatePrivilegesMulti_find db user o newSpecs d h
  = match List.find (Spec.scope_eqb o) newSpecs with
    | Some n =>
        let x := Spec.runPlan db
                   (Spec.singleScope (SubGrantRead.Privileges o) (SubGrantRead.Privileges n)
                                     (fst (Spec.scope o)) (snd (Spec.scope o)) user) d h in
        (emitted x, dataAfter x,
         match returned x with
         | Ok _ => Ok true
         | Err e => Err e
         end)
    | None => ([], d, Ok false)
    end.
Proof.
  induction newSpecs as [| n newSpecs IH]; [reflexivity |].
  simpl. rewrite sameScope_scope_eqb.
  destruct (Spec.scope_eqb o n); [| exact IH].
  unfold bind. rewrite updatePrivileges_plan. unfold Spec.scope. simpl fst. simpl snd.
  destruct (Spec.runPlan db _ d h) as [[t1 d1] [[] | e]];
    unfold emitted, dataAfter, returned; simpl; [| reflexivity].
  rewrite app_nil_r. reflexivity.
Qed.

Lemma updatePrivilegesMulti_old_plan (db : DB) (user : string)
      (oldSpecs newSpecs : list SubGrantRead.t) (d : ResourceData) (h : list event) :
  updatePrivilegesMulti_old db user oldSpecs newSpecs d h
  = Spec.runPlan db
      (flat_map
         (fun o =>
            match List.find (Spec.scope_eqb o) newSpecs with
            | Some n =>
                Spec.singleScope (SubGrantRead.Privileges o) (SubGrantRead.Privileges n)
                                 (fst (Spec.scope o)) (snd (Spec.scope o)) user
            | None =>
                Spec.singleScope (SubGrantRead.Privileges o) []
                                 (fst (Spec.scope o)) (snd (Spec.scope o)) user
            end) oldSpecs) d h.
Proof.
  revert d h. induction oldSpecs as [| o oldSpecs IH]; intros d h; [reflexivity |].
  simpl updatePrivilegesMulti_old. simpl flat_map.
  destruct (List.find (Spec.scope_eqb o) newSpecs) as [n |] eqn:Hfind.
  - apply bind_plan. intros d' h'. rewrite updatePrivilegesMulti_find_plan, Hfind.
    exists true. split; [reflexivity |].
    intros d'' h''. simpl negb. cbv iota. rewrite bind_ret_tt. apply IH.
  - rewrite (bind_pure _ _ _ _ false)
      by (rewrite updatePrivilegesMulti_find_plan, Hfind; reflexivity).
    simpl negb. cbv iota. apply bind_plan. intros d' h'. exists tt. split.
    + rewrite updatePrivileges_plan. unfold schema.NewSet, Spec.scope. simpl fst. simpl snd.
      destruct (Spec.runPlan db _ d' h') as [[t1 d1] [[] | e]]; reflexivity.
    + intros d'' h''. apply IH.
Qed.

Lemma updatePrivilegesMulti_new_plan (db : DB) (user : string)
      (newSpecs oldSpecs : list SubGrantRead.t) (d : ResourceData) (h : list event) :
  updatePrivilegesMulti_new db user newSpecs oldSpecs d h
  = Spec.runPlan db
      (flat_map
         (fun n =>
            if existsb (fun o => Spec.scope_eqb o n) oldSpecs then []
            else Spec.singleScope [] (SubGrantRead.Privileges n)
                                  (fst (Spec.scope n)) (snd (Spec.scope n)) user)
         newSpecs) d h.
Proof.
  revert d h. induction newSpecs as [| n newSpecs IH]; intros d h; [reflexivity |].
  simpl updatePrivilegesMulti_new. simpl flat_map.
  assert (E : existsb (fun o => sameScope o n) oldSpecs
              = existsb (fun o => Spec.scope_eqb o n) oldSpecs).
  { clear. induction oldSpecs as [| o oldSpecs IH]; [reflexivity |].
    simpl. rewrite sameScope_scope_eqb, IH. reflexivity. }
  rewrite E. destruct (existsb (fun o => Spec.scope_eqb o n) oldSpecs).
  - simpl negb. cbv iota. rewrite bind_ret_tt. apply IH.
  - simpl negb. cbv iota. apply bind_plan. intros d' h'. exists tt. split.
    + rewrite updatePrivileges_plan. unfold schema.NewSet, Spec.scope. simpl fst. simpl snd.
      destruct (Spec.runPlan db _ d' h') as [[t1 d1] [[] | e]]; reflexivity.
    + intros d'' h''. apply IH.
Qed.

Lemma updatePrivilegesMulti_plan (db : DB) (user : string) (d : ResourceData) (h : list event) :
  updatePrivilegesMulti db user d h
  = Spec.runPlan db
      (Spec.multiScope user
         (schema.Difference SubGrantRead.eqb (grants_old d) (grants d))
         (schema.Difference SubGrantRead.eqb (grants d) (grants_old d))) d h.
Proof.
  unfold updatePrivilegesMulti. rewrite (bind_pure _ _ _ _ d) by reflexivity.
  unfold Spec.multiScope, schema.List. apply bind_plan. intros d' h'. exists tt. split.
  - rewrite updatePrivilegesMulti_old_plan.
    destruct (Spec.runPlan db _ d' h') as [[t1 d1] [[] | e]]; reflexivity.
  - intros d'' h''. apply updatePrivilegesMulti_new_plan.
Qed.

Lemma SubGrantRead_eqb_eq (a b : SubGrantRead.t) : SubGrantRead.eqb a b = true <-> a = b.
Proof.
  unfold SubGrantRead.eqb. split.
  - intro H. repeat (apply andb_true_iff in H; destruct H as [H ?H]).
    destruct a, b. simpl in *.
    apply String.eqb_eq in H. apply String.eqb_eq in H3.
    apply schema_Equal_eq in H2; [| exact String.eqb_eq].
    apply schema_Equal_eq in H1; [| exact String.eqb_eq].
    apply Bool.eqb_prop in H0. subst. reflexivity.
  - intros <-. rewrite !String.eqb_refl, Bool.eqb_reflx.
    assert (R : forall l, schema.Equal HashString l l = true).
    { induction l as [| x l IH]; [reflexivity |]. simpl.
      unfold HashString at 1. rewrite String.eqb_refl. exact IH. }
    rewrite !R. reflexivity.
Qed.

Lemma schema_Difference_unchanged {A : Type} (eqb : A -> A -> bool)
      (s other : schema.Set_ A) (x : A) :
  (forall y, eqb y y = true) ->
  In x other -> ~ In x (schema.Difference eqb s other).
Proof.
  intros Hrefl Hother Hin. unfold schema.Difference in Hin.
  apply filter_In in Hin. destruct Hin as [_ Hin].
  apply negb_true_iff in Hin.
  assert (E : schema.Contains eqb other x = true).
  { apply existsb_exists. exists x. split; [exact Hother | apply Hrefl]. }
  rewrite E in Hin. discriminate.
Qed.

Lemma UpdateGrants_plan (cmp : string -> string -> Z) (meta : MySQLConfiguration)
      (db : DB) (d : ResourceData) (h : list event) (hasRoles isRole : bool)
      (principal : string) :
  GetDbConn meta = Ok db ->
  returned (supportsRoles cmp db d h) = Ok hasRoles ->
  userOrRole (user d) (host d) (role d) hasRoles = Ok (principal, isRole) ->
  UpdateGrants cmp meta d h
  = Spec.runPlan db
      (Spec.multiScope principal
         (schema.Difference SubGrantRead.eqb (grants_old d) (grants d))
         (schema.Difference SubGrantRead.eqb (grants d) (grants_old d))) d h.
Proof.
  intros Hdb Hroles Hprincipal. unfold UpdateGrants.
  rewrite (bind_pure _ _ _ _ db) by (unfold lift; rewrite Hdb; reflexivity).
  rewrite (bind_pure _ _ _ _ hasRoles)
    by (rewrite supportsRoles_pure, Hroles; reflexivity).
  rewrite (bind_pure _ _ _ _ d) by reflexivity.
  rewrite (bind_pure _ _ _ _ (principal, isRole))
    by (unfold lift; rewrite Hprincipal; reflexivity).
  destruct (schema.Equal SubGrantRead.eqb (grants_old d) (grants d)) eqn:E.
  - simpl. apply schema_Equal_eq in E; [| exact SubGrantRead_eqb_eq].
    rewrite <- E.
    rewrite schema_Difference_self by (intro x; apply SubGrantRead_eqb_eq; reflexivity).
    reflexivity.
  - simpl. apply updatePrivilegesMulti_plan.
Qed.

Lemma runPlan_accepted (db : DB) (plan : list string) (d : ResourceData) (h : list event) :
  (forall h' stmtSQL, exec db h' stmtSQL = None) ->
  Spec.runPlan db plan d h = (map Exec plan, d, Ok tt).
Proof.
  intro Hacc. revert h. induction plan as [| s plan IH]; intro h; [reflexivity |].
  rewrite runPlan_cons, Hacc, IH. reflexivity.
Qed.

(** Multi-scope mode as the provider runs it.  Over the blocks that differ
    between the old and the new collection, [updatePrivilegesMulti] and
    [UpdateGrants] run the multi-scope plan: an old block is reconciled by
    the single-scope diff with the first new block whose formatted database
    and table are equal to its own, and is fully revoked when there is none;
    then every new block whose formatted scope no old block has is fully
    granted.  A block that is in both collections is in neither list, so
    nothing is sent for it.  Statements are sent in that order until the
    server refuses one. *)
Theorem multi_scope_reconciliation (db : DB) (d : ResourceData) (h : list event) :
  let oldSpecs := schema.Difference SubGrantRead.eqb (grants_old d) (grants d) in
  let newSpecs := schema.Difference SubGrantRead.eqb (grants d) (grants_old d) in
  (forall user,
      updatePrivilegesMulti db user d h
      = Spec.runPlan db (Spec.multiScope user oldSpecs newSpecs) d h)
  /\ (forall cmp meta hasRoles isRole principal,
         GetDbConn meta = Ok db ->
         returned (supportsRoles cmp db d h) = Ok hasRoles ->
         userOrRole (user d) (host d) (role d) hasRoles = Ok (principal, isRole) ->
         UpdateGrants cmp meta d h
         = Spec.runPlan db (Spec.multiScope principal oldSpecs newSpecs) d h)
  /\ (forall o n,
         sameScope o n = true
         <-> formatDatabaseName (SubGrantRead.Database o)
             = formatDatabaseName (SubGrantRead.Database n)
             /\ formatTableName (SubGrantRead.Table o)
                = formatTableName (SubGrantRead.Table n))
  /\ (forall g, In g (grants d) -> ~ In g oldSpecs)
  /\ (forall g, In g (grants_old d) -> ~ In g newSpecs).
Proof.
  intros oldSpecs newSpecs. split; [| split; [| split; [| split]]].
  - intro user. apply updatePrivilegesMulti_plan.
  - intros cmp meta hasRoles isRole principal. apply UpdateGrants_plan.
  - intros o n. unfold sameScope. rewrite andb_true_iff, !String.eqb_eq.
    split; intros [H1 H2]; split; congruence.
  - intros g Hg. apply schema_Difference_unchanged; [| exact Hg].
    intro y. apply SubGrantRead_eqb_eq. reflexivity.
  - intros g Hg. apply schema_Difference_unchanged; [| exact Hg].
    intro y. apply SubGrantRead_eqb_eq. reflexivity.
Qed.

Lemma multi_scope_reconciliation_witness :
  UpdateGrants Examples.lexical
               (Examples.connected (Examples.accepting Examples.mysql_5_7_30))
               (Examples.grantsOf
                  [Examples.block "*" ["USAGE"]; Examples.block "d1" ["UPDATE"; "SELECT"]]
                  [Examples.block "*" ["USAGE"];
                   Examples.block "d1" ["UPDATE"; "SELECT"; "DELETE"]]) []
  = ([Exec "GRANT DELETE ON `d1`.* TO 'jdoe'@'example.com'"],
     Examples.grantsOf
       [Examples.block "*" ["USAGE"]; Examples.block "d1" ["UPDATE"; "SELECT"]]
       [Examples.block "*" ["USAGE"]; Examples.block "d1" ["UPDATE"; "SELECT"; "DELETE"]],
     Ok tt).
Proof.
  destruct (multi_scope_reconciliation
              (Examples.accepting Examples.mysql_5_7_30)
              (Examples.grantsOf
                 [Examples.block "*" ["USAGE"]; Examples.block "d1" ["UPDATE"; "SELECT"]]
                 [Examples.block "*" ["USAGE"];
                  Examples.block "d1" ["UPDATE"; "SELECT"; "DELETE"]]) [])
    as (_ & H & _).
  rewrite (H Examples.lexical
             (Examples.connected (Examples.accepting Examples.mysql_5_7_30))
             false false "'jdoe'@'example.com'" eq_refl eq_refl eq_refl).
  reflexivity.
Defined.

(** C2: at a collection that declares one formatted scope twice the
    reconciliation is not the one claimed.  The blocks on [d1] and on its
    quoted form have the same formatted scope.  From one old block on [d1]
    to two new blocks, on [d1] and on its quoted form, [UpdateGrants]
    reconciles the old block with the first new block only: the statement
    of the other matched pair is never sent, whichever of the two new
    blocks comes first, so a declared privilege is not granted.  From two
    old blocks, on [d1] and on its quoted form, to the first of them alone,
    the second is not matched with the block that stays: all its privileges
    are revoked, [SELECT] included, which the block that stays declares. *)
Theorem UpdateGrants_at_repeated_scope :
  let meta := Examples.connected (Examples.accepting Examples.mysql_5_7_30) in
  let principal := "'jdoe'@'example.com'" in
  let plain := Examples.block "d1" ["SELECT"] in
  let wider := Examples.block "d1" ["UPDATE"; "SELECT"] in
  let quoted := Examples.block "`d1`" ["SELECT"; "DELETE"] in
  sameScope plain wider = true /\ sameScope plain quoted = true
  /\ UpdateGrants Examples.lexical meta (Examples.grantsOf [plain] [wider; quoted]) []
     = ([Exec "GRANT UPDATE ON `d1`.* TO 'jdoe'@'example.com'"],
        Examples.grantsOf [plain] [wider; quoted], Ok tt)
  /\ ~ Spec.reconcilesEveryMatchedPair principal [plain] [wider; quoted]
         (emitted (UpdateGrants Examples.lexical meta
                     (Examples.grantsOf [plain] [wider; quoted]) []))
  /\ UpdateGrants Examples.lexical meta (Examples.grantsOf [plain] [quoted; wider]) []
     = ([Exec "GRANT DELETE ON `d1`.* TO 'jdoe'@'example.com'"],
        Examples.grantsOf [plain] [quoted; wider], Ok tt)
  /\ ~ Spec.reconcilesEveryMatchedPair principal [plain] [quoted; wider]
         (emitted (UpdateGrants Examples.lexical meta
                     (Examples.grantsOf [plain] [quoted; wider]) []))
  /\ UpdateGrants Examples.lexical meta (Examples.grantsOf [plain; quoted] [plain]) []
     = ([Exec "REVOKE SELECT,DELETE ON `d1`.* FROM 'jdoe'@'example.com'"],
        Examples.grantsOf [plain; quoted] [plain], Ok tt)
  /\ Spec.singleScope (SubGrantRead.Privileges quoted) (SubGrantRead.Privileges plain)
                      "`d1`" "*" principal
     = ["REVOKE DELETE ON `d1`.* FROM 'jdoe'@'example.com'"].
Proof.
  intros meta principal plain wider quoted.
  repeat match goal with |- _ /\ _ => split end; try reflexivity.
  - intro H.
    specialize (H plain quoted (or_introl eq_refl) (or_intror (or_introl eq_refl)) eq_refl
                  "GRANT DELETE ON `d1`.* TO 'jdoe'@'example.com'" (or_introl eq_refl)).
    vm_compute in H. destruct H as [H | []]. discriminate H.
  - intro H.
    specialize (H plain wider (or_introl eq_refl) (or_intror (or_introl eq_refl)) eq_refl
                  "GRANT UPDATE ON `d1`.* TO 'jdoe'@'example.com'" (or_introl eq_refl)).
    vm_compute in H. destruct H as [H | []]. discriminate H.
Qed.

(** ** Privilege lists *)

Lemma plusGreedy_sound (p : ascii -> bool) (s : string)
      (k : string -> string -> option regexp.Match) (x : regexp.Match) :
  regexp.plusGreedy p s k = Some x ->
  exists m rest, s = m ++ rest /\ isWordOf p m /\ k m rest = Some x.
Proof.
  revert k. induction s as [| c s IH]; intros k H; simpl in H; [discriminate |].
  destruct (p c) eqn:Hc; [| discriminate].
  destruct (regexp.plusGreedy p s (fun m rest => k (String c m) rest)) as [y |] eqn:E.
  - injection H as <-. apply IH in E. destruct E as (m & rest & -> & [Hm Ha] & Hk).
    exists (String c m), rest. repeat split; try discriminate; auto.
    simpl. rewrite Hc, Ha. reflexivity.
  - exists (String c ""), s. repeat split; try discriminate; auto.
    simpl. rewrite Hc. reflexivity.
Qed.

Lemma plusLazy_sound (p : ascii -> bool) (s : string)
      (k : string -> string -> option regexp.Match) (x : regexp.Match) :
  regexp.plusLazy p s k = Some x ->
  exists m rest, s = m ++ rest /\ isWordOf p m /\ k m rest = Some x.
Proof.
  revert k. induction s as [| c s IH]; intros k H; simpl in H; [discriminate |].
  destruct (p c) eqn:Hc; [| discriminate].
  destruct (k (String c "") s) as [y |] eqn:E.
  - injection H as <-. exists (String c ""), s. repeat split; try discriminate; auto.
    simpl. rewrite Hc. reflexivity.
  - apply IH in H. destruct H as (m & rest & -> & [Hm Ha] & Hk).
    exists (String c m), rest. repeat split; try discriminate; auto.
    simpl. rewrite Hc, Ha. reflexivity.
Qed.

(** Whatever the matcher returns went through its continuation with a text
    the pattern matches, cut from the front of the input. *)
Lemma run_sound (r : regexp.Regexp) :
  forall s caps k x,
    regexp.run r s caps k = Some x ->
    exists m rest caps', s = m ++ rest /\ Matches r m /\ k m rest caps' = Some x.
Proof.
  induction r as [c | p | p | r IH | r1 IH1 r2 IH2 | r1 IH1 r2 IH2 | r IH];
    intros s caps k x H; simpl in H.
  - destruct s as [| c' s]; [discriminate |].
    destruct (Ascii.eqb c c') eqn:E; [| discriminate].
    apply Ascii.eqb_eq in E. subst c'.
    exists (String c ""), s, caps. repeat split; auto. constructor.
  - apply plusGreedy_sound in H. destruct H as (m & rest & -> & Hw & Hk).
    exists m, rest, caps. repeat split; auto. constructor. exact Hw.
  - apply plusLazy_sound in H. destruct H as (m & rest & -> & Hw & Hk).
    exists m, rest, caps. repeat split; auto. constructor. exact Hw.
  - destruct (regexp.run r s caps k) as [y |] eqn:E.
    + injection H as <-. apply IH in E. destruct E as (m & rest & caps' & -> & Hm & Hk).
      exists m, rest, caps'. repeat split; auto. apply MOptSome. exact Hm.
    + exists "", s, caps. repeat split; auto. apply MOptNone.
  - apply IH1 in H. destruct H as (m1 & s1 & caps1 & -> & Hm1 & H).
    apply IH2 in H. destruct H as (m2 & s2 & caps2 & -> & Hm2 & H).
    exists (m1 ++ m2), s2, caps2. rewrite string_app_assoc. repeat split; auto.
    constructor; assumption.
  - destruct (regexp.run r1 s caps k) as [y |] eqn:E.
    + injection H as <-. apply IH1 in E. destruct E as (m & rest & caps' & -> & Hm & Hk).
      exists m, rest, caps'. repeat split; auto. apply MAltL. exact Hm.
    + apply IH2 in H. destruct H as (m & rest & caps' & -> & Hm & Hk).
      exists m, rest, caps'. repeat split; auto. apply MAltR. exact Hm.
  - apply IH in H. destruct H as (m & rest & caps' & -> & Hm & Hk).
    exists m, rest, (caps' ++ [m])%list. repeat split; auto. constructor. exact Hm.
Qed.

Lemma matchAt_sound (r : regexp.Regexp) (s m : string) (caps : list string) :
  regexp.matchAt r s = Some (m, caps) -> exists rest, s = m ++ rest /\ Matches r m.
Proof.
  intro H. apply run_sound in H. destruct H as (m' & rest & caps' & -> & Hm & Hk).
  injection Hk as <- _. exists rest. auto.
Qed.

Lemma findAll_tokens (r : regexp.Regexp) (s : string) (skip : nat) :
  Forall (Matches r) (regexp.findAll r skip s).
Proof.
  revert skip. induction s as [| c s IH]; intro skip; simpl; [constructor |].
  destruct skip as [| skip]; [| apply IH].
  destruct (regexp.matchAt r (String c s)) as [[m caps] |] eqn:E; [| apply IH].
  constructor; [| apply IH].
  apply matchAt_sound in E. destruct E as (rest & _ & Hm). exact Hm.
Qed.

Lemma upper_not (c d : ascii) :
  regexp.upper c = true -> regexp.upper d = false -> Ascii.eqb d c = false.
Proof.
  intros Hc Hd. destruct (Ascii.eqb_spec d c) as [-> | ]; [congruence | reflexivity].
Qed.

Lemma tailOk_headIs (p : ascii -> bool) (rest : string) :
  p ","%char = false -> tailOk rest = true -> headIs p rest = false.
Proof.
  intros Hp H. destruct rest as [| c rest]; [reflexivity |].
  simpl in *. apply Ascii.eqb_eq in H. subst c. exact Hp.
Qed.

Lemma run_Chr_hit (c : ascii) (s : string) (caps : list string)
      (k : string -> string -> list string -> option regexp.Match) :
  regexp.run (regexp.Chr c) (String c s) caps k = k (String c "") s caps.
Proof. simpl. rewrite Ascii.eqb_refl. reflexivity. Qed.

Lemma run_Chr_miss (c : ascii) (s : string) (caps : list string)
      (k : string -> string -> list string -> option regexp.Match) :
  headIs (Ascii.eqb c) s = false -> regexp.run (regexp.Chr c) s caps k = None.
Proof.
  intro H. destruct s as [| d s]; [reflexivity |]. simpl in *. rewrite H. reflexivity.
Qed.

Lemma plusGreedy_stop (p : ascii -> bool) (s : string)
      (k : string -> string -> option regexp.Match) :
  headIs p s = false -> regexp.plusGreedy p s k = None.
Proof.
  intro H. destruct s as [| c s]; [reflexivity |]. simpl in *. rewrite H. reflexivity.
Qed.

(** A continuation that refuses whatever starts with a byte of the class
    makes [p+] take the whole word. *)
Lemma plusGreedy_exact (p : ascii -> bool) (w rest : string)
      (k : string -> string -> option regexp.Match) :
  isWordOf p w -> headIs p rest = false ->
  (forall m s, headIs p s = true -> k m s = None) ->
  regexp.plusGreedy p (w ++ rest) k = k w rest.
Proof.
  intros [Hne Hall] Hrest. revert k.
  induction w as [| c w IH]; [congruence |]. intros k Hk.
  simpl in Hall. apply andb_true_iff in Hall as [Hc Hall].
  simpl. rewrite Hc. destruct w as [| c' w].
  - simpl. rewrite plusGreedy_stop by exact Hrest. reflexivity.
  - rewrite IH; [| discriminate | exact Hall | intros m s Hs; apply Hk; exact Hs].
    destruct (k (String c (String c' w)) rest); [reflexivity |].
    apply Hk. simpl in Hall. apply andb_true_iff in Hall as [Hc' _]. exact Hc'.
Qed.

(** When the continuation accepts the whole word, [p+] takes it. *)
Lemma plusGreedy_longest (p : ascii -> bool) (w rest : string)
      (k : string -> string -> option regexp.Match) (x : regexp.Match) :
  isWordOf p w -> headIs p rest = false -> k w rest = Some x ->
  regexp.plusGreedy p (w ++ rest) k = Some x.
Proof.
  intros [Hne Hall] Hrest. revert k.
  induction w as [| c w IH]; [congruence |]. intros k Hk.
  simpl in Hall. apply andb_true_iff in Hall as [Hc Hall].
  simpl. rewrite Hc. destruct w as [| c' w].
  - simpl. rewrite plusGreedy_stop by exact Hrest. exact Hk.
  - rewrite (IH ltac:(discriminate) Hall (fun m r => k (String c m) r) Hk). reflexivity.
Qed.

Lemma run_plus_then (p : ascii -> bool) (r : regexp.Regexp) (w rest : string)
      (caps : list string) (k : string -> string -> list string -> option regexp.Match) :
  isWordOf p w -> headIs p rest = false -> rejectsHead p r ->
  regexp.run (regexp.Seq (regexp.Plus p) r) (w ++ rest) caps k
  = regexp.run r rest caps (fun m2 s2 caps2 => k (w ++ m2) s2 caps2).
Proof.
  intros Hw Hrest Hr. simpl.
  rewrite plusGreedy_exact; auto.
Qed.

Lemma run_plus_end (p : ascii -> bool) (w rest : string)
      (caps : list string) (k : string -> string -> list string -> option regexp.Match)
      (x : regexp.Match) :
  isWordOf p w -> headIs p rest = false -> k w rest caps = Some x ->
  regexp.run (regexp.Plus p) (w ++ rest) caps k = Some x.
Proof.
  intros Hw Hrest Hk. simpl. apply plusGreedy_longest; auto.
Qed.

Lemma run_plus_stop (p : ascii -> bool) (r : regexp.Regexp) (s : string)
      (caps : list string) (k : string -> string -> list string -> option regexp.Match) :
  headIs p s = false ->
  regexp.run (regexp.Seq (regexp.Plus p) r) s caps k = None.
Proof. intro H. simpl. apply plusGreedy_stop. exact H. Qed.

Lemma rejectsHead_Chr (p : ascii -> bool) (c : ascii) (r : regexp.Regexp) :
  p c = false ->
  rejectsHead p (regexp.Chr c)
  /\ rejectsHead p (regexp.Seq (regexp.Chr c) r).
Proof.
  intro Hc.
  assert (H : forall s, headIs p s = true -> headIs (Ascii.eqb c) s = false).
  { intros [| d s] Hs; [discriminate |]. simpl in *.
    destruct (Ascii.eqb_spec c d) as [-> | ]; [congruence | reflexivity]. }
  split; intros s caps k Hs.
  - apply run_Chr_miss. auto.
  - simpl. destruct s as [| d s]; [reflexivity |].
    specialize (H _ Hs). simpl in H. rewrite H. reflexivity.
Qed.

Lemma rejectsHead_Opt (p : ascii -> bool) (c d : ascii) (r : regexp.Regexp) :
  p c = false -> p d = false ->
  rejectsHead p (regexp.Seq (regexp.Opt (regexp.Chr c)) (regexp.Seq (regexp.Chr d) r)).
Proof.
  intros Hc Hd s caps k Hs.
  destruct s as [| e s]; [discriminate |]. simpl in Hs.
  assert (Ec : Ascii.eqb c e = false).
  { destruct (Ascii.eqb_spec c e) as [-> | ]; [congruence | reflexivity]. }
  assert (Ed : Ascii.eqb d e = false).
  { destruct (Ascii.eqb_spec d e) as [-> | ]; [congruence | reflexivity]. }
  simpl. rewrite Ec, Ed. reflexivity.
Qed.

Lemma upper_lparen : regexp.upper "(" = false. Proof. reflexivity. Qed.
Lemma columnChar_rparen : columnChar ")" = false. Proof. reflexivity. Qed.

Lemma word_head (p : ascii -> bool) (w : string) :
  isWordOf p w -> exists c w', w = String c w' /\ p c = true.
Proof.
  intros [Hne Hall]. destruct w as [| c w]; [congruence |].
  simpl in Hall. apply andb_true_iff in Hall as [Hc _]. eauto.
Qed.

(** After the first word: what is left of the first alternative fails on
    the end of the text, on a comma and on a space followed by a word. *)
Lemma columns_alternative_tail (r : regexp.Regexp) (rest : string) (caps : list string)
      (k : string -> string -> list string -> option regexp.Match) :
  tailOk rest = true ->
  regexp.run (regexp.Seq (regexp.Opt (regexp.Chr " ")) (regexp.Seq (regexp.Chr "(") r))
             rest caps k = None.
Proof.
  intro H. destruct rest as [| c rest]; [reflexivity |].
  simpl in H. apply Ascii.eqb_eq in H. subst c. reflexivity.
Qed.

Lemma columns_alternative_word (r : regexp.Regexp) (w rest : string) (caps : list string)
      (k : string -> string -> list string -> option regexp.Match) :
  isWordOf regexp.upper w ->
  regexp.run (regexp.Seq (regexp.Opt (regexp.Chr " ")) (regexp.Seq (regexp.Chr "(") r))
             (String " " (w ++ rest)) caps k = None.
Proof.
  intro Hw. destruct (word_head _ _ Hw) as (c & w' & -> & Hc).
  cbn -[Ascii.eqb]. rewrite Ascii.eqb_refl.
  rewrite (upper_not c "(" Hc upper_lparen). reflexivity.
Qed.

Lemma space_tail (r : regexp.Regexp) (rest : string) (caps : list string)
      (k : string -> string -> list string -> option regexp.Match) :
  tailOk rest = true ->
  regexp.run (regexp.Seq (regexp.Chr " ") r) rest caps k = None.
Proof.
  intro H. destruct rest as [| c rest]; [reflexivity |].
  simpl in H. apply Ascii.eqb_eq in H. subst c. reflexivity.
Qed.

Lemma run_Chr_then (c : ascii) (r : regexp.Regexp) (s : string) (caps : list string)
      (k : string -> string -> list string -> option regexp.Match) :
  regexp.run (regexp.Seq (regexp.Chr c) r) (String c s) caps k
  = regexp.run r s caps (fun m2 s2 caps2 => k (String c m2) s2 caps2).
Proof. simpl. rewrite Ascii.eqb_refl. reflexivity. Qed.

Lemma run_Alt (r1 r2 : regexp.Regexp) (s : string) (caps : list string)
      (k : string -> string -> list string -> option regexp.Match) :
  regexp.run (regexp.Alt r1 r2) s caps k
  = match regexp.run r1 s caps k with
    | Some x => Some x
    | None => regexp.run r2 s caps k
    end.
Proof. reflexivity. Qed.

Lemma upper_tail (rest : string) : tailOk rest = true -> headIs regexp.upper rest = false.
Proof. apply tailOk_headIs. reflexivity. Qed.

Lemma rejects_columns :
  rejectsHead regexp.upper
    (regexp.Seq (regexp.Opt (regexp.Chr " "))
       (regexp.Seq (regexp.Chr "(")
          (regexp.Seq (regexp.Plus columnChar) (regexp.Chr ")")))).
Proof. apply rejectsHead_Opt; reflexivity. Qed.

Lemma rejects_space (r : regexp.Regexp) :
  rejectsHead regexp.upper (regexp.Seq (regexp.Chr " ") r).
Proof. apply rejectsHead_Chr. reflexivity. Qed.

Lemma matchAt_word1 (w rest : string) :
  isWordOf regexp.upper w -> tailOk rest = true ->
  regexp.matchAt rem1 (w ++ rest) = Some (w, []).
Proof.
  intros Hw Hrest. pose proof (upper_tail rest Hrest) as Hu.
  unfold regexp.matchAt, rem1. cbv zeta.
  rewrite run_Alt, (run_plus_then _ _ _ _ _ _ Hw Hu rejects_columns),
    columns_alternative_tail by exact Hrest.
  rewrite run_Alt, (run_plus_then _ _ _ _ _ _ Hw Hu (rejects_space _)),
    space_tail by exact Hrest.
  rewrite run_Alt, (run_plus_then _ _ _ _ _ _ Hw Hu (rejects_space _)),
    space_tail by exact Hrest.
  apply run_plus_end; auto.
Qed.

Lemma matchAt_word2 (w1 w2 rest : string) :
  isWordOf regexp.upper w1 -> isWordOf regexp.upper w2 -> tailOk rest = true ->
  regexp.matchAt rem1 ((w1 ++ " " ++ w2) ++ rest) = Some (w1 ++ " " ++ w2, []).
Proof.
  intros Hw1 Hw2 Hrest. pose proof (upper_tail rest Hrest) as Hu.
  rewrite string_app_assoc. simpl.
  unfold regexp.matchAt, rem1. cbv zeta.
  assert (Hsp : forall s, headIs regexp.upper (String " " s) = false) by reflexivity.
  rewrite run_Alt, (run_plus_then _ _ _ _ _ _ Hw1 (Hsp _) rejects_columns),
    columns_alternative_word by exact Hw2.
  rewrite run_Alt, (run_plus_then _ _ _ _ _ _ Hw1 (Hsp _) (rejects_space _)),
    run_Chr_then, (run_plus_then _ _ _ _ _ _ Hw2 Hu (rejects_space _)),
    space_tail by exact Hrest.
  rewrite run_Alt, (run_plus_then _ _ _ _ _ _ Hw1 (Hsp _) (rejects_space _)),
    run_Chr_then.
  rewrite (run_plus_end _ w2 rest [] _ (w1 ++ String " " w2, []) Hw2 Hu eq_refl).
  reflexivity.
Qed.

Lemma matchAt_word3 (w1 w2 w3 rest : string) :
  isWordOf regexp.upper w1 -> isWordOf regexp.upper w2 -> isWordOf regexp.upper w3 ->
  tailOk rest = true ->
  regexp.matchAt rem1 ((w1 ++ " " ++ w2 ++ " " ++ w3) ++ rest)
  = Some (w1 ++ " " ++ w2 ++ " " ++ w3, []).
Proof.
  intros Hw1 Hw2 Hw3 Hrest. pose proof (upper_tail rest Hrest) as Hu.
  repeat first [rewrite string_app_assoc | progress simpl].
  unfold regexp.matchAt, rem1. cbv zeta.
  assert (Hsp : forall s, headIs regexp.upper (String " " s) = false) by reflexivity.
  rewrite run_Alt, (run_plus_then _ _ _ _ _ _ Hw1 (Hsp _) rejects_columns),
    columns_alternative_word by exact Hw2.
  rewrite run_Alt, (run_plus_then _ _ _ _ _ _ Hw1 (Hsp _) (rejects_space _)),
    run_Chr_then, (run_plus_then _ _ _ _ _ _ Hw2 (Hsp _) (rejects_space _)),
    run_Chr_then.
  rewrite (run_plus_end _ w3 rest [] _ (w1 ++ String " " (w2 ++ String " " w3), [])
                        Hw3 Hu eq_refl).
  reflexivity.
Qed.

Lemma matchAt_columns (w cols rest : string) :
  isWordOf regexp.upper w -> isWordOf columnChar cols ->
  regexp.matchAt rem1 ((w ++ " (" ++ cols ++ ")") ++ rest)
  = Some (w ++ " (" ++ cols ++ ")", []).
Proof.
  intros Hw Hcols.
  repeat first [rewrite string_app_assoc | progress simpl].
  unfold regexp.matchAt, rem1. cbv zeta.
  assert (Hsp : forall s, headIs regexp.upper (String " " s) = false) by reflexivity.
  assert (Hrp : forall s, headIs columnChar (String ")" s) = false) by reflexivity.
  rewrite run_Alt, (run_plus_then _ _ _ _ _ _ Hw (Hsp _) rejects_columns).
  assert (E : regexp.run
                (regexp.Seq (regexp.Opt (regexp.Chr " "))
                   (regexp.Seq (regexp.Chr "(")
                      (regexp.Seq (regexp.Plus columnChar) (regexp.Chr ")"))))
                (String " " (String "(" (cols ++ String ")" rest))) []
                (fun m2 s2 caps2 => Some (w ++ m2, caps2))
              = Some (w ++ String " " (String "(" (cols ++ ")")), [])).
  { change (regexp.run
              (regexp.Seq (regexp.Opt (regexp.Chr " "))
                 (regexp.Seq (regexp.Chr "(")
                    (regexp.Seq (regexp.Plus columnChar) (regexp.Chr ")"))))
              (String " " (String "(" (cols ++ String ")" rest))) []
              (fun m2 s2 caps2 => Some (w ++ m2, caps2)))
      with (match regexp.run
                    (regexp.Seq (regexp.Plus columnChar) (regexp.Chr ")"))
                    (cols ++ String ")" rest) []
                    (fun m3 s3 caps3 =>
                       Some (w ++ String " " (String "(" m3), caps3))
            with
            | Some x => Some x
            | None =>
                regexp.run (regexp.Seq (regexp.Chr "(")
                              (regexp.Seq (regexp.Plus columnChar) (regexp.Chr ")")))
                           (String " " (String "(" (cols ++ String ")" rest))) []
                           (fun m2 s2 caps2 => Some (w ++ "" ++ m2, caps2))
            end).
    rewrite (run_plus_then _ _ _ _ _ _ Hcols (Hrp _)
                           (proj1 (rejectsHead_Chr columnChar ")" (regexp.Chr ")")
                                                   columnChar_rparen))).
    rewrite run_Chr_hit. reflexivity. }
  rewrite E. reflexivity.
Qed.

Lemma matchAt_normalized (n rest : string) :
  Normalized n -> tailOk rest = true -> regexp.matchAt rem1 (n ++ rest) = Some (n, []).
Proof.
  intros Hn Hrest. destruct Hn.
  - apply matchAt_word1; assumption.
  - apply matchAt_word2; assumption.
  - apply matchAt_word3; assumption.
  - apply matchAt_columns; assumption.
Qed.

Lemma Normalized_head (n : string) :
  Normalized n -> exists c n', n = String c n' /\ regexp.upper c = true.
Proof.
  intro Hn.
  assert (H : forall w s, isWordOf regexp.upper w ->
                          exists c n', w ++ s = String c n' /\ regexp.upper c = true).
  { intros w s Hw. destruct (word_head _ _ Hw) as (c & w' & -> & Hc).
    exists c, (w' ++ s). split; [reflexivity | exact Hc]. }
  destruct Hn as [w Hw | w1 w2 Hw1 _ | w1 w2 w3 Hw1 _ _ | w cols Hw _].
  - rewrite <- (string_app_nil_r w). apply H. exact Hw.
  - apply H. exact Hw1.
  - apply H. exact Hw1.
  - apply H. exact Hw.
Qed.

Lemma findAll_skip (r : regexp.Regexp) (m rest : string) :
  regexp.findAll r (String.length m) (m ++ rest) = regexp.findAll r 0 rest.
Proof. induction m as [| c m IH]; [reflexivity | exact IH]. Qed.

Lemma matchAt_rem1_stop (s : string) :
  headIs regexp.upper s = false -> regexp.matchAt rem1 s = None.
Proof.
  intro H. unfold regexp.matchAt, rem1. cbv zeta.
  rewrite run_Alt, run_plus_stop by exact H.
  rewrite run_Alt, run_plus_stop by exact H.
  rewrite run_Alt, run_plus_stop by exact H.
  simpl. apply plusGreedy_stop. exact H.
Qed.

Lemma findAll_step (r : regexp.Regexp) (c : ascii) (s : string) :
  regexp.findAll r 0 (String c s)
  = match regexp.matchAt r (String c s) with
    | Some (m, _) => m :: regexp.findAll r (String.length m - 1) s
    | None => regexp.findAll r 0 s
    end.
Proof. reflexivity. Qed.

Lemma findAll_token (n rest : string) :
  Normalized n -> tailOk rest = true ->
  regexp.findAll rem1 0 (n ++ rest) = n :: regexp.findAll rem1 0 rest.
Proof.
  intros Hn Hrest. pose proof (matchAt_normalized n rest Hn Hrest) as Hm.
  destruct (Normalized_head n Hn) as (c & n' & -> & _).
  change (String c n' ++ rest) with (String c (n' ++ rest)) in *.
  rewrite findAll_step, Hm.
  replace (String.length (String c n') - 1)%nat with (String.length n')
    by (simpl; rewrite Nat.sub_0_r; reflexivity).
  rewrite findAll_skip. reflexivity.
Qed.

Lemma findAll_separator (s : string) :
  regexp.findAll rem1 0 (", " ++ s) = regexp.findAll rem1 0 s.
Proof.
  change (", " ++ s) with (String "," (String " " s)).
  rewrite findAll_step, matchAt_rem1_stop by reflexivity.
  rewrite findAll_step, matchAt_rem1_stop by reflexivity.
  reflexivity.
Qed.

(** Parsing the rendering of normalized tokens gives the tokens back. *)
Lemma FindAllString_Join (l : list string) :
  Forall Normalized l -> regexp.FindAllString rem1 (strings.Join l ", ") = l.
Proof.
  unfold regexp.FindAllString, strings.Join.
  induction 1 as [| n l Hn Hl IH]; [reflexivity |].
  destruct l as [| n2 l].
  - simpl String.concat. rewrite <- (string_app_nil_r n) at 1.
    rewrite findAll_token by (auto; reflexivity). reflexivity.
  - change (String.concat ", " (n :: n2 :: l))
      with (n ++ ", " ++ String.concat ", " (n2 :: l)).
    rewrite findAll_token by (auto; reflexivity).
    rewrite findAll_separator, IH. reflexivity.
Qed.

(** ** Texts without a given byte *)

Lemma allChars_app (p : ascii -> bool) (a b : string) :
  allChars p (a ++ b) = allChars p a && allChars p b.
Proof.
  induction a as [| c a IH]; simpl; [reflexivity |].
  rewrite IH, andb_assoc. reflexivity.
Qed.

Lemma allChars_weaken (p q : ascii -> bool) (s : string) :
  (forall c, p c = true -> q c = true) -> allChars p s = true -> allChars q s = true.
Proof.
  intro Hpq. induction s as [| c s IH]; simpl; [reflexivity |].
  intro H. apply andb_true_iff in H as [Hc Hs]. rewrite (Hpq c Hc), (IH Hs). reflexivity.
Qed.

Lemma word_without (p : ascii -> bool) (c : ascii) (s : string) :
  p c = false -> allChars p s = true -> without c s = true.
Proof.
  intros Hc. apply allChars_weaken. intros d Hd.
  destruct (Ascii.eqb_spec c d) as [-> | ]; [congruence | reflexivity].
Qed.

Lemma Contains_without (c : ascii) (s : string) :
  without c s = true -> strings.Contains s (String c "") = false.
Proof.
  induction s as [| d s IH]; simpl; [reflexivity |].
  intro H. apply andb_true_iff in H as [Hd Hs]. apply negb_true_iff in Hd.
  rewrite Hd, (IH Hs). reflexivity.
Qed.

Lemma Contains_with (c : ascii) (a b : string) :
  strings.Contains (a ++ String c b) (String c "") = true.
Proof.
  induction a as [| d a IH]; simpl.
  - rewrite Ascii.eqb_refl. reflexivity.
  - rewrite IH. apply orb_true_r.
Qed.

Lemma split_go_without (c : ascii) (s : string) :
  without c s = true -> strings.split_go (String c "") 0 s = [s].
Proof.
  induction s as [| d s IH]; [reflexivity |].
  intro H. simpl in H. apply andb_true_iff in H as [Hd Hs]. apply negb_true_iff in Hd.
  simpl. rewrite Hd. simpl. rewrite (IH Hs). reflexivity.
Qed.

Lemma Split_once (c : ascii) (a b : string) :
  without c a = true -> without c b = true ->
  strings.Split (a ++ String c b) (String c "") = [a; b].
Proof.
  intros Ha Hb. unfold strings.Split. induction a as [| d a IH].
  - simpl. rewrite Ascii.eqb_refl. simpl. rewrite (split_go_without c b Hb). reflexivity.
  - simpl in Ha. apply andb_true_iff in Ha as [Hd Ha]. apply negb_true_iff in Hd.
    simpl. rewrite Hd. simpl. rewrite (IH Ha). reflexivity.
Qed.

(** ** Trimming *)

Lemma trim_right_all (p : ascii -> bool) (s : string) :
  allChars p s = true -> strings.trim_right p s = "".
Proof.
  induction s as [| c s IH]; [reflexivity |]. simpl.
  intro H. apply andb_true_iff in H as [Hc Hs]. rewrite (IH Hs), Hc. reflexivity.
Qed.

Lemma trim_right_app (p : ascii -> bool) (a b : string) :
  allChars p b = true -> strings.trim_right p (a ++ b) = strings.trim_right p a.
Proof.
  intro Hb. induction a as [| c a IH]; simpl.
  - apply trim_right_all. exact Hb.
  - rewrite IH. reflexivity.
Qed.

(** A text that ends with a byte outside [p] is its own right trim. *)
Lemma trim_right_last (p : ascii -> bool) (a : string) (c : ascii) :
  p c = false -> strings.trim_right p (a ++ String c "") = a ++ String c "".
Proof.
  intro Hc. induction a as [| d a IH]; simpl.
  - rewrite Hc. reflexivity.
  - rewrite IH. destruct a; reflexivity.
Qed.

Lemma word_last (p : ascii -> bool) (w : string) :
  isWordOf p w -> exists w' c, w = w' ++ String c "" /\ p c = true.
Proof.
  intros [Hne Hall]. induction w as [| c w IH]; [congruence |].
  simpl in Hall. apply andb_true_iff in Hall as [Hc Hall].
  destruct w as [| d w].
  - exists "", c. auto.
  - destruct (IH ltac:(discriminate) Hall) as (w' & e & E & He).
    exists (String c w'), e. rewrite E. auto.
Qed.

Lemma upper_isSpace (c : ascii) : regexp.upper c = true -> strings.isSpace c = false.
Proof.
  unfold regexp.upper, regexp.inRange, strings.isSpace. intro H.
  apply andb_true_iff in H as [H1 H2].
  apply Nat.leb_le in H1. apply Nat.leb_le in H2.
  apply orb_false_iff. split.
  - apply andb_false_iff. right. apply Nat.leb_gt. lia.
  - apply Nat.eqb_neq. lia.
Qed.

(** A text that starts and ends with a word is its own trim. *)
Lemma TrimSpace_between_words (w1 mid w2 : string) :
  isWordOf regexp.upper w1 -> isWordOf regexp.upper w2 ->
  strings.TrimSpace (w1 ++ mid ++ w2) = w1 ++ mid ++ w2.
Proof.
  intros Hw1 Hw2. unfold strings.TrimSpace.
  destruct (word_head _ _ Hw1) as (c & w1' & -> & Hc).
  destruct (word_last _ _ Hw2) as (w2' & e & -> & He).
  simpl strings.trim_left. rewrite (upper_isSpace c Hc).
  change (String c w1' ++ mid ++ w2' ++ String e "")
    with (String c (w1' ++ mid ++ w2' ++ String e "")).
  replace (String c (w1' ++ mid ++ w2' ++ String e ""))
    with ((String c (w1' ++ mid ++ w2')) ++ String e "")
    by (simpl; rewrite !string_app_assoc; reflexivity).
  apply trim_right_last. apply upper_isSpace. exact He.
Qed.

Lemma TrimSpace_word (w : string) :
  isWordOf regexp.upper w -> strings.TrimSpace w = w.
Proof.
  intro Hw. unfold strings.TrimSpace.
  destruct (word_last _ _ Hw) as (w' & e & -> & He).
  assert (E : strings.trim_left strings.isSpace (w' ++ String e "") = w' ++ String e "").
  { destruct w' as [| c w'].
    - simpl. rewrite (upper_isSpace e He). reflexivity.
    - destruct Hw as [_ Hall]. simpl in Hall. apply andb_true_iff in Hall as [Hc _].
      simpl. rewrite (upper_isSpace c Hc). reflexivity. }
  rewrite E. apply trim_right_last. apply upper_isSpace. exact He.
Qed.

Lemma TrimSpace_word_space (w : string) :
  isWordOf regexp.upper w -> strings.TrimSpace (w ++ " ") = w.
Proof.
  intro Hw. unfold strings.TrimSpace.
  destruct (word_head _ _ Hw) as (c & w' & E & Hc).
  assert (El : strings.trim_left strings.isSpace (w ++ " ") = w ++ " ").
  { rewrite E. simpl. rewrite (upper_isSpace c Hc). reflexivity. }
  rewrite El, trim_right_app by reflexivity.
  fold (strings.TrimSpace w).
  pose proof (TrimSpace_word w Hw) as Hid. unfold strings.TrimSpace in Hid.
  assert (Et : strings.trim_left strings.isSpace w = w).
  { rewrite E. simpl. rewrite (upper_isSpace c Hc). reflexivity. }
  rewrite Et in Hid. exact Hid.
Qed.

(** ** Replacing the closing parenthesis *)

Lemma Replace_rparen (cols : string) :
  without ")" cols = true -> strings.Replace (cols ++ ")") ")" "" 1 = cols.
Proof.
  unfold strings.Replace. change (if (1 <? 0)%Z then _ else Z.to_nat 1) with 1%nat.
  induction cols as [| c cols IH]; [reflexivity |].
  intro H. cbn -[Ascii.eqb] in H.
  apply andb_true_iff in H as [Hc Hs]. apply negb_true_iff in Hc.
  cbn -[Ascii.eqb]. rewrite Hc. cbn -[Ascii.eqb]. rewrite (IH Hs). reflexivity.
Qed.

(** ** Splitting and joining on [", "] *)

Lemma split_go_nonempty (sep : string) (s : string) (skip : nat) :
  strings.split_go sep skip s <> [].
Proof.
  revert skip. induction s as [| c s IH]; intro skip; simpl; [discriminate |].
  destruct skip as [| skip]; [| apply IH].
  destruct (strings.HasPrefix (String c s) sep); [discriminate |].
  destruct (strings.split_go sep 0 s); discriminate.
Qed.

Lemma split_go_head (f : ascii -> bool) (sep s : string) :
  headIs f (hd "" (strings.split_go sep 0 s)) = true -> headIs f s = true.
Proof.
  destruct s as [| c s]; simpl; [auto |].
  destruct (strings.HasPrefix (String c s) sep); simpl; [discriminate |].
  destruct (strings.split_go sep 0 s); simpl; auto.
Qed.

Lemma sepFree_cons (c : ascii) (p : string) :
  sepFree p ->
  (Ascii.eqb "," c && headIs (Ascii.eqb " ") p = false) ->
  sepFree (String c p).
Proof.
  unfold sepFree. intros Hp Hc. cbn -[Ascii.eqb]. rewrite Hp, orb_false_r.
  destruct p as [| d p]; cbn -[Ascii.eqb] in *.
  - apply andb_false_r.
  - rewrite andb_true_r. exact Hc.
Qed.

Lemma HasPrefix_sep (c : ascii) (s : string) :
  strings.HasPrefix (String c s) ", " = Ascii.eqb "," c && headIs (Ascii.eqb " ") s.
Proof.
  cbn -[Ascii.eqb]. destruct s as [| d s]; cbn -[Ascii.eqb]; [reflexivity |].
  rewrite andb_true_r. reflexivity.
Qed.

Lemma split_go_sepFree (s : string) (skip : nat) :
  Forall sepFree (strings.split_go ", " skip s).
Proof.
  revert skip. induction s as [| c s IH]; intro skip.
  - simpl. constructor; [reflexivity | constructor].
  - destruct skip as [| skip]; [| apply IH].
    cbn -[Ascii.eqb strings.HasPrefix]. 
    destruct (strings.HasPrefix (String c s) ", ") eqn:E.
    + constructor; [reflexivity | apply IH].
    + pose proof (IH 0%nat) as H0. pose proof (split_go_head (Ascii.eqb " ") ", " s) as Hh.
      destruct (strings.split_go ", " 0 s) as [| p ps] eqn:Es.
      * destruct (split_go_nonempty _ _ _ Es).
      * inversion H0; subst. constructor; [| assumption].
        apply sepFree_cons; [assumption |].
        rewrite HasPrefix_sep in E. simpl in Hh.
        destruct (Ascii.eqb "," c); [| reflexivity]. simpl in *.
        destruct (headIs (Ascii.eqb " ") p); [| reflexivity].
        rewrite Hh in E by reflexivity. discriminate.
Qed.

Lemma split_go_allChars (p : ascii -> bool) (s : string) (skip : nat) :
  allChars p s = true -> Forall (fun q => allChars p q = true) (strings.split_go ", " skip s).
Proof.
  revert skip. induction s as [| c s IH]; intros skip H.
  - simpl. constructor; [reflexivity | constructor].
  - simpl in H. apply andb_true_iff in H as [Hc Hs].
    destruct skip as [| skip]; [| apply IH; exact Hs].
    cbn -[Ascii.eqb strings.HasPrefix].
    destruct (strings.HasPrefix (String c s) ", ").
    + constructor; [reflexivity | apply IH; exact Hs].
    + pose proof (IH 0%nat Hs) as H0.
      destruct (strings.split_go ", " 0 s) as [| q qs].
      * constructor; [simpl; rewrite Hc; reflexivity | constructor].
      * inversion H0; subst. constructor; [| assumption].
        simpl. rewrite Hc. assumption.
Qed.

Lemma Join_allChars (p : ascii -> bool) (l : list string) :
  p ","%char = true -> p " "%char = true ->
  Forall (fun q => allChars p q = true) l -> allChars p (strings.Join l ", ") = true.
Proof.
  intros Hc Hs. unfold strings.Join. induction 1 as [| q l Hq Hl IH]; [reflexivity |].
  destruct l as [| q2 l]; [exact Hq |].
  change (String.concat ", " (q :: q2 :: l)) with (q ++ ", " ++ String.concat ", " (q2 :: l)).
  rewrite !allChars_app, Hq, IH. simpl. rewrite Hc, Hs. reflexivity.
Qed.

Lemma split_go_piece (p rest : string) :
  sepFree p -> tailOk rest = true ->
  strings.split_go ", " 0 (p ++ rest)
  = match strings.split_go ", " 0 rest with
    | q :: qs => (p ++ q) :: qs
    | [] => [p]
    end.
Proof.
  intros Hp Hrest. induction p as [| c p IH].
  - simpl. destruct (strings.split_go ", " 0 rest) eqn:E; [| reflexivity].
    destruct (split_go_nonempty _ _ _ E).
  - unfold sepFree in Hp. cbn -[Ascii.eqb strings.HasPrefix] in Hp.
    apply orb_false_iff in Hp as [Hpre Hp].
    change (String c p ++ rest) with (String c (p ++ rest)).
    cbn -[Ascii.eqb strings.HasPrefix].
    assert (E : strings.HasPrefix (String c (p ++ rest)) ", " = false).
    { rewrite HasPrefix_sep in *. destruct (Ascii.eqb "," c); [| reflexivity].
      simpl in *. destruct p as [| d p]; simpl in *.
      - destruct rest as [| e rest]; [reflexivity |]. simpl in Hrest.
        apply Ascii.eqb_eq in Hrest. subst e. reflexivity.
      - exact Hpre. }
    rewrite E, (IH Hp).
    destruct (strings.split_go ", " 0 rest); reflexivity.
Qed.

Lemma split_go_separator (s : string) :
  strings.split_go ", " 0 (", " ++ s) = "" :: strings.split_go ", " 0 s.
Proof. reflexivity. Qed.

Lemma Split_Join (l : list string) :
  l <> [] -> Forall sepFree l -> strings.Split (strings.Join l ", ") ", " = l.
Proof.
  unfold strings.Split, strings.Join. intros Hne Hl.
  induction Hl as [| p l Hp Hl IH]; [congruence |].
  destruct l as [| p2 l].
  - simpl String.concat. rewrite <- (string_app_nil_r p) at 1.
    rewrite split_go_piece by (auto; reflexivity). simpl. rewrite string_app_nil_r.
    reflexivity.
  - change (String.concat ", " (p :: p2 :: l)) with (p ++ ", " ++ String.concat ", " (p2 :: l)).
    rewrite split_go_piece by (auto; reflexivity).
    rewrite split_go_separator, IH by discriminate.
    rewrite string_app_nil_r. reflexivity.
Qed.

Lemma Split_empty (s : string) : strings.Split s ", " = [""] -> s = "".
Proof.
  unfold strings.Split. destruct s as [| c s]; [reflexivity |].
  cbn -[Ascii.eqb strings.HasPrefix].
  destruct (strings.HasPrefix (String c s) ", ").
  - intro H. injection H as H. destruct (split_go_nonempty _ _ _ H).
  - destruct (strings.split_go ", " 0 s); discriminate.
Qed.

Lemma Join_empty (l : list string) : strings.Join l ", " = "" -> l = [] \/ l = [""].
Proof.
  unfold strings.Join. destruct l as [| p [| q l]]; simpl; auto.
  - intros ->. auto.
  - intro H. destruct p; discriminate.
Qed.

(** ** Sorting *)

Lemma insert_perm (x : string) (l : list string) : Permutation (sort.insert x l) (x :: l).
Proof.
  induction l as [| y l IH]; simpl; [reflexivity |].
  destruct (String.leb x y); [reflexivity |].
  rewrite IH. apply perm_swap.
Qed.

Lemma Strings_perm (l : list string) : Permutation (sort.Strings l) l.
Proof.
  induction l as [| x l IH]; simpl; [reflexivity |].
  rewrite insert_perm, IH. reflexivity.
Qed.

Lemma insert_sorted (x : string) (l : list string) :
  Sorted le l -> Sorted le (sort.insert x l).
Proof.
  induction 1 as [| y l Hl IH Hy]; simpl.
  - repeat constructor.
  - destruct (String.leb x y) eqn:E.
    + constructor; [constructor; assumption | constructor; exact E].
    + constructor; [exact IH |].
      assert (Hyx : le y x).
      { destruct (String.leb_total x y) as [H | H]; [congruence | exact H]. }
      destruct l as [| z l]; simpl.
      * constructor. exact Hyx.
      * inversion Hy; subst. destruct (String.leb x z); constructor; assumption.
Qed.

Lemma Strings_sorted (l : list string) : Sorted le (sort.Strings l).
Proof.
  induction l as [| x l IH]; simpl; [constructor | apply insert_sorted; exact IH].
Qed.

Lemma Strings_of_sorted (l : list string) : Sorted le l -> sort.Strings l = l.
Proof.
  induction 1 as [| x l Hl IH Hx]; [reflexivity |].
  simpl. rewrite IH. destruct Hx as [| y l Hxy]; [reflexivity |].
  simpl. unfold le in Hxy. rewrite Hxy. reflexivity.
Qed.

Lemma Strings_idempotent (l : list string) :
  sort.Strings (sort.Strings l) = sort.Strings l.
Proof. apply Strings_of_sorted, Strings_sorted. Qed.

(** ** What the pattern of privileges matches *)

Ltac invert_matches :=
  repeat match goal with
         | H : Matches (regexp.Seq _ _) _ |- _ => inversion H; subst; clear H
         | H : Matches (regexp.Chr _) _ |- _ => inversion H; subst; clear H
         | H : Matches (regexp.Plus _) _ |- _ => inversion H; subst; clear H
         | H : Matches (regexp.Opt _) _ |- _ => inversion H; subst; clear H
         | H : Matches (regexp.Alt _ _) _ |- _ => inversion H; subst; clear H
         end.

Lemma Matches_rem1 (m : string) :
  Matches rem1 m ->
  (exists w sp cols,
      isWordOf regexp.upper w /\ (sp = "" \/ sp = " ") /\ isWordOf columnChar cols
      /\ m = w ++ sp ++ "(" ++ cols ++ ")")
  \/ (exists w1 w2 w3,
         isWordOf regexp.upper w1 /\ isWordOf regexp.upper w2 /\ isWordOf regexp.upper w3
         /\ m = w1 ++ " " ++ w2 ++ " " ++ w3)
  \/ (exists w1 w2,
         isWordOf regexp.upper w1 /\ isWordOf regexp.upper w2 /\ m = w1 ++ " " ++ w2)
  \/ isWordOf regexp.upper m.
Proof.
  unfold rem1. cbv zeta. intro H. invert_matches.
  - left. eexists _, " ", _. split; [| split; [| split]].
    4: reflexivity. all: auto.
  - left. eexists _, "", _. split; [| split; [| split]].
    4: reflexivity. all: auto.
  - right. left. eexists _, _, _. split; [| split; [| split]].
    4: reflexivity. all: assumption.
  - right. right. left. eexists _, _. split; [| split].
    3: reflexivity. all: assumption.
  - right. right. right. assumption.
Qed.

Lemma normalize_plain (m : string) :
  strings.Contains m "(" = false -> strings.TrimSpace m = m -> normalizePrivilege m = m.
Proof. intros Hc Ht. unfold normalizePrivilege. rewrite Hc. exact Ht. Qed.

Lemma without_app (c : ascii) (a b : string) :
  without c (a ++ b) = without c a && without c b.
Proof. apply allChars_app. Qed.

Lemma upper_without_lparen (w : string) :
  isWordOf regexp.upper w -> without "(" w = true.
Proof. intros [_ H]. apply (word_without regexp.upper); [reflexivity | exact H]. Qed.

Lemma normalize_word1 (w : string) :
  isWordOf regexp.upper w -> normalizePrivilege w = w.
Proof.
  intro Hw. apply normalize_plain.
  - apply Contains_without, upper_without_lparen, Hw.
  - apply TrimSpace_word, Hw.
Qed.

Lemma normalize_word2 (w1 w2 : string) :
  isWordOf regexp.upper w1 -> isWordOf regexp.upper w2 ->
  normalizePrivilege (w1 ++ " " ++ w2) = w1 ++ " " ++ w2.
Proof.
  intros Hw1 Hw2. apply normalize_plain.
  - apply Contains_without. rewrite !without_app.
    rewrite (upper_without_lparen w1 Hw1), (upper_without_lparen w2 Hw2). reflexivity.
  - apply TrimSpace_between_words; assumption.
Qed.

Lemma normalize_word3 (w1 w2 w3 : string) :
  isWordOf regexp.upper w1 -> isWordOf regexp.upper w2 -> isWordOf regexp.upper w3 ->
  normalizePrivilege (w1 ++ " " ++ w2 ++ " " ++ w3) = w1 ++ " " ++ w2 ++ " " ++ w3.
Proof.
  intros Hw1 Hw2 Hw3. apply normalize_plain.
  - apply Contains_without. rewrite !without_app.
    rewrite (upper_without_lparen w1 Hw1), (upper_without_lparen w2 Hw2),
      (upper_without_lparen w3 Hw3). reflexivity.
  - replace (w1 ++ " " ++ w2 ++ " " ++ w3) with (w1 ++ (" " ++ w2 ++ " ") ++ w3)
      by (rewrite !string_app_assoc; reflexivity).
    apply TrimSpace_between_words; assumption.
Qed.

Lemma normalize_columns (w sp cols : string) :
  isWordOf regexp.upper w -> sp = "" \/ sp = " " -> allChars columnChar cols = true ->
  normalizePrivilege (w ++ sp ++ "(" ++ cols ++ ")")
  = w ++ " (" ++ sortedColumns cols ++ ")".
Proof.
  intros Hw Hsp Hcols.
  assert (Hc1 : without "(" cols = true)
    by (apply (word_without columnChar); [reflexivity | exact Hcols]).
  assert (Hc2 : without ")" cols = true)
    by (apply (word_without columnChar); [reflexivity | exact Hcols]).
  assert (Hwsp : without "(" (w ++ sp) = true).
  { rewrite without_app, (upper_without_lparen w Hw).
    destruct Hsp as [-> | ->]; reflexivity. }
  assert (Htrim : strings.TrimSpace (w ++ sp) = w).
  { destruct Hsp as [-> | ->].
    - rewrite string_app_nil_r. apply TrimSpace_word, Hw.
    - apply TrimSpace_word_space, Hw. }
  replace (w ++ sp ++ "(" ++ cols ++ ")") with ((w ++ sp) ++ String "(" (cols ++ ")"))
    by (rewrite string_app_assoc; reflexivity).
  unfold normalizePrivilege.
  rewrite Contains_with, Split_once;
    [| exact Hwsp | rewrite without_app, Hc1; reflexivity].
  cbn [nth]. rewrite Htrim, Replace_rparen by exact Hc2. reflexivity.
Qed.

Lemma sortedColumns_word (cols : string) :
  isWordOf columnChar cols -> isWordOf columnChar (sortedColumns cols).
Proof.
  intros [Hne Hall]. unfold sortedColumns. split.
  - intro E. apply Join_empty in E.
    assert (Hs : strings.Split cols ", " = [""]).
    { destruct E as [E | E].
      - pose proof (Strings_perm (strings.Split cols ", ")) as Hp. rewrite E in Hp.
        apply Permutation_nil in Hp. destruct (split_go_nonempty _ _ _ Hp).
      - pose proof (Strings_perm (strings.Split cols ", ")) as Hp. rewrite E in Hp.
        apply Permutation_length_1_inv in Hp. exact Hp. }
    apply Split_empty in Hs. contradiction.
  - apply Join_allChars; [reflexivity | reflexivity |].
    eapply Permutation_Forall; [symmetry; apply Strings_perm |].
    apply split_go_allChars. exact Hall.
Qed.

Lemma sortedColumns_idempotent (cols : string) :
  sortedColumns (sortedColumns cols) = sortedColumns cols.
Proof.
  unfold sortedColumns at 1. unfold sortedColumns at 1.
  rewrite Split_Join.
  - rewrite Strings_idempotent. reflexivity.
  - intro E. pose proof (Strings_perm (strings.Split cols ", ")) as Hp. rewrite E in Hp.
    apply Permutation_nil in Hp. destruct (split_go_nonempty _ _ _ Hp).
  - eapply Permutation_Forall; [symmetry; apply Strings_perm |].
    apply split_go_sepFree.
Qed.

(** Every match is normalized to a token that normalization leaves as it
    is. *)
Lemma normalize_match (m : string) :
  Matches rem1 m ->
  Normalized (normalizePrivilege m)
  /\ normalizePrivilege (normalizePrivilege m) = normalizePrivilege m.
Proof.
  intro H. apply Matches_rem1 in H.
  destruct H as [(w & sp & cols & Hw & Hsp & Hcols & ->)
                | [(w1 & w2 & w3 & Hw1 & Hw2 & Hw3 & ->)
                  | [(w1 & w2 & Hw1 & Hw2 & ->) | Hw]]].
  - rewrite (normalize_columns w sp cols Hw Hsp (proj2 Hcols)).
    pose proof (sortedColumns_word cols Hcols) as Hs. split.
    + apply NColumns; assumption.
    + change (w ++ " (" ++ sortedColumns cols ++ ")")
        with (w ++ " " ++ "(" ++ sortedColumns cols ++ ")").
      rewrite (normalize_columns w " " (sortedColumns cols) Hw (or_intror eq_refl) (proj2 Hs)).
      rewrite sortedColumns_idempotent. reflexivity.
  - rewrite !(normalize_word3 w1 w2 w3 Hw1 Hw2 Hw3). split; [| reflexivity].
    apply NWord3; assumption.
  - rewrite !(normalize_word2 w1 w2 Hw1 Hw2). split; [| reflexivity].
    apply NWord2; assumption.
  - rewrite !(normalize_word1 m Hw). split; [| reflexivity].
    apply NWord1; assumption.
Qed.

(** C7: parsing the list that [parsePrivileges] gives for a clause,
    rendered with a comma and a space between its tokens, gives that list
    again.  This holds for every text, well-formed clause or not. *)
Theorem parsePrivileges_idempotent (s : string) :
  parsePrivileges (strings.Join (parsePrivileges s) ", ") = parsePrivileges s.
Proof.
  unfold parsePrivileges.
  pose proof (findAll_tokens rem1 s 0) as Htoks.
  fold (regexp.FindAllString rem1 s) in Htoks.
  set (toks := regexp.FindAllString rem1 s) in *.
  rewrite FindAllString_Join.
  - rewrite map_map. apply map_ext_in. intros m Hm.
    rewrite Forall_forall in Htoks. apply normalize_match. apply Htoks. exact Hm.
  - apply Forall_forall. intros n Hn. apply in_map_iff in Hn.
    destruct Hn as (m & <- & Hm). rewrite Forall_forall in Htoks.
    apply normalize_match. apply Htoks. exact Hm.
Qed.

(** ** Column lists *)

Lemma matchAt_columns_nospace (w cols rest : string) :
  isWordOf regexp.upper w -> isWordOf columnChar cols ->
  regexp.matchAt rem1 ((w ++ "(" ++ cols ++ ")") ++ rest)
  = Some (w ++ "(" ++ cols ++ ")", []).
Proof.
  intros Hw Hcols.
  repeat first [rewrite string_app_assoc | progress simpl].
  unfold regexp.matchAt, rem1. cbv zeta.
  assert (Hlp : forall s, headIs regexp.upper (String "(" s) = false) by reflexivity.
  assert (Hrp : forall s, headIs columnChar (String ")" s) = false) by reflexivity.
  rewrite run_Alt, (run_plus_then _ _ _ _ _ _ Hw (Hlp _) rejects_columns).
  assert (E : regexp.run
                (regexp.Seq (regexp.Opt (regexp.Chr " "))
                   (regexp.Seq (regexp.Chr "(")
                      (regexp.Seq (regexp.Plus columnChar) (regexp.Chr ")"))))
                (String "(" (cols ++ String ")" rest)) []
                (fun m2 s2 caps2 => Some (w ++ m2, caps2))
              = Some (w ++ String "(" (cols ++ ")"), [])).
  { change (regexp.run
              (regexp.Seq (regexp.Opt (regexp.Chr " "))
                 (regexp.Seq (regexp.Chr "(")
                    (regexp.Seq (regexp.Plus columnChar) (regexp.Chr ")"))))
              (String "(" (cols ++ String ")" rest)) []
              (fun m2 s2 caps2 => Some (w ++ m2, caps2)))
      with (regexp.run
              (regexp.Seq (regexp.Plus columnChar) (regexp.Chr ")"))
              (cols ++ String ")" rest) []
              (fun m3 s3 caps3 => Some (w ++ "" ++ String "(" m3, caps3))).
    rewrite (run_plus_then _ _ _ _ _ _ Hcols (Hrp _)
                           (proj1 (rejectsHead_Chr columnChar ")" (regexp.Chr ")")
                                                   columnChar_rparen))).
    rewrite run_Chr_hit. reflexivity. }
  rewrite E. reflexivity.
Qed.

Lemma FindAllString_one (tok : string) (c : ascii) (tok' : string) :
  tok = String c tok' ->
  regexp.matchAt rem1 (tok ++ "") = Some (tok, []) ->
  regexp.FindAllString rem1 tok = [tok].
Proof.
  intros E Hm. unfold regexp.FindAllString. rewrite string_app_nil_r in Hm.
  subst tok. rewrite findAll_step, Hm.
  replace (String.length (String c tok') - 1)%nat with (String.length tok')
    by (simpl; rewrite Nat.sub_0_r; reflexivity).
  pose proof (findAll_skip rem1 tok' "") as H. rewrite string_app_nil_r in H.
  rewrite H. reflexivity.
Qed.

(** A capability with a column list, with or without the space, parses to
    the capability, one space and the columns in order. *)
Lemma parsePrivileges_columns (w sp cols : string) :
  isWordOf regexp.upper w -> sp = "" \/ sp = " " -> isWordOf columnChar cols ->
  parsePrivileges (w ++ sp ++ "(" ++ cols ++ ")") = [w ++ " (" ++ sortedColumns cols ++ ")"].
Proof.
  intros Hw Hsp Hcols. unfold parsePrivileges.
  destruct (word_head _ _ Hw) as (c & w' & Ew & _).
  assert (Hm : regexp.matchAt rem1 ((w ++ sp ++ "(" ++ cols ++ ")") ++ "")
               = Some (w ++ sp ++ "(" ++ cols ++ ")", [])).
  { destruct Hsp as [-> | ->].
    - apply (matchAt_columns_nospace w cols ""); assumption.
    - apply (matchAt_columns w cols ""); assumption. }
  rewrite (FindAllString_one _ c (w' ++ sp ++ "(" ++ cols ++ ")")); [| subst w; reflexivity | exact Hm].
  cbn [map]. rewrite (normalize_columns w sp cols Hw Hsp (proj2 Hcols)). reflexivity.
Qed.

Lemma nameChar_columnChar (c : ascii) : nameChar c = true -> columnChar c = true.
Proof.
  unfold nameChar, columnChar. intro H.
  repeat (apply orb_true_iff in H; destruct H as [H | H]); rewrite H;
    repeat rewrite orb_true_r; reflexivity.
Qed.

Lemma name_sepFree (p : string) : allChars nameChar p = true -> sepFree p.
Proof.
  intro H. unfold sepFree.
  assert (Hw : without "," p = true)
    by (apply (word_without nameChar); [reflexivity | exact H]).
  clear H. induction p as [| c p IH]; [reflexivity |].
  cbn -[Ascii.eqb] in Hw. apply andb_true_iff in Hw as [Hc Hp].
  apply negb_true_iff in Hc.
  cbn -[Ascii.eqb]. rewrite Hc, (IH Hp). reflexivity.
Qed.

Lemma names_columns (cs : list string) :
  cs <> [] -> Forall (isWordOf nameChar) cs ->
  isWordOf columnChar (strings.Join cs ", ")
  /\ strings.Split (strings.Join cs ", ") ", " = cs.
Proof.
  intros Hne Hcs. split; [split |].
  - destruct Hcs as [| p cs [Hp _] Hcs]; [congruence |].
    unfold strings.Join. destruct cs as [| q cs]; simpl.
    + exact Hp.
    + destruct p; [congruence | discriminate].
  - apply Join_allChars; [reflexivity | reflexivity |].
    eapply Forall_impl; [| exact Hcs]. intros p [_ Hp].
    apply (allChars_weaken nameChar); [apply nameChar_columnChar | exact Hp].
  - apply Split_Join; [exact Hne |].
    eapply Forall_impl; [| exact Hcs]. intros p [_ Hp]. apply name_sepFree. exact Hp.
Qed.

(** ** The order of strings *)

Lemma le_trans (a b c : string) : le a b -> le b c -> le a c.
Proof.
  unfold le, String.leb. intros Hab Hbc.
  destruct (String.compare a b) eqn:Eab; try discriminate;
    destruct (String.compare b c) eqn:Ebc; try discriminate.
  - pose proof (String.compare_eq_iff _ _ Eab) as E. subst b. rewrite Ebc. reflexivity.
  - pose proof (String.compare_eq_iff _ _ Eab) as E. subst b. rewrite Ebc. reflexivity.
  - pose proof (String.compare_eq_iff _ _ Ebc) as E. subst c. rewrite Eab. reflexivity.
  - apply String_as_OT.cmp_lt in Eab, Ebc.
    pose proof (String_as_OT.lt_trans _ _ _ Eab Ebc) as H.
    apply String_as_OT.cmp_lt in H. unfold String_as_OT.cmp in H. rewrite H. reflexivity.
Qed.

Lemma sorted_perm_unique (l1 l2 : list string) :
  Sorted le l1 -> Sorted le l2 -> Permutation l1 l2 -> l1 = l2.
Proof.
  intros H1 H2.
  apply Sorted_StronglySorted in H1; [| intros a b c; apply le_trans].
  apply Sorted_StronglySorted in H2; [| intros a b c; apply le_trans].
  revert l2 H2. induction H1 as [| x l1 Hl1 IH Hx]; intros l2 H2 Hp.
  - apply Permutation_nil in Hp. subst. reflexivity.
  - destruct H2 as [| y l2 Hl2 Hy].
    + symmetry in Hp. apply Permutation_nil in Hp. discriminate.
    + assert (Exy : x = y).
      { assert (Hxin : In x (y :: l2)) by (eapply Permutation_in; [exact Hp | left; reflexivity]).
        assert (Hyin : In y (x :: l1))
          by (eapply Permutation_in; [symmetry; exact Hp | left; reflexivity]).
        destruct Hxin as [-> | Hxin]; [reflexivity |].
        destruct Hyin as [-> | Hyin]; [reflexivity |].
        rewrite Forall_forall in Hx, Hy.
        apply String.leb_antisym; [apply Hx; exact Hyin | apply Hy; exact Hxin]. }
      subst y. f_equal. apply IH; [exact Hl2 |].
      eapply Permutation_cons_inv. exact Hp.
Qed.

Lemma Strings_of_perm (l1 l2 : list string) :
  Permutation l1 l2 -> sort.Strings l1 = sort.Strings l2.
Proof.
  intro Hp. apply sorted_perm_unique; try apply Strings_sorted.
  rewrite !Strings_perm. exact Hp.
Qed.

Lemma parsePrivileges_words (ws : list string) :
  Forall (isWordOf regexp.upper) ws -> parsePrivileges (strings.Join ws ", ") = ws.
Proof.
  intro Hws. unfold parsePrivileges. rewrite FindAllString_Join.
  - rewrite <- (map_id ws) at 2. apply map_ext_in. intros w Hw.
    rewrite Forall_forall in Hws. apply normalize_word1. apply Hws. exact Hw.
  - eapply Forall_impl; [| exact Hws]. intros w Hw. apply NWord1. exact Hw.
Qed.

(** C8: a capability with a parenthesized column list parses to the
    capability, one space and the columns split on comma-space, sorted in
    ascending order of bytes and joined with comma-space again; so two
    clauses whose column names are the same up to their order parse to the
    same token, as [SELECT (user, id)] and [SELECT (id, user)] do.  The
    tokens themselves stay in the order of the clause: the result is the
    list of matches, each normalized, and a list of plain capabilities
    parses to itself. *)
Theorem column_lists_order_independent :
  parsePrivileges "SELECT (user, id)" = ["SELECT (id, user)"]
  /\ parsePrivileges "SELECT (id, user)" = ["SELECT (id, user)"]
  /\ (forall w sp cols,
         isWordOf regexp.upper w -> sp = "" \/ sp = " " -> isWordOf columnChar cols ->
         parsePrivileges (w ++ sp ++ "(" ++ cols ++ ")")
         = [w ++ " (" ++ strings.Join (sort.Strings (strings.Split cols ", ")) ", " ++ ")"])
  /\ (forall l, Sorted le (sort.Strings l) /\ Permutation (sort.Strings l) l)
  /\ (forall w cs1 cs2,
         isWordOf regexp.upper w -> cs1 <> [] -> Forall (isWordOf nameChar) cs1 ->
         Permutation cs1 cs2 ->
         parsePrivileges (w ++ " (" ++ strings.Join cs1 ", " ++ ")")
         = [w ++ " (" ++ strings.Join (sort.Strings cs1) ", " ++ ")"]
         /\ parsePrivileges (w ++ " (" ++ strings.Join cs2 ", " ++ ")")
            = [w ++ " (" ++ strings.Join (sort.Strings cs1) ", " ++ ")"])
  /\ (forall s, parsePrivileges s = map normalizePrivilege (regexp.FindAllString rem1 s))
  /\ (forall ws, Forall (isWordOf regexp.upper) ws ->
                 parsePrivileges (strings.Join ws ", ") = ws).
Proof.
  split; [reflexivity | split; [reflexivity | split; [| split; [| split; [| split]]]]].
  - intros w sp cols Hw Hsp Hcols. apply parsePrivileges_columns; assumption.
  - intro l. split; [apply Strings_sorted | apply Strings_perm].
  - assert (H : forall w cs, isWordOf regexp.upper w -> cs <> [] ->
                             Forall (isWordOf nameChar) cs ->
                             parsePrivileges (w ++ " (" ++ strings.Join cs ", " ++ ")")
                             = [w ++ " (" ++ strings.Join (sort.Strings cs) ", " ++ ")"]).
    { intros w cs Hw Hne Hcs. destruct (names_columns cs Hne Hcs) as [Hcols Hsplit].
      change (w ++ " (" ++ strings.Join cs ", " ++ ")")
        with (w ++ " " ++ "(" ++ strings.Join cs ", " ++ ")").
      rewrite (parsePrivileges_columns w " " _ Hw (or_intror eq_refl) Hcols).
      unfold sortedColumns. rewrite Hsplit. reflexivity. }
    intros w cs1 cs2 Hw Hne Hcs Hp. split; [apply H; assumption |].
    rewrite (Strings_of_perm cs1 cs2 Hp). apply H; [exact Hw | |].
    + intro E. subst cs2. apply Permutation_sym, Permutation_nil in Hp. contradiction.
    + eapply Permutation_Forall; [exact Hp | exact Hcs].
  - intro s. reflexivity.
  - apply parsePrivileges_words.
Qed.

Lemma column_lists_order_independent_witness :
  parsePrivileges ("SELECT" ++ " (" ++ strings.Join ["user"; "id"] ", " ++ ")")
  = ["SELECT" ++ " (" ++ strings.Join (sort.Strings ["user"; "id"]) ", " ++ ")"]
  /\ parsePrivileges ("SELECT" ++ " (" ++ strings.Join ["id"; "user"] ", " ++ ")")
     = ["SELECT" ++ " (" ++ strings.Join (sort.Strings ["user"; "id"]) ", " ++ ")"].
Proof.
  destruct column_lists_order_independent as (_ & _ & _ & _ & H & _).
  apply (H "SELECT" ["user"; "id"] ["id"; "user"]).
  - split; [discriminate | reflexivity].
  - discriminate.
  - repeat constructor; discriminate.
  - apply perm_swap.
Defined.

(** * Further properties of the provider *)

(** ** Formatted names *)

Lemma HasPrefix_split (s pre : string) :
  strings.HasPrefix s pre = true -> exists rest, s = pre ++ rest.
Proof.
  revert s. induction pre as [| a pre IH]; intros s H.
  - exists s. reflexivity.
  - destruct s as [| b s]; simpl in H; [discriminate |].
    apply andb_true_iff in H as [Hab H]. apply Ascii.eqb_eq in Hab. subst b.
    destruct (IH s H) as (rest & ->). exists rest. reflexivity.
Qed.

Lemma HasPrefix_app (pre rest : string) : strings.HasPrefix (pre ++ rest) pre = true.
Proof.
  induction pre as [| a pre IH]; [reflexivity |].
  simpl. rewrite Ascii.eqb_refl. exact IH.
Qed.

Lemma HasSuffix_app (a suffix : string) : strings.HasSuffix (a ++ suffix) suffix = true.
Proof.
  induction a as [| c a IH].
  - destruct suffix; cbn [append strings.HasSuffix]; rewrite String.eqb_refl; reflexivity.
  - cbn [append strings.HasSuffix]. rewrite IH. apply orb_true_r.
Qed.

Lemma string_length_app (a b : string) :
  String.length (a ++ b) = (String.length a + String.length b)%nat.
Proof. induction a as [| c a IH]; simpl; [reflexivity | rewrite IH; reflexivity]. Qed.

Lemma string_app_inv_head (a b c : string) : a ++ b = a ++ c -> b = c.
Proof.
  induction a as [| x a IH]; intro H; [exact H |]. injection H as H. apply IH. exact H.
Qed.

Lemma app_inv_last (a b : string) (c : ascii) :
  a ++ String c "" = b ++ String c "" -> a = b.
Proof.
  revert b. induction a as [| x a IH]; intros [| y b] H; simpl in H.
  - reflexivity.
  - injection H as _ H. destruct b; discriminate.
  - injection H as _ H. destruct a; discriminate.
  - injection H as -> H. f_equal. apply IH. exact H.
Qed.

Lemma app_last_split (pre a rest : string) (c : ascii) :
  a ++ String c "" = pre ++ rest -> rest <> "" ->
  exists r, rest = r ++ String c "" /\ a = pre ++ r.
Proof.
  revert a. induction pre as [| x pre IH]; intros a H Hrest.
  - exists a. split; [symmetry; exact H | reflexivity].
  - destruct a as [| y a]; simpl in H.
    + injection H as _ H. destruct pre; simpl in H; [| discriminate].
      destruct rest; [congruence | discriminate].
    + injection H as -> H. destruct (IH a H Hrest) as (r & -> & ->).
      exists r. split; reflexivity.
Qed.

Lemma without_HasSuffix (c : ascii) (s : string) :
  without c s = true -> strings.HasSuffix s (String c "") = false.
Proof.
  induction s as [| x s IH]; [reflexivity |].
  cbn -[Ascii.eqb String.eqb]. intro H. apply andb_true_iff in H as [Hx Hs].
  rewrite (IH Hs), orb_false_r.
  destruct s as [| y s].
  - cbn -[Ascii.eqb]. apply negb_true_iff in Hx. rewrite Ascii.eqb_sym, Hx. reflexivity.
  - cbn -[Ascii.eqb]. destruct (Ascii.eqb x c); reflexivity.
Qed.

(** The four ways of [formatDatabaseName]: the wildcard, a name that ends
    with the quote, a procedure, any other name. *)
Lemma formatDatabaseName_cases (database : string) :
  (database = "*" /\ formatDatabaseName database = "*")
  \/ (strings.HasSuffix database "`" = true /\ formatDatabaseName database = database)
  \/ (exists name,
         database = "PROCEDURE " ++ name
         /\ formatDatabaseName database = "PROCEDURE `" ++ name ++ "`")
  \/ (strings.HasPrefix database "PROCEDURE " = false
      /\ formatDatabaseName database = "`" ++ database ++ "`").
Proof.
  destruct (String.eqb_spec database "*") as [-> | Hstar]; [left; split; reflexivity |].
  destruct (strings.HasSuffix database "`") eqn:Hs.
  - right; left. split; [reflexivity | apply formatDatabaseName_quoted; exact Hs].
  - right; right.
    destruct (strings.HasPrefix database "PROCEDURE ") eqn:Hp.
    + left. destruct (HasPrefix_split _ _ Hp) as (name & ->).
      exists name. split; [reflexivity |]. apply formatDatabaseName_procedure. exact Hs.
    + right. split; [reflexivity |]. unfold formatDatabaseName. rewrite Hs.
      assert (Hc : (strings.Compare database "*" =? 0)%Z = false).
      { unfold strings.Compare. destruct (String.compare database "*") eqn:E; try reflexivity.
        apply String.compare_eq_iff in E. contradiction. }
      rewrite Hc. cbn [negb andb].
      assert (Hq : strings.HasPrefix ("`" ++ database ++ "`") ("`" ++ "PROCEDURE ") = false).
      { change (strings.HasPrefix ("`" ++ database ++ "`") ("`" ++ "PROCEDURE "))
          with (Ascii.eqb "`" "`" && strings.HasPrefix (database ++ "`") "PROCEDURE ").
        rewrite Ascii.eqb_refl. cbn [andb].
        destruct (strings.HasPrefix (database ++ "`") "PROCEDURE ") eqn:E; [| reflexivity].
        destruct (HasPrefix_split _ _ E) as (rest & Hrest).
        destruct rest as [| x rest].
        - pose proof (HasSuffix_app database "`") as H. rewrite Hrest in H. discriminate H.
        - destruct (app_last_split "PROCEDURE " database (String x rest) "`" Hrest)
            as (r & _ & ->); [discriminate |].
          rewrite HasPrefix_app in Hp. discriminate Hp. }
      rewrite Hq. reflexivity.
Qed.

Lemma formatDatabaseName_range (database : string) :
  formatDatabaseName database = "*"
  \/ strings.HasSuffix (formatDatabaseName database) "`" = true.
Proof.
  destruct (formatDatabaseName_cases database)
    as [[_ E] | [[Hs E] | [(name & _ & E) | [_ E]]]]; rewrite E.
  - left. reflexivity.
  - right. exact Hs.
  - right. apply (HasSuffix_app ("PROCEDURE `" ++ name) "`").
  - right. apply (HasSuffix_app ("`" ++ database) "`").
Qed.

(** X1: formatting a database name that is already formatted changes
    nothing, whatever the name: [formatDatabaseName] gives the wildcard or a
    text that ends with the quote, which it leaves as it is; it never gives
    the empty text. *)
Theorem formatDatabaseName_idempotent (database : string) :
  formatDatabaseName (formatDatabaseName database) = formatDatabaseName database
  /\ (formatDatabaseName database = "*"
      \/ strings.HasSuffix (formatDatabaseName database) "`" = true)
  /\ formatDatabaseName database <> "".
Proof.
  pose proof (formatDatabaseName_range database) as Hr.
  split; [| split; [exact Hr |]].
  - destruct Hr as [E | Hs].
    + rewrite E. reflexivity.
    + apply formatDatabaseName_quoted. exact Hs.
  - destruct Hr as [E | Hs]; [rewrite E; discriminate |].
    intro E. rewrite E in Hs. discriminate Hs.
Qed.

(** Names without a quote that have the same formatted form are the same
    name. *)
Lemma formatDatabaseName_inj (a b : string) :
  without "`" a = true -> without "`" b = true ->
  formatDatabaseName a = formatDatabaseName b -> a = b.
Proof.
  intros Ha Hb E.
  apply without_HasSuffix in Ha, Hb.
  destruct (formatDatabaseName_cases a)
    as [[-> Ea] | [[Hs _] | [(na & -> & Ea) | [Hpa Ea]]]];
    [| congruence | |];
    (destruct (formatDatabaseName_cases b)
      as [[-> Eb] | [[Hs' _] | [(nb & -> & Eb) | [Hpb Eb]]]];
     [| congruence | |]);
    rewrite ?Ea, ?Eb in E; try discriminate E.
  - reflexivity.
  - f_equal.
    change ("PROCEDURE `" ++ na ++ "`") with ("PROCEDURE `" ++ (na ++ "`")) in E.
    change ("PROCEDURE `" ++ nb ++ "`") with ("PROCEDURE `" ++ (nb ++ "`")) in E.
    injection E as E. apply (app_inv_last _ _ "`"). exact E.
  - injection E as E. apply (app_inv_last _ _ "`"). exact E.
Qed.

(** X2: two different database names without a quote character never get
    the same formatted form, so [formatDatabaseName] merges no two scopes
    declared unquoted. *)
Theorem formatDatabaseName_injective (a b : string) :
  without "`" a = true -> without "`" b = true -> a <> b ->
  formatDatabaseName a <> formatDatabaseName b.
Proof.
  intros Ha Hb Hab E. apply Hab. apply formatDatabaseName_inj; assumption.
Qed.

Lemma formatDatabaseName_injective_witness :
  formatDatabaseName "d1" <> formatDatabaseName "PROCEDURE d1".
Proof.
  apply formatDatabaseName_injective; [reflexivity | reflexivity | discriminate].
Defined.

Lemma quoted_longer (t : string) : "`" ++ t ++ "`" <> t.
Proof.
  intro E. apply (f_equal String.length) in E.
  simpl in E. rewrite string_length_app in E. simpl in E. lia.
Qed.

(** X3: two table names have the same formatted form exactly when they are
    the same name or both stand for the wildcard (the empty name and [*]).
    Unlike a database name, a table name that is already quoted is quoted
    again: formatting twice is formatting once only for the wildcard. *)
Theorem formatTableName_collisions :
  (forall a b,
      formatTableName a = formatTableName b
      <-> a = b \/ ((a = "" \/ a = "*") /\ (b = "" \/ b = "*")))
  /\ (forall table,
         formatTableName (formatTableName table) = formatTableName table
         <-> table = "" \/ table = "*")
  /\ (forall table, table <> "" -> table <> "*" ->
         formatTableName (formatTableName table) = "``" ++ table ++ "``").
Proof.
  assert (Hw : forall t, t = "" \/ t = "*" -> formatTableName t = "*").
  { intros t [-> | ->]; reflexivity. }
  assert (Hq : forall t, ~ (t = "" \/ t = "*") -> formatTableName t = "`" ++ t ++ "`").
  { intros t Ht. unfold formatTableName.
    destruct (String.eqb_spec t ""); [tauto |].
    destruct (String.eqb_spec t "*"); [tauto |]. reflexivity. }
  assert (Hdec : forall t, (t = "" \/ t = "*") \/ ~ (t = "" \/ t = "*")).
  { intro t. destruct (String.eqb_spec t ""); [tauto |].
    destruct (String.eqb_spec t "*"); tauto. }
  assert (Hne : forall t, "`" ++ t ++ "`" <> "" /\ "`" ++ t ++ "`" <> "*").
  { intro t. split; discriminate. }
  split; [| split].
  - intros a b. destruct (Hdec a) as [Ha | Ha], (Hdec b) as [Hb | Hb].
    + rewrite (Hw a Ha), (Hw b Hb). tauto.
    + rewrite (Hw a Ha), (Hq b Hb). split; [discriminate |].
      intros [-> | [_ H]]; tauto.
    + rewrite (Hq a Ha), (Hw b Hb). split; [discriminate |].
      intros [-> | [H _]]; tauto.
    + rewrite (Hq a Ha), (Hq b Hb). split.
      * intro E. left. injection E as E. apply (app_inv_last _ _ "`"). exact E.
      * intros [-> | [H _]]; tauto.
  - intro t. destruct (Hdec t) as [Ht | Ht].
    + rewrite (Hw t Ht). simpl. tauto.
    + rewrite (Hq t Ht). rewrite Hq by (destruct (Hne t); tauto).
      split; [| tauto]. intro E. exfalso. exact (quoted_longer _ E).
  - intros t H1 H2. rewrite (Hq t) by tauto.
    rewrite Hq by (destruct (Hne t); tauto).
    simpl. rewrite string_app_assoc. reflexivity.
Qed.

Lemma formatTableName_collisions_witness :
  formatTableName (formatTableName "t1") = "``" ++ "t1" ++ "``".
Proof.
  destruct formatTableName_collisions as (_ & _ & H). apply H; discriminate.
Defined.

(** ** Role support by version *)

(** X4: for a server version of three segments, with or without a
    prerelease tag, [supportsRoles] answers true exactly when the segments
    are above 8.0.0 in lexicographic order; how prerelease tags compare
    plays no part. *)
Theorem supportsRoles_three_segments
        (cmp : string -> string -> Z) (db : DB) (d : ResourceData) (h : list event)
        (major minor patch : Z) (pre : string) :
  serverVersion db h = Ok (version.mkVersion [major; minor; patch] pre) ->
  returned (supportsRoles cmp db d h)
  = Ok ((8 <? major)
        || ((major =? 8) && ((0 <? minor) || ((minor =? 0) && (0 <? patch)))))%Z.
Proof.
  intro Hv. unfold supportsRoles, returned. rewrite Hv. cbn [snd]. f_equal.
  unfold version.GreaterThan, version.Compare, requiredVersion.
  cbn [version.segments version.prerelease version.segments_eqb version.compareSegments].
  destruct (Z.eqb_spec major 8) as [-> | Hmajor].
  - cbn [andb orb]. change (8 <? 8)%Z with false. cbn [orb].
    destruct (Z.eqb_spec minor 0) as [-> | Hminor].
    + cbn [andb orb]. change (0 <? 0)%Z with false. cbn [orb].
      destruct (Z.eqb_spec patch 0) as [-> | Hpatch].
      * cbn [andb]. change (0 <? 0)%Z with false.
        destruct (pre =? "") eqn:Hpre; reflexivity.
      * cbn [andb]. destruct (Z.ltb_spec patch 0); destruct (Z.ltb_spec 0 patch);
          try reflexivity; lia.
    + cbn [andb orb]. rewrite orb_false_r.
      destruct (Z.ltb_spec minor 0); destruct (Z.ltb_spec 0 minor);
        try reflexivity; lia.
  - cbn [andb orb]. rewrite orb_false_r.
    destruct (Z.ltb_spec major 8); destruct (Z.ltb_spec 8 major);
      try reflexivity; lia.
Qed.

Lemma supportsRoles_three_segments_witness :
  returned (supportsRoles Examples.lexical
              (mkDB (fun _ => Ok (version.mkVersion [8; 0; 0]%Z "rc1"))
                    (fun _ _ => None) (fun _ _ => Ok []))
              (Examples.grantOf [] ["SELECT"] [] false) [])
  = Ok false.
Proof.
  apply (supportsRoles_three_segments
           Examples.lexical
           (mkDB (fun _ => Ok (version.mkVersion [8; 0; 0]%Z "rc1"))
                 (fun _ _ => None) (fun _ _ => Ok []))
           (Examples.grantOf [] ["SELECT"] [] false) [] 8 0 0 "rc1").
  reflexivity.
Defined.

(** ** The tokens of a privilege list *)

Lemma plusGreedy_total (p : ascii -> bool) (s : string)
      (k : string -> string -> option regexp.Match) :
  (forall m rest, k m rest <> None) -> headIs p s = true ->
  regexp.plusGreedy p s k <> None.
Proof.
  intros Hk Hs. destruct s as [| c s]; [discriminate |].
  simpl in *. rewrite Hs.
  destruct (regexp.plusGreedy p s (fun m rest => k (String c m) rest)); [discriminate |].
  apply Hk.
Qed.

(** The pattern of privileges matches wherever an upper-case letter
    stands. *)
Lemma matchAt_rem1_upper (s : string) :
  headIs regexp.upper s = true -> regexp.matchAt rem1 s <> None.
Proof.
  intro H. unfold regexp.matchAt, rem1. cbv zeta.
  rewrite run_Alt. destruct (regexp.run _ s [] _); [discriminate |].
  rewrite run_Alt. destruct (regexp.run _ s [] _); [discriminate |].
  rewrite run_Alt. destruct (regexp.run _ s [] _); [discriminate |].
  simpl. apply plusGreedy_total; [discriminate | exact H].
Qed.

Lemma findAll_nil (s : string) :
  regexp.findAll rem1 0 s = [] <-> allChars (fun c => negb (regexp.upper c)) s = true.
Proof.
  induction s as [| c s IH]; [split; reflexivity |].
  rewrite findAll_step. cbn [allChars].
  destruct (regexp.upper c) eqn:Hc.
  - pose proof (matchAt_rem1_upper (String c s) Hc) as Hm.
    destruct (regexp.matchAt rem1 (String c s)) as [[m caps] |]; [| congruence].
    cbn [negb andb]. split; discriminate.
  - rewrite matchAt_rem1_stop by exact Hc. cbn [negb andb]. exact IH.
Qed.

Lemma parsePrivileges_Normalized (privilegesString : string) :
  Forall Normalized (parsePrivileges privilegesString).
Proof.
  unfold parsePrivileges. apply Forall_forall. intros n Hn.
  apply in_map_iff in Hn. destruct Hn as (m & <- & Hm).
  pose proof (findAll_tokens rem1 privilegesString 0) as Htoks.
  rewrite Forall_forall in Htoks. apply normalize_match. apply Htoks. exact Hm.
Qed.

(** X5: whatever the text, every token [parsePrivileges] gives has one of
    four shapes: one, two or three upper-case words with one space
    between them, or an upper-case word, one space and a column list in
    parentheses; so every token starts with an upper-case letter and none is
    empty. *)
Theorem parsePrivileges_tokens (privilegesString : string) :
  Forall Normalized (parsePrivileges privilegesString)
  /\ (forall priv, In priv (parsePrivileges privilegesString) ->
        exists c rest, priv = String c rest /\ regexp.upper c = true).
Proof.
  pose proof (parsePrivileges_Normalized privilegesString) as H.
  split; [exact H |].
  intros priv Hin. rewrite Forall_forall in H. apply Normalized_head. apply H. exact Hin.
Qed.

Lemma parsePrivileges_tokens_witness :
  exists c rest, "ALL PRIVILEGES" = String c rest /\ regexp.upper c = true.
Proof.
  destruct (parsePrivileges_tokens "ALL PRIVILEGES, select") as (_ & H).
  apply H. left. reflexivity.
Defined.

(** X6: [parsePrivileges] gives no token exactly when the text has no
    upper-case letter: privileges written in lower case are dropped. *)
Theorem parsePrivileges_nil (privilegesString : string) :
  parsePrivileges privilegesString = []
  <-> allChars (fun c => negb (regexp.upper c)) privilegesString = true.
Proof.
  unfold parsePrivileges, regexp.FindAllString. rewrite <- findAll_nil.
  destruct (regexp.findAll rem1 0 privilegesString); simpl; split; congruence.
Qed.

Lemma parsePrivileges_nil_witness : parsePrivileges "select, update" = [].
Proof. apply parsePrivileges_nil. reflexivity. Defined.

(** ** Reading a grant line *)

Lemma run_Lit (c : ascii) (w rest : string) (caps : list string)
      (k : string -> string -> list string -> option regexp.Match) :
  regexp.run (regexp.Lit c w) (String c w ++ rest) caps k = k (String c w) rest caps.
Proof.
  revert c k. induction w as [| d w IH]; intros c k.
  - apply run_Chr_hit.
  - change (regexp.Lit c (String d w)) with (regexp.Seq (regexp.Chr c) (regexp.Lit d w)).
    change (String c (String d w) ++ rest) with (String c (String d w ++ rest)).
    rewrite run_Chr_then, IH. reflexivity.
Qed.

Lemma run_Lit_miss (c : ascii) (w s : string) (caps : list string)
      (k : string -> string -> list string -> option regexp.Match) :
  strings.HasPrefix s (String c w) = false -> regexp.run (regexp.Lit c w) s caps k = None.
Proof.
  revert c s k. induction w as [| d w IH]; intros c s k H.
  - destruct s as [| x s]; [reflexivity |].
    cbn -[Ascii.eqb] in *. rewrite andb_true_r in H. rewrite H. reflexivity.
  - change (regexp.Lit c (String d w)) with (regexp.Seq (regexp.Chr c) (regexp.Lit d w)).
    destruct s as [| x s]; [reflexivity |].
    cbn -[Ascii.eqb strings.HasPrefix regexp.Lit] in *.
    change (strings.HasPrefix (String x s) (String c (String d w)))
      with (Ascii.eqb c x && strings.HasPrefix s (String d w)) in H.
    destruct (Ascii.eqb c x); [| reflexivity].
    apply IH. exact H.
Qed.

Lemma plusGreedy_none (p : ascii -> bool) (s : string)
      (k : string -> string -> option regexp.Match) :
  (forall m r, m <> "" -> s = m ++ r -> k m r = None) ->
  regexp.plusGreedy p s k = None.
Proof.
  revert k. induction s as [| c s IH]; intros k Hk; [reflexivity |].
  simpl. destruct (p c); [| reflexivity].
  rewrite IH.
  - apply Hk; [discriminate | reflexivity].
  - intros m r Hm E. apply Hk; [discriminate | rewrite E; reflexivity].
Qed.

(** [p+] followed by a continuation that refuses every longer text takes
    the word. *)
Lemma plusGreedy_backtrack (p : ascii -> bool) (w rest : string)
      (k : string -> string -> option regexp.Match) (x : regexp.Match) :
  isWordOf p w -> k w rest = Some x ->
  (forall u r, u <> "" -> rest = u ++ r -> k (w ++ u) r = None) ->
  regexp.plusGreedy p (w ++ rest) k = Some x.
Proof.
  revert k. induction w as [| c w IH]; intros k [Hne Hall] Hk Hlong; [congruence |].
  simpl in Hall. apply andb_true_iff in Hall as [Hc Hall].
  change (String c w ++ rest) with (String c (w ++ rest)). simpl. rewrite Hc.
  destruct w as [| d w].
  - simpl. rewrite plusGreedy_none; [exact Hk |].
    intros m r Hm E. apply (Hlong m r Hm E).
  - rewrite (IH (fun m r => k (String c m) r)); [reflexivity | | exact Hk |].
    + split; [discriminate | exact Hall].
    + intros u r Hu E. apply (Hlong u r Hu E).
Qed.

(** [p+?] followed by a continuation that refuses every shorter text takes
    the word. *)
Lemma plusLazy_first (p : ascii -> bool) (w rest : string)
      (k : string -> string -> option regexp.Match) (x : regexp.Match) :
  isWordOf p w -> k w rest = Some x ->
  (forall m r, m <> "" -> r <> "" -> w = m ++ r -> k m (r ++ rest) = None) ->
  regexp.plusLazy p (w ++ rest) k = Some x.
Proof.
  revert k. induction w as [| c w IH]; intros k [Hne Hall] Hk Hshort; [congruence |].
  simpl in Hall. apply andb_true_iff in Hall as [Hc Hall].
  change (String c w ++ rest) with (String c (w ++ rest)). simpl. rewrite Hc.
  destruct w as [| d w].
  - simpl. rewrite Hk. reflexivity.
  - rewrite (Hshort (String c "") (String d w)); [| discriminate | discriminate | reflexivity].
    apply (IH (fun m r => k (String c m) r)); [split; [discriminate | exact Hall] | exact Hk |].
    intros m r Hm Hr E. apply (Hshort (String c m) r); [discriminate | exact Hr |].
    rewrite E. reflexivity.
Qed.

Lemma Contains_suffix (u r substr : string) :
  strings.Contains (u ++ r) substr = false -> strings.HasPrefix r substr = false.
Proof.
  induction u as [| c u IH]; intro H.
  - destruct r; simpl in *; apply orb_false_iff in H; tauto.
  - apply IH. change (String c u ++ r) with (String c (u ++ r)) in H.
    cbn [strings.Contains] in H. apply orb_false_iff in H. tauto.
Qed.

Lemma Contains_app_r (u r substr : string) :
  strings.Contains (u ++ r) substr = false -> strings.Contains r substr = false.
Proof.
  induction u as [| c u IH]; intro H; [exact H |].
  apply IH. change (String c u ++ r) with (String c (u ++ r)) in H.
  cbn [strings.Contains] in H. apply orb_false_iff in H. tauto.
Qed.

Lemma without_head (c : ascii) (m r rest : string) :
  without c (m ++ r) = true -> r <> "" -> headIs (Ascii.eqb c) (r ++ rest) = false.
Proof.
  intros H Hr. unfold without in H. rewrite allChars_app in H.
  apply andb_true_iff in H as [_ H]. destruct r as [| d r]; [congruence |].
  simpl in *. apply andb_true_iff in H as [H _]. apply negb_true_iff in H. exact H.
Qed.

Lemma headIs_HasPrefix (c : ascii) (w s : string) :
  headIs (Ascii.eqb c) s = false -> strings.HasPrefix s (String c w) = false.
Proof.
  intro H. destruct s as [| d s]; [reflexivity |].
  cbn -[Ascii.eqb] in *. rewrite H. reflexivity.
Qed.

(** A line [GRANT <privs> ON <database>.<table> TO<rest>] whose database
    has no dot, whose table has no blank and that has no other [ ON ] after
    the one shown. *)
Section GrantLine.

Variables privs database table rest : string.

Hypothesis Hprivs : isWordOf regexp.anyChar privs.
Hypothesis Hdatabase : isWordOf regexp.anyChar database.
Hypothesis Hdot : without "." database = true.
Hypothesis Htable : isWordOf regexp.anyChar table.
Hypothesis Hblank : without " " table = true.
Hypothesis Hon :
  strings.Contains ("ON " ++ database ++ "." ++ table ++ " TO" ++ rest) " ON " = false.

Lemma run_table (caps : list string)
      (k : string -> string -> list string -> option regexp.Match) (x : regexp.Match) :
  k (table ++ " TO") rest (caps ++ [table])%list = Some x ->
  regexp.run (regexp.Seq (regexp.Group (regexp.PlusLazy regexp.anyChar))
                         (regexp.Lit " " "TO"))
             (table ++ " TO" ++ rest) caps k = Some x.
Proof.
  intro Hk. cbn [regexp.run].
  apply plusLazy_first; [exact Htable | |].
  - rewrite (run_Lit " " "TO" rest). exact Hk.
  - intros m r Hm Hr E. apply run_Lit_miss. apply headIs_HasPrefix.
    apply (without_head " " m r). rewrite <- E. exact Hblank. exact Hr.
Qed.

Lemma run_database (caps : list string)
      (k : string -> string -> list string -> option regexp.Match) (x : regexp.Match) :
  k (database ++ "." ++ table ++ " TO") rest ((caps ++ [database]) ++ [table])%list
  = Some x ->
  regexp.run (regexp.Seq (regexp.Group (regexp.PlusLazy regexp.anyChar))
                (regexp.Seq (regexp.Chr ".")
                   (regexp.Seq (regexp.Group (regexp.PlusLazy regexp.anyChar))
                               (regexp.Lit " " "TO"))))
             (database ++ "." ++ table ++ " TO" ++ rest) caps k = Some x.
Proof.
  intro Hk.
  change (regexp.run (regexp.Seq (regexp.Group (regexp.PlusLazy regexp.anyChar))
                        (regexp.Seq (regexp.Chr ".")
                           (regexp.Seq (regexp.Group (regexp.PlusLazy regexp.anyChar))
                                       (regexp.Lit " " "TO"))))
                     (database ++ "." ++ table ++ " TO" ++ rest) caps k)
    with (regexp.plusLazy regexp.anyChar (database ++ "." ++ table ++ " TO" ++ rest)
            (fun m r =>
               regexp.run (regexp.Seq (regexp.Chr ".")
                             (regexp.Seq (regexp.Group (regexp.PlusLazy regexp.anyChar))
                                         (regexp.Lit " " "TO")))
                          r (caps ++ [m])%list
                          (fun m2 s2 caps2 => k (m ++ m2) s2 caps2))).
  apply plusLazy_first; [exact Hdatabase | |].
  - change ("." ++ table ++ " TO" ++ rest) with (String "." (table ++ " TO" ++ rest)).
    rewrite run_Chr_then. apply run_table. exact Hk.
  - intros m r Hm Hr E.
    change (regexp.run (regexp.Seq (regexp.Chr ".")
                          (regexp.Seq (regexp.Group (regexp.PlusLazy regexp.anyChar))
                                      (regexp.Lit " " "TO")))
                       (r ++ "." ++ table ++ " TO" ++ rest) (caps ++ [m])%list
                       (fun m2 s2 caps2 => k (m ++ m2) s2 caps2))
      with (regexp.run (regexp.Chr ".") (r ++ "." ++ table ++ " TO" ++ rest)
                       (caps ++ [m])%list
                       (fun m1 s1 caps1 =>
                          regexp.run (regexp.Seq (regexp.Group (regexp.PlusLazy regexp.anyChar))
                                                 (regexp.Lit " " "TO"))
                                     s1 caps1
                                     (fun m2 s2 caps2 => k (m ++ m1 ++ m2) s2 caps2))).
    apply run_Chr_miss. apply (without_head "." m r). rewrite <- E. exact Hdot. exact Hr.
Qed.

(** The pattern of [showGrants] takes the privileges up to the last
    [ ON ], the database up to the first dot and the table up to the first
    [ TO]. *)
Lemma matchAt_grant_line :
  regexp.FindStringSubmatch re
    ("GRANT " ++ privs ++ " ON " ++ database ++ "." ++ table ++ " TO" ++ rest)
  = ["GRANT " ++ privs ++ " ON " ++ database ++ "." ++ table ++ " TO";
     privs; database; table].
Proof.
  unfold regexp.FindStringSubmatch, re, regexp.findPattern, regexp.matchAt. cbv zeta.
  change (regexp.run
            (regexp.Seq (regexp.Lit "G" "RANT ")
               (regexp.Seq (regexp.Group (regexp.Plus regexp.anyChar))
                  (regexp.Seq (regexp.Lit " " "ON ")
                     (regexp.Seq (regexp.Group (regexp.PlusLazy regexp.anyChar))
                        (regexp.Seq (regexp.Chr ".")
                           (regexp.Seq (regexp.Group (regexp.PlusLazy regexp.anyChar))
                              (regexp.Lit " " "TO")))))))
            ("GRANT " ++ privs ++ " ON " ++ database ++ "." ++ table ++ " TO" ++ rest) []
            (fun m _ caps => Some (m, caps)))
    with (regexp.run (regexp.Lit "G" "RANT ")
            ("GRANT " ++ privs ++ " ON " ++ database ++ "." ++ table ++ " TO" ++ rest) []
            (fun m1 s1 caps1 =>
               regexp.plusGreedy regexp.anyChar s1
                 (fun m r =>
                    regexp.run (regexp.Lit " " "ON ") r (caps1 ++ [m])%list
                      (fun m3 s3 caps3 =>
                         regexp.run
                           (regexp.Seq (regexp.Group (regexp.PlusLazy regexp.anyChar))
                              (regexp.Seq (regexp.Chr ".")
                                 (regexp.Seq (regexp.Group (regexp.PlusLazy regexp.anyChar))
                                    (regexp.Lit " " "TO"))))
                           s3 caps3
                           (fun m4 s4 caps4 => Some (m1 ++ m ++ m3 ++ m4, caps4)))))).
  rewrite (run_Lit "G" "RANT ").
  rewrite (plusGreedy_backtrack regexp.anyChar privs
             (" ON " ++ database ++ "." ++ table ++ " TO" ++ rest) _
             ("GRANT " ++ privs ++ " ON " ++ database ++ "." ++ table ++ " TO",
              [privs; database; table]) Hprivs).
  - reflexivity.
  - rewrite (run_Lit " " "ON "). apply run_database.
    repeat first [rewrite string_app_assoc | progress simpl]. reflexivity.
  - intros u r Hu E. apply run_Lit_miss.
    destruct u as [| c u]; [congruence |].
    change (" ON " ++ database ++ "." ++ table ++ " TO" ++ rest)
      with (String " " ("ON " ++ database ++ "." ++ table ++ " TO" ++ rest)) in E.
    injection E as _ E. apply (Contains_suffix u). rewrite <- E. exact Hon.
Qed.

End GrantLine.

(** X7: a row [GRANT <privs> ON <database>.<table> TO<rest>], where the
    three parts are not empty and have no line feed, the database has no
    dot, the table has no blank and no [ ON ] follows the one shown, is read
    by [showGrants] as one grant: its database is the database part without
    quote characters, its table the table part without the quotes around
    it, its privileges the tokens of the privileges part, and its grant
    option says whether the row has the words GRANT OPTION. *)
Theorem showGrants_rows_grant_line
        (privs database table rest : string)
        (rows : list (result string)) (grants : list MySQLGrant.t) :
  isWordOf regexp.anyChar privs ->
  isWordOf regexp.anyChar database -> without "." database = true ->
  isWordOf regexp.anyChar table -> without " " table = true ->
  strings.Contains ("ON " ++ database ++ "." ++ table ++ " TO" ++ rest) " ON " = false ->
  let rawGrant :=
    "GRANT " ++ privs ++ " ON " ++ database ++ "." ++ table ++ " TO" ++ rest in
  let grant :=
    MySQLGrant.mk (strings.ReplaceAll database "`" "") (strings.Trim table "`")
                  (parsePrivileges privs) (reGrant rawGrant) in
  regexp.FindStringSubmatch re rawGrant
  = ["GRANT " ++ privs ++ " ON " ++ database ++ "." ++ table ++ " TO";
     privs; database; table]
  /\ showGrants_rows (Ok rawGrant :: rows) grants
     = showGrants_rows rows (grants ++ [grant])%list
  /\ showGrants_rows [Ok rawGrant] [] = Ok [grant].
Proof.
  intros Hprivs Hdatabase Hdot Htable Hblank Hon rawGrant grant.
  pose proof (matchAt_grant_line privs database table rest
                                 Hprivs Hdatabase Hdot Htable Hblank Hon) as Hm.
  fold rawGrant in Hm.
  assert (Hstep : forall rows grants,
             showGrants_rows (Ok rawGrant :: rows) grants
             = showGrants_rows rows (grants ++ [grant])%list).
  { intros rows0 grants0. cbn [showGrants_rows]. rewrite Hm. reflexivity. }
  split; [exact Hm | split; [apply Hstep |]].
  rewrite Hstep. reflexivity.
Qed.

Lemma showGrants_rows_grant_line_witness :
  showGrants_rows
    [Ok "GRANT SELECT, UPDATE ON `d1`.`t1` TO `jdoe`@`example.com` WITH GRANT OPTION"] []
  = Ok [MySQLGrant.mk "d1" "t1" ["SELECT"; "UPDATE"] true].
Proof.
  destruct (showGrants_rows_grant_line
              "SELECT, UPDATE" "`d1`" "`t1`" " `jdoe`@`example.com` WITH GRANT OPTION" [] [])
    as (_ & _ & H);
    [split; [discriminate | reflexivity] | split; [discriminate | reflexivity]
     | reflexivity | split; [discriminate | reflexivity] | reflexivity | reflexivity |].
  exact H.
Defined.

(** ** The grant option of a line *)

Lemma dropPrefix_app (word rest : string) :
  regexp.dropPrefix word (word ++ rest) = Some rest.
Proof.
  induction word as [| c word IH]; [reflexivity |].
  simpl. rewrite Ascii.eqb_refl. exact IH.
Qed.

Lemma dropPrefix_HasPrefix (word s rest : string) :
  regexp.dropPrefix word s = Some rest -> strings.HasPrefix s word = true.
Proof.
  revert s. induction word as [| c word IH]; intros s H; [reflexivity |].
  destruct s as [| x s]; [discriminate |].
  cbn -[Ascii.eqb] in *. destruct (Ascii.eqb c x); [| discriminate].
  apply IH. exact H.
Qed.

Lemma matchWord_found (word a b : string) (prevIsWord : bool) :
  regexp.startsWithWord b = false ->
  regexp.matchWord word prevIsWord (a ++ " " ++ word ++ b) = true.
Proof.
  intro Hb. revert prevIsWord. induction a as [| c a IH]; intro prevIsWord.
  - change ("" ++ " " ++ word ++ b) with (String " " (word ++ b)).
    cbn [regexp.matchWord].
    assert (E : regexp.matchWord word (regexp.isWord " ") (word ++ b) = true).
    { change (regexp.isWord " ") with false.
      destruct (word ++ b) eqn:Ew.
      - cbn [regexp.matchWord]. rewrite <- Ew, dropPrefix_app, Hb. reflexivity.
      - cbn [regexp.matchWord]. rewrite <- Ew, dropPrefix_app, Hb. reflexivity. }
    rewrite E. apply orb_true_r.
  - change (String c a ++ " " ++ word ++ b) with (String c (a ++ " " ++ word ++ b)).
    cbn [regexp.matchWord]. rewrite IH. apply orb_true_r.
Qed.

Lemma matchWord_Contains (word s : string) (prevIsWord : bool) :
  strings.Contains s word = false -> regexp.matchWord word prevIsWord s = false.
Proof.
  revert prevIsWord. induction s as [| c s IH]; intros prevIsWord H.
  - cbn [regexp.matchWord strings.Contains] in *. rewrite orb_false_r in *.
    destruct (regexp.dropPrefix word "") eqn:E.
    + apply dropPrefix_HasPrefix in E. congruence.
    + apply andb_false_r.
  - cbn [regexp.matchWord strings.Contains] in *. apply orb_false_iff in H as [Hp Hs].
    rewrite (IH _ Hs), orb_false_r.
    destruct (regexp.dropPrefix word (String c s)) eqn:E.
    + apply dropPrefix_HasPrefix in E. congruence.
    + apply andb_false_r.
Qed.

(** X8: the grant option read from a row is true when the row has
    [GRANT OPTION] after a blank and before the end of the row or a byte
    that is not a letter, a digit or an underscore, as in
    [... WITH GRANT OPTION]; it is false when the row does not have the
    text [GRANT OPTION] at all. *)
Theorem reGrant_grant_option :
  (forall a b, regexp.startsWithWord b = false ->
               reGrant (a ++ " GRANT OPTION" ++ b) = true)
  /\ (forall rawGrant, strings.Contains rawGrant "GRANT OPTION" = false ->
                       reGrant rawGrant = false).
Proof.
  split.
  - intros a b Hb. unfold reGrant.
    apply (matchWord_found "GRANT OPTION" a b false Hb).
  - intros rawGrant H. unfold reGrant. apply matchWord_Contains. exact H.
Qed.

Lemma reGrant_grant_option_witness :
  reGrant ("GRANT SELECT ON `d1`.* TO `jdoe`@`example.com` WITH" ++ " GRANT OPTION" ++ "") = true
  /\ reGrant "GRANT SELECT ON `d1`.* TO `jdoe`@`example.com`" = false.
Proof.
  destruct reGrant_grant_option as [H1 H2]. split.
  - apply H1. reflexivity.
  - apply H2. reflexivity.
Defined.

(** ** What every grant read from the server satisfies *)

Lemma replace_go_without (c : ascii) (n : nat) (s : string) :
  (String.length s <= n)%nat ->
  without c (strings.replace_go (String c "") "" n 0 s) = true.
Proof.
  revert n. induction s as [| x s IH]; intros n Hn; [reflexivity |].
  destruct n as [| n]; [simpl in Hn; lia |].
  cbn -[Ascii.eqb] in *. rewrite andb_true_r.
  destruct (Ascii.eqb c x) eqn:E.
  - cbn -[Ascii.eqb]. apply IH. lia.
  - cbn -[Ascii.eqb]. rewrite E. cbn [negb andb].
    apply (IH (S n)). lia.
Qed.

Lemma ReplaceAll_without (c : ascii) (s : string) :
  without c (strings.ReplaceAll s (String c "") "") = true.
Proof.
  unfold strings.ReplaceAll, strings.Replace. change (-1 <? 0)%Z with true. cbv iota.
  apply replace_go_without. apply Nat.le_refl.
Qed.

Lemma trim_left_head (p : ascii -> bool) (s : string) :
  headIs p (strings.trim_left p s) = false.
Proof.
  induction s as [| c s IH]; [reflexivity |].
  simpl. destruct (p c) eqn:E; [exact IH | simpl; exact E].
Qed.

Lemma trim_right_head (p : ascii -> bool) (s : string) :
  headIs p s = false -> headIs p (strings.trim_right p s) = false.
Proof.
  destruct s as [| c s]; [reflexivity |]. simpl. intro H.
  destruct (strings.trim_right p s); [rewrite H |]; simpl; exact H.
Qed.

Lemma trim_right_suffix (p : ascii -> bool) (c : ascii) (s : string) :
  p c = true -> strings.HasSuffix (strings.trim_right p s) (String c "") = false.
Proof.
  intro Hc. induction s as [| x s IH]; [reflexivity |].
  cbn [strings.trim_right]. destruct (strings.trim_right p s) as [| y r] eqn:E.
  - destruct (p x) eqn:Hx; [reflexivity |].
    cbn -[Ascii.eqb]. destruct (Ascii.eqb_spec x c) as [-> | ]; [congruence | reflexivity].
  - cbn -[Ascii.eqb] in *. rewrite IH.
    destruct (Ascii.eqb x c); reflexivity.
Qed.

Lemma Trim_backquote (s : string) :
  headIs (Ascii.eqb "`") (strings.Trim s "`") = false
  /\ strings.HasSuffix (strings.Trim s "`") "`" = false.
Proof.
  unfold strings.Trim.
  assert (E : forall c, strings.in_cutset "`" c = Ascii.eqb "`" c).
  { intro c. cbn -[Ascii.eqb]. rewrite orb_false_r. apply Ascii.eqb_sym. }
  split.
  - pose proof (trim_right_head (strings.in_cutset "`")
                  (strings.trim_left (strings.in_cutset "`") s)
                  (trim_left_head _ s)) as H.
    destruct (strings.trim_right _ _) as [| c r]; [reflexivity |].
    simpl in *. rewrite <- E. exact H.
  - apply trim_right_suffix. reflexivity.
Qed.

(** The loop of [showGrants]: one grant for each row, added after the
    grants already read. *)
Lemma showGrants_rows_invariant (rows : list (result string))
      (acc grants : list MySQLGrant.t) :
  showGrants_rows rows acc = Ok grants ->
  exists new,
    grants = (acc ++ new)%list
    /\ List.length new = List.length rows
    /\ Forall (fun grant =>
                 without "`" (MySQLGrant.Database grant) = true
                 /\ headIs (Ascii.eqb "`") (MySQLGrant.Table grant) = false
                 /\ strings.HasSuffix (MySQLGrant.Table grant) "`" = false
                 /\ Forall Normalized (MySQLGrant.Privileges grant)) new.
Proof.
  revert acc. induction rows as [| row rows IH]; intros acc H.
  - simpl in H. injection H as <-. exists []. rewrite app_nil_r. repeat split. constructor.
  - cbn [showGrants_rows] in H. destruct row as [rawGrant | err]; [| discriminate].
    destruct (negb (List.length (regexp.FindStringSubmatch re rawGrant) =? 4)%nat);
      [discriminate |].
    destruct (IH _ H) as (new & -> & Hlen & Hall).
    eexists (_ :: new). rewrite <- app_assoc. split; [reflexivity |].
    split; [simpl; rewrite Hlen; reflexivity |].
    constructor; [| exact Hall]. cbn [MySQLGrant.Database MySQLGrant.Table MySQLGrant.Privileges].
    split; [apply (ReplaceAll_without "`") |].
    split; [apply Trim_backquote |]. split; [apply Trim_backquote |].
    apply parsePrivileges_Normalized.
Qed.

Lemma showGrants_returned (db : DB) (user : string) (d : ResourceData) (h : list event) :
  returned (showGrants db user d h)
  = match query db h ("SHOW GRANTS FOR " ++ user) with
    | Err err => Err err
    | Ok rows => showGrants_rows rows []
    end.
Proof.
  unfold showGrants, bind, dbQuery, fail, lift, returned.
  destruct (query db h ("SHOW GRANTS FOR " ++ user)); reflexivity.
Qed.

Lemma showGrants_steps (db : DB) (user : string) (d : ResourceData) (h : list event) :
  showGrants db user d h
  = ([Query ("SHOW GRANTS FOR " ++ user)], d, returned (showGrants db user d h)).
Proof.
  pose proof (showGrants_data db user d h) as Hd.
  pose proof (showGrants_emitted db user d h) as He.
  destruct (showGrants db user d h) as [[t d1] r].
  unfold dataAfter, emitted, returned in *. cbn [fst snd] in *. subst. reflexivity.
Qed.

(** X9: when [showGrants] succeeds it gives one grant for each row the
    server returned; in every grant the database has no quote character,
    the table neither starts nor ends with one, and the privileges are
    tokens of the four shapes of [parsePrivileges]. *)
Theorem showGrants_grants (db : DB) (user : string) (d : ResourceData) (h : list event)
        (shown : list MySQLGrant.t) :
  returned (showGrants db user d h) = Ok shown ->
  (exists rows,
      query db h ("SHOW GRANTS FOR " ++ user) = Ok rows
      /\ List.length shown = List.length rows)
  /\ (forall grant, In grant shown ->
        without "`" (MySQLGrant.Database grant) = true
        /\ headIs (Ascii.eqb "`") (MySQLGrant.Table grant) = false
        /\ strings.HasSuffix (MySQLGrant.Table grant) "`" = false
        /\ Forall Normalized (MySQLGrant.Privileges grant)).
Proof.
  rewrite showGrants_returned.
  destruct (query db h ("SHOW GRANTS FOR " ++ user)) as [rows | err]; [| discriminate].
  intro H. destruct (showGrants_rows_invariant rows [] shown H) as (new & -> & Hlen & Hall).
  split.
  - exists rows. split; [reflexivity | exact Hlen].
  - rewrite Forall_forall in Hall. exact Hall.
Qed.

Lemma showGrants_grants_witness :
  (exists rows,
      query (Examples.showing Examples.mysql_5_7_30
               ["GRANT SELECT ON `d1`.`t1` TO 'jdoe'@'example.com'"]) []
            ("SHOW GRANTS FOR " ++ "'jdoe'@'example.com'") = Ok rows
      /\ List.length [MySQLGrant.mk "d1" "t1" ["SELECT"] false] = List.length rows)
  /\ (forall grant, In grant [MySQLGrant.mk "d1" "t1" ["SELECT"] false] ->
        without "`" (MySQLGrant.Database grant) = true
        /\ headIs (Ascii.eqb "`") (MySQLGrant.Table grant) = false
        /\ strings.HasSuffix (MySQLGrant.Table grant) "`" = false
        /\ Forall Normalized (MySQLGrant.Privileges grant)).
Proof.
  apply (showGrants_grants
           (Examples.showing Examples.mysql_5_7_30
              ["GRANT SELECT ON `d1`.`t1` TO 'jdoe'@'example.com'"])
           "'jdoe'@'example.com'" (Examples.grantOf [] ["SELECT"] [] false) []).
  reflexivity.
Defined.

(** ** Rows that are not grant lines *)

Lemma not_a_grant_line (rawGrant : string) :
  strings.HasPrefix rawGrant "GRANT " = false \/ strings.Contains rawGrant " ON " = false ->
  regexp.FindStringSubmatch re rawGrant = [].
Proof.
  intro H. unfold regexp.FindStringSubmatch, re, regexp.findPattern, regexp.matchAt.
  cbv zeta.
  match goal with
  | |- match ?m with _ => _ end = _ => assert (E : m = None); [| rewrite E; reflexivity]
  end.
  change (regexp.run (regexp.Lit "G" "RANT ") rawGrant []
            (fun m1 s1 caps1 =>
               regexp.plusGreedy regexp.anyChar s1
                 (fun m r =>
                    regexp.run (regexp.Lit " " "ON ") r (caps1 ++ [m])%list
                      (fun m3 s3 caps3 =>
                         regexp.run
                           (regexp.Seq (regexp.Group (regexp.PlusLazy regexp.anyChar))
                              (regexp.Seq (regexp.Chr ".")
                                 (regexp.Seq (regexp.Group (regexp.PlusLazy regexp.anyChar))
                                    (regexp.Lit " " "TO"))))
                           s3 caps3
                           (fun m4 s4 caps4 => Some (m1 ++ m ++ m3 ++ m4, caps4))))) = None).
  destruct (strings.HasPrefix rawGrant "GRANT ") eqn:Hp.
  - destruct H as [H | H]; [discriminate |].
    destruct (HasPrefix_split _ _ Hp) as (s & ->).
    rewrite (run_Lit "G" "RANT "). apply plusGreedy_none.
    intros m r _ ->. apply run_Lit_miss.
    apply (Contains_suffix m). apply (Contains_app_r "GRANT "). exact H.
  - apply run_Lit_miss. exact Hp.
Qed.

(** X10: [showGrants] gives all the grants or none: after rows that are
    grant lines, a row that cannot be read ends the loop with its error, and
    a row that is not a grant line ends it with
    [failed to parse grant statement: <row>]; the grants read before and the
    rows after are dropped.  A row that does not start with [GRANT ] or has
    no [ ON ], as the row of a granted role, is not a grant line. *)
Theorem showGrants_rows_first_failure
        (rows rows' : list (result string)) (grants : list MySQLGrant.t) :
  (forall row, In row rows -> exists rawGrant,
        row = Ok rawGrant
        /\ List.length (regexp.FindStringSubmatch re rawGrant) = 4%nat) ->
  (forall err, showGrants_rows (rows ++ Err err :: rows')%list grants = Err err)
  /\ (forall rawGrant,
         List.length (regexp.FindStringSubmatch re rawGrant) <> 4%nat ->
         showGrants_rows (rows ++ Ok rawGrant :: rows')%list grants
         = Err ("failed to parse grant statement: " ++ rawGrant))
  /\ (forall rawGrant,
         strings.HasPrefix rawGrant "GRANT " = false
         \/ strings.Contains rawGrant " ON " = false ->
         showGrants_rows (rows ++ Ok rawGrant :: rows')%list grants
         = Err ("failed to parse grant statement: " ++ rawGrant)).
Proof.
  intro Hrows. split; [| split].
  - intro err. apply showGrants_rows_scan_error. exact Hrows.
  - intros rawGrant Hbad. apply showGrants_rows_parse_error; assumption.
  - intros rawGrant Hbad. apply showGrants_rows_parse_error; [exact Hrows |].
    rewrite (not_a_grant_line rawGrant Hbad). discriminate.
Qed.

Lemma showGrants_rows_first_failure_witness :
  showGrants_rows
    [Ok "GRANT USAGE ON *.* TO `jdoe`@`example.com`";
     Ok "GRANT `app_role`@`%` TO `jdoe`@`example.com`";
     Ok "GRANT SELECT ON `d1`.* TO `jdoe`@`example.com`"] []
  = Err "failed to parse grant statement: GRANT `app_role`@`%` TO `jdoe`@`example.com`".
Proof.
  destruct (showGrants_rows_first_failure
              [Ok "GRANT USAGE ON *.* TO `jdoe`@`example.com`"]
              [Ok "GRANT SELECT ON `d1`.* TO `jdoe`@`example.com`"] [])
    as (_ & _ & H).
  - intros row [<- | []]. eexists. split; reflexivity.
  - apply (H "GRANT `app_role`@`%` TO `jdoe`@`example.com`"). right. reflexivity.
Defined.

(** ** Formatting a scope and reading it back *)

Lemma isWord_anyChar (c : ascii) : regexp.isWord c = true -> regexp.anyChar c = true.
Proof.
  intro H. unfold regexp.anyChar.
  destruct (Nat.eqb_spec (nat_of_ascii c) 10) as [E | ]; [| reflexivity].
  apply (f_equal ascii_of_nat) in E. rewrite ascii_nat_embedding in E. subst c.
  discriminate H.
Qed.

Lemma flattenList_plain (l : list string) : flattenList l "" "" = strings.Join l ", ".
Proof.
  unfold flattenList. f_equal. rewrite <- (map_id l) at 2.
  apply map_ext. intro v. cbn [append]. apply string_app_nil_r.
Qed.

Lemma replace_go_keep (c : ascii) (n : nat) (a b : string) :
  without c a = true ->
  strings.replace_go (String c "") "" n 0 (a ++ b)
  = a ++ strings.replace_go (String c "") "" n 0 b.
Proof.
  intro Ha. induction a as [| x a IH]; [reflexivity |].
  cbn -[Ascii.eqb] in Ha. apply andb_true_iff in Ha as [Hx Ha].
  apply negb_true_iff in Hx.
  change (String x a ++ b) with (String x (a ++ b)).
  destruct n as [| n].
  - rewrite strings_replace_go_done. destruct b; [| rewrite strings_replace_go_done];
      reflexivity.
  - cbn -[Ascii.eqb]. rewrite Hx. cbn [andb]. rewrite (IH Ha). reflexivity.
Qed.

Lemma ReplaceAll_quoted (s : string) :
  without "`" s = true -> strings.ReplaceAll ("`" ++ s ++ "`") "`" "" = s.
Proof.
  intro Hs. unfold strings.ReplaceAll, strings.Replace.
  change (-1 <? 0)%Z with true. cbv iota.
  change ("`" ++ s ++ "`") with (String "`" (s ++ "`")).
  cbn [String.length strings.replace_go strings.HasPrefix].
  rewrite Ascii.eqb_refl. cbn [andb append Nat.sub String.length].
  rewrite (replace_go_keep "`" _ s "`" Hs).
  rewrite string_length_app. cbn [String.length].
  replace (String.length s + 1)%nat with (S (String.length s)) by lia.
  cbn. apply string_app_nil_r.
Qed.

Lemma Trim_quoted (s : string) :
  isWordOf regexp.isWord s -> strings.Trim ("`" ++ s ++ "`") "`" = s.
Proof.
  intros Hs. unfold strings.Trim.
  destruct (word_head _ _ Hs) as (c & s' & E & Hc).
  destruct (word_last _ _ Hs) as (s'' & e & E' & He).
  assert (Hcut : forall x, regexp.isWord x = true -> strings.in_cutset "`" x = false).
  { intros x Hx. cbn -[Ascii.eqb]. rewrite orb_false_r.
    destruct (Ascii.eqb_spec x "`") as [-> | ]; [discriminate Hx | reflexivity]. }
  change ("`" ++ s ++ "`") with (String "`" (s ++ "`")).
  cbn [strings.trim_left]. change (strings.in_cutset "`" "`") with true. cbv iota.
  rewrite E at 1. change (String c s' ++ "`") with (String c (s' ++ "`")).
  cbn [strings.trim_left]. rewrite (Hcut c Hc).
  change (String c (s' ++ "`")) with (String c s' ++ "`"). rewrite <- E.
  rewrite trim_right_app by reflexivity.
  rewrite E'. apply trim_right_last. apply Hcut. exact He.
Qed.

(** A text without a blank has no part of a text that starts with one. *)
Lemma Contains_skip (a b substr : string) :
  without " " a = true ->
  strings.Contains (a ++ b) (String " " substr) = strings.Contains b (String " " substr).
Proof.
  intro Ha. induction a as [| x a IH]; [reflexivity |].
  cbn -[Ascii.eqb] in Ha. apply andb_true_iff in Ha as [Hx Ha].
  apply negb_true_iff in Hx.
  change (String x a ++ b) with (String x (a ++ b)).
  cbn -[Ascii.eqb]. rewrite Hx. cbn [andb orb]. apply IH. exact Ha.
Qed.

Lemma formatDatabaseName_word (database : string) :
  isWordOf regexp.isWord database -> formatDatabaseName database = "`" ++ database ++ "`".
Proof.
  intros [Hne Hall].
  destruct (formatDatabaseName_cases database)
    as [[-> _] | [[Hs _] | [(name & -> & _) | [_ E]]]].
  - discriminate Hall.
  - rewrite (without_HasSuffix "`" database) in Hs; [discriminate |].
    apply (word_without regexp.isWord); [reflexivity | exact Hall].
  - rewrite allChars_app in Hall. discriminate Hall.
  - exact E.
Qed.

Lemma formatTableName_word (table : string) :
  isWordOf regexp.isWord table -> formatTableName table = "`" ++ table ++ "`".
Proof.
  intros [Hne Hall]. unfold formatTableName.
  destruct (String.eqb_spec table "") as [-> | _]; [congruence |].
  destruct (String.eqb_spec table "*") as [-> | _]; [discriminate Hall | reflexivity].
Qed.

(** The formatted form of the wildcard and of a name of letters, digits
    and underscores: what the pattern of [showGrants] needs, and the name
    itself once the quotes are taken away. *)
Lemma formatted_scope (name quoted : string) :
  (name = "*" /\ quoted = "*")
  \/ (isWordOf regexp.isWord name /\ quoted = "`" ++ name ++ "`") ->
  isWordOf regexp.anyChar quoted
  /\ without "." quoted = true
  /\ without " " quoted = true
  /\ headIs (Ascii.eqb "O") quoted = false
  /\ strings.ReplaceAll quoted "`" "" = name
  /\ strings.Trim quoted "`" = name.
Proof.
  intros [[-> ->] | [Hw ->]].
  - repeat split; discriminate.
  - destruct Hw as [Hne Hall].
    assert (Hany : allChars regexp.anyChar ("`" ++ name ++ "`") = true).
    { change ("`" ++ name ++ "`") with (String "`" (name ++ "`")).
      cbn [allChars]. rewrite allChars_app.
      rewrite (allChars_weaken _ _ _ isWord_anyChar Hall). reflexivity. }
    assert (Hno : forall c, regexp.isWord c = false -> Ascii.eqb c "`" = false ->
                            without c ("`" ++ name ++ "`") = true).
    { intros c Hc Hq. unfold without.
      change ("`" ++ name ++ "`") with (String "`" (name ++ "`")).
      cbn [allChars]. rewrite allChars_app. rewrite Hq.
      fold (without c name). rewrite (word_without regexp.isWord c name Hc Hall).
      cbn [allChars negb andb]. rewrite Hq. reflexivity. }
    split; [split; [discriminate | exact Hany] |].
    split; [apply Hno; reflexivity |]. split; [apply Hno; reflexivity |].
    split; [reflexivity |].
    split; [apply ReplaceAll_quoted; apply (word_without regexp.isWord);
            [reflexivity | exact Hall] |].
    apply Trim_quoted. split; assumption.
Qed.

Lemma showGrants_rows_formatted
      (privs : list string) (database table rest : string)
      (rows : list (result string)) (grants : list MySQLGrant.t) :
  privs <> [] -> Forall (isWordOf regexp.upper) privs ->
  database = "*" \/ isWordOf regexp.isWord database ->
  table = "*" \/ isWordOf regexp.isWord table ->
  strings.Contains (" TO" ++ rest) " ON " = false ->
  let rawGrant :=
    "GRANT " ++ flattenList privs "" "" ++ " ON " ++ formatDatabaseName database
    ++ "." ++ formatTableName table ++ " TO" ++ rest in
  showGrants_rows (Ok rawGrant :: rows) grants
  = showGrants_rows rows
      (grants ++ [MySQLGrant.mk database table privs (reGrant rawGrant)])%list.
Proof.
  intros Hne Hprivs Hdatabase Htable Hrest rawGrant.
  assert (Hd : (database = "*" /\ formatDatabaseName database = "*")
               \/ (isWordOf regexp.isWord database
                   /\ formatDatabaseName database = "`" ++ database ++ "`")).
  { destruct Hdatabase as [-> | Hw]; [left; split; reflexivity | right].
    split; [exact Hw | apply formatDatabaseName_word; exact Hw]. }
  assert (Ht : (table = "*" /\ formatTableName table = "*")
               \/ (isWordOf regexp.isWord table
                   /\ formatTableName table = "`" ++ table ++ "`")).
  { destruct Htable as [-> | Hw]; [left; split; reflexivity | right].
    split; [exact Hw | apply formatTableName_word; exact Hw]. }
  apply formatted_scope in Hd, Ht.
  destruct Hd as (Hd1 & Hd2 & Hd3 & Hd4 & Hd5 & _).
  destruct Ht as (Ht1 & Ht2 & Ht3 & _ & _ & Ht6).
  assert (Hp : isWordOf regexp.anyChar (flattenList privs "" "")).
  { rewrite flattenList_plain. split.
    - destruct Hprivs as [| w ws [Hw _] _]; [congruence |].
      unfold strings.Join. destruct ws; simpl; destruct w; congruence || discriminate.
    - apply Join_allChars; [reflexivity | reflexivity |].
      eapply Forall_impl; [| exact Hprivs]. intros w [_ Hw].
      apply (allChars_weaken regexp.upper); [| exact Hw].
      intros c Hc. apply isWord_anyChar. unfold regexp.isWord. rewrite Hc. reflexivity. }
  assert (Hon : strings.Contains
                  ("ON " ++ formatDatabaseName database ++ "." ++ formatTableName table
                   ++ " TO" ++ rest) " ON " = false).
  { change ("ON " ++ formatDatabaseName database ++ "." ++ formatTableName table
            ++ " TO" ++ rest)
      with ("ON" ++ String " " (formatDatabaseName database ++ "." ++ formatTableName table
                                ++ " TO" ++ rest)).
    rewrite Contains_skip by reflexivity.
    cbn [strings.Contains]. apply orb_false_iff. split.
    - change (strings.HasPrefix
                (String " " (formatDatabaseName database ++ "." ++ formatTableName table
                             ++ " TO" ++ rest)) " ON ")
        with (Ascii.eqb " " " "
              && strings.HasPrefix (formatDatabaseName database ++ "." ++ formatTableName table
                                    ++ " TO" ++ rest) "ON ").
      rewrite (headIs_HasPrefix "O" "N "); [reflexivity |].
      destruct Hd1 as [Hd1 _]. destruct (formatDatabaseName database); [congruence |].
      exact Hd4.
    - rewrite Contains_skip by exact Hd3.
      change ("." ++ formatTableName table ++ " TO" ++ rest)
        with ("." ++ (formatTableName table ++ " TO" ++ rest)).
      rewrite Contains_skip by reflexivity.
      rewrite Contains_skip by exact Ht3. exact Hrest. }
  pose proof (matchAt_grant_line (flattenList privs "" "") (formatDatabaseName database)
                                 (formatTableName table) rest
                                 Hp Hd1 Hd2 Ht1 Ht3 Hon) as Hm.
  fold rawGrant in Hm. cbn [showGrants_rows]. rewrite Hm.
  cbn [List.length Nat.eqb negb nth]. rewrite Hd5, Ht6.
  rewrite flattenList_plain, parsePrivileges_words by exact Hprivs. reflexivity.
Qed.

(** X11: formatting and reading are inverse on the scopes and privileges
    the provider writes.  A row that names upper-case privileges, rendered
    as the creation statement renders them, on the formatted form of a
    database and of a table, each the wildcard or a name of letters, digits
    and underscores, is read by [showGrants] as the grant of those
    privileges, in their order, on that database and that table, unquoted;
    whatever follows [ TO] is free but for another [ ON ]. *)
Theorem grant_line_round_trip
        (privs : list string) (database table rest : string)
        (rows : list (result string)) (grants : list MySQLGrant.t) :
  privs <> [] -> Forall (isWordOf regexp.upper) privs ->
  database = "*" \/ isWordOf regexp.isWord database ->
  table = "*" \/ isWordOf regexp.isWord table ->
  strings.Contains (" TO" ++ rest) " ON " = false ->
  let rawGrant :=
    "GRANT " ++ flattenList privs "" "" ++ " ON " ++ formatDatabaseName database
    ++ "." ++ formatTableName table ++ " TO" ++ rest in
  showGrants_rows (Ok rawGrant :: rows) grants
  = showGrants_rows rows
      (grants ++ [MySQLGrant.mk database table privs (reGrant rawGrant)])%list.
Proof. apply showGrants_rows_formatted. Qed.

Lemma grant_line_round_trip_witness :
  showGrants_rows
    [Ok ("GRANT " ++ flattenList ["SELECT"; "UPDATE"] "" "" ++ " ON "
         ++ formatDatabaseName "d1" ++ "." ++ formatTableName "t1"
         ++ " TO" ++ " 'jdoe'@'example.com' REQUIRE NONE WITH GRANT OPTION")] []
  = Ok [MySQLGrant.mk "d1" "t1" ["SELECT"; "UPDATE"] true].
Proof.
  rewrite (grant_line_round_trip
             ["SELECT"; "UPDATE"] "d1" "t1"
             " 'jdoe'@'example.com' REQUIRE NONE WITH GRANT OPTION" [] []).
  - reflexivity.
  - discriminate.
  - repeat constructor; discriminate.
  - right. split; [discriminate | reflexivity].
  - right. split; [discriminate | reflexivity].
  - reflexivity.
Defined.

(** ** Calls that read *)

Ltac enter_call Hdb Hroles db hasRoles d :=
  rewrite (bind_pure _ _ _ _ db) by (unfold lift; rewrite Hdb; reflexivity);
  rewrite (bind_pure _ _ _ _ hasRoles)
    by (rewrite supportsRoles_pure, Hroles; reflexivity);
  rewrite (bind_pure _ _ _ _ d) by reflexivity.



Lemma without_neq (c : ascii) (a b : string) :
  without c a = true -> without c b = false -> (a =? b) = false.
Proof.
  intros Ha Hb. destruct (String.eqb_spec a b) as [-> | ]; [congruence | reflexivity].
Qed.

Lemma find_none {A : Type} (f : A -> bool) (l : list A) :
  (forall x, In x l -> f x = false) -> List.find f l = None.
Proof.
  induction l as [| x l IH]; intro H; [reflexivity |].
  simpl. rewrite (H x (or_introl eq_refl)). apply IH. intros y Hy. apply H. right. exact Hy.
Qed.

(** X13: [ReadGrant] compares the database and the table of the resource,
    as declared, with the unquoted names of the grants shown.  So for a
    resource whose database has a quote character, or whose table starts or
    ends with one, no grant of the server is ever its grant: whatever the
    server shows, [ReadGrant] stores no privilege and no grant option. *)
Theorem ReadGrant_quoted_scope
        (cmp : string -> string -> Z) (meta : MySQLConfiguration) (db : DB)
        (d : ResourceData) (h : list event) (hasRoles isRole : bool)
        (principal : string) (shown : list MySQLGrant.t) :
  GetDbConn meta = Ok db ->
  returned (supportsRoles cmp db d h) = Ok hasRoles ->
  userOrRole (user d) (host d) (role d) hasRoles = Ok (principal, isRole) ->
  returned (showGrants db principal d h) = Ok shown ->
  without "`" (database d) = false
  \/ headIs (Ascii.eqb "`") (table d) = true
  \/ strings.HasSuffix (table d) "`" = true ->
  ReadGrant cmp meta d h
  = ([Query ("SHOW GRANTS FOR " ++ principal)],
     Set_grant false (Set_privileges [] d), Ok tt).
Proof.
  intros Hdb Hroles Hprincipal Hshown Hquoted.
  assert (Hinv : forall grant, In grant shown ->
                   without "`" (MySQLGrant.Database grant) = true
                   /\ headIs (Ascii.eqb "`") (MySQLGrant.Table grant) = false
                   /\ strings.HasSuffix (MySQLGrant.Table grant) "`" = false).
  { pose proof Hshown as H. rewrite showGrants_returned in H.
    destruct (query db h ("SHOW GRANTS FOR " ++ principal)) as [rows | e]; [| discriminate].
    destruct (showGrants_rows_invariant rows [] shown H) as (new & -> & _ & Hall).
    rewrite Forall_forall in Hall. intros g Hg.
    destruct (Hall g Hg) as (H1 & H2 & H3 & _). auto. }
  unfold ReadGrant. enter_call Hdb Hroles db hasRoles d.
  rewrite (bind_pure _ _ _ _ (principal, isRole))
    by (unfold lift; rewrite Hprincipal; reflexivity).
  rewrite showGrants_steps, Hshown.
  rewrite find_none; [reflexivity |].
  intros grant Hin. destruct (Hinv grant Hin) as (H1 & H2 & H3).
  destruct Hquoted as [Hq | [Hq | Hq]].
  - rewrite (without_neq "`" _ _ H1 Hq). reflexivity.
  - destruct (String.eqb_spec (MySQLGrant.Table grant) (table d)) as [E | ];
      [| apply andb_false_r]. rewrite E in H2. congruence.
  - destruct (String.eqb_spec (MySQLGrant.Table grant) (table d)) as [E | ];
      [| apply andb_false_r]. rewrite E in H3. congruence.
Qed.

Lemma ReadGrant_quoted_scope_witness :
  ReadGrant Examples.lexical
            (Examples.connected
               (Examples.showing Examples.mysql_5_7_30
                  ["GRANT SELECT ON `d1`.* TO 'jdoe'@'example.com'"]))
            (Set_database "`d1`" (Examples.grantOf [] ["SELECT"] [] false)) []
  = ([Query "SHOW GRANTS FOR 'jdoe'@'example.com'"],
     Set_grant false
       (Set_privileges [] (Set_database "`d1`" (Examples.grantOf [] ["SELECT"] [] false))),
     Ok tt).
Proof.
  apply (ReadGrant_quoted_scope
           Examples.lexical
           (Examples.connected
              (Examples.showing Examples.mysql_5_7_30
                 ["GRANT SELECT ON `d1`.* TO 'jdoe'@'example.com'"]))
           (Examples.showing Examples.mysql_5_7_30
              ["GRANT SELECT ON `d1`.* TO 'jdoe'@'example.com'"])
           (Set_database "`d1`" (Examples.grantOf [] ["SELECT"] [] false)) []
           false false "'jdoe'@'example.com'"
           [MySQLGrant.mk "d1" "*" ["SELECT"] false]); try reflexivity.
  left. reflexivity.
Defined.

(** What a call that reads sends: nothing, or the one query for the
    grants of a principal. *)
Ltac read_sends :=
  match goal with
  | |- context [lift (GetDbConn ?meta)] =>
      let db := fresh "db" in
      let Hdb := fresh "Hdb" in
      destruct (GetDbConn meta) as [db | ?] eqn:Hdb; [| left; reflexivity];
      rewrite (bind_pure _ _ _ _ db) by reflexivity
  end.

Lemma ReadGrant_sends (cmp : string -> string -> Z) (meta : MySQLConfiguration)
      (d : ResourceData) (h : list event) :
  emitted (ReadGrant cmp meta d h) = []
  \/ exists principal,
       emitted (ReadGrant cmp meta d h) = [Query ("SHOW GRANTS FOR " ++ principal)].
Proof.
  unfold ReadGrant. read_sends.
  destruct (returned (supportsRoles cmp db d h)) as [hasRoles | e] eqn:Hroles.
  2: { left. erewrite bind_error; [reflexivity |].
       rewrite supportsRoles_pure, Hroles. reflexivity. }
  rewrite (bind_pure _ _ _ _ hasRoles)
    by (rewrite supportsRoles_pure, Hroles; reflexivity).
  rewrite (bind_pure _ _ _ _ d) by reflexivity.
  destruct (userOrRole (user d) (host d) (role d) hasRoles) as [[principal isRole] | e]
    eqn:Hprincipal; [| left; reflexivity].
  rewrite (bind_pure _ _ _ _ (principal, isRole)) by reflexivity.
  right. exists principal. rewrite showGrants_steps.
  destruct (returned (showGrants db principal d h)); reflexivity.
Qed.

Lemma ReadGrants_sends (cmp : string -> string -> Z) (meta : MySQLConfiguration)
      (d : ResourceData) (h : list event) :
  emitted (ReadGrants cmp meta d h) = []
  \/ exists principal,
       emitted (ReadGrants cmp meta d h) = [Query ("SHOW GRANTS FOR " ++ principal)].
Proof.
  unfold ReadGrants. read_sends.
  destruct (returned (supportsRoles cmp db d h)) as [hasRoles | e] eqn:Hroles.
  2: { left. erewrite bind_error; [reflexivity |].
       rewrite supportsRoles_pure, Hroles. reflexivity. }
  rewrite (bind_pure _ _ _ _ hasRoles)
    by (rewrite supportsRoles_pure, Hroles; reflexivity).
  rewrite (bind_pure _ _ _ _ d) by reflexivity.
  destruct (userOrRole (user d) (host d) (role d) hasRoles) as [[principal isRole] | e]
    eqn:Hprincipal; [| left; reflexivity].
  rewrite (bind_pure _ _ _ _ (principal, isRole)) by reflexivity.
  right. exists principal. rewrite showGrants_steps.
  destruct (returned (showGrants db principal d h)); reflexivity.
Qed.

Lemma ImportGrant_sends (meta : MySQLConfiguration) (d : ResourceData) (h : list event) :
  (emitted (ImportGrant meta d h) = []
   \/ exists principal,
        emitted (ImportGrant meta d h) = [Query ("SHOW GRANTS FOR " ++ principal)])
  /\ dataAfter (ImportGrant meta d h) = d.
Proof.
  unfold ImportGrant. rewrite (bind_pure _ _ _ _ d) by reflexivity. cbv zeta.
  destruct (strings.LastIndex (Id d) "@" <=? 0)%Z; [split; [left |]; reflexivity |].
  destruct (GetDbConn meta) as [db | e] eqn:Hdb; [| split; [left |]; reflexivity].
  rewrite (bind_pure _ _ _ _ db) by reflexivity.
  unfold bind. rewrite showGrants_steps.
  destruct (returned (showGrants db _ d h)); split; try reflexivity;
    right; eexists; reflexivity.
Qed.

Lemma ImportGrants_sends (meta : MySQLConfiguration) (d : ResourceData) (h : list event) :
  (emitted (ImportGrants meta d h) = []
   \/ exists principal,
        emitted (ImportGrants meta d h) = [Query ("SHOW GRANTS FOR " ++ principal)])
  /\ dataAfter (ImportGrants meta d h) = d.
Proof.
  unfold ImportGrants. rewrite (bind_pure _ _ _ _ d) by reflexivity. cbv zeta.
  destruct (strings.LastIndex (Id d) "@" <=? 0)%Z; [split; [left |]; reflexivity |].
  destruct (GetDbConn meta) as [db | e] eqn:Hdb; [| split; [left |]; reflexivity].
  rewrite (bind_pure _ _ _ _ db) by reflexivity.
  unfold bind. rewrite showGrants_steps.
  destruct (returned (showGrants db _ d h)); split; try reflexivity;
    right; eexists; reflexivity.
Qed.

(** X14: the calls that read change nothing on the server.  [ReadGrant],
    [ReadGrants], [ImportGrant] and [ImportGrants] send no statement with
    [db.Exec]; each sends nothing at all or the one query
    [SHOW GRANTS FOR <principal>].  The importers leave the resource data
    they are given as it is. *)
Theorem reads_send_one_query
        (cmp : string -> string -> Z) (meta : MySQLConfiguration)
        (d : ResourceData) (h : list event) :
  (emitted (ReadGrant cmp meta d h) = []
   \/ exists principal,
        emitted (ReadGrant cmp meta d h) = [Query ("SHOW GRANTS FOR " ++ principal)])
  /\ (emitted (ReadGrants cmp meta d h) = []
      \/ exists principal,
           emitted (ReadGrants cmp meta d h) = [Query ("SHOW GRANTS FOR " ++ principal)])
  /\ (emitted (ImportGrant meta d h) = []
      \/ exists principal,
           emitted (ImportGrant meta d h) = [Query ("SHOW GRANTS FOR " ++ principal)])
  /\ (emitted (ImportGrants meta d h) = []
      \/ exists principal,
           emitted (ImportGrants meta d h) = [Query ("SHOW GRANTS FOR " ++ principal)])
  /\ dataAfter (ImportGrant meta d h) = d
  /\ dataAfter (ImportGrants meta d h) = d.
Proof.
  split; [apply ReadGrant_sends |]. split; [apply ReadGrants_sends |].
  split; [apply ImportGrant_sends |]. split; [apply ImportGrants_sends |].
  split; [apply ImportGrant_sends | apply ImportGrants_sends].
Qed.

(** ** What [CreateGrant] returns *)

(** [CreateGrant] from its statement on. *)
Lemma CreateGrant_steps (cmp : string -> string -> Z) (meta : MySQLConfiguration)
      (db : DB) (d : ResourceData) (h : list event) (hasRoles isRole : bool)
      (principal : string) :
  GetDbConn meta = Ok db ->
  returned (supportsRoles cmp db d h) = Ok hasRoles ->
  userOrRole (user d) (host d) (role d) hasRoles = Ok (principal, isRole) ->
  Spec.creates (privileges d) (roles d) hasRoles = true ->
  let stmtSQL :=
    Spec.createStatement (privileges d) (roles d) (database d) (table d)
                         principal (tls_option d) isRole (grant d) hasRoles in
  let id :=
    if isRole then role d ++ ":" ++ formatDatabaseName (database d)
    else user d ++ "@" ++ host d ++ ":" ++ formatDatabaseName (database d) in
  CreateGrant cmp meta d h
  = bind (dbExec db stmtSQL)
         (fun err =>
            match err with
            | Some err0 => fail ("Error running SQL (" ++ stmtSQL ++ "): " ++ err0)
            | None => bind (modify (SetId id)) (fun _ => ReadGrant cmp meta)
            end) d h.
Proof.
  intros Hdb Hroles Hprincipal Hcreates stmtSQL id. unfold CreateGrant.
  rewrite (bind_pure _ _ _ _ db) by (unfold lift; rewrite Hdb; reflexivity).
  rewrite (bind_pure _ _ _ _ hasRoles)
    by (rewrite supportsRoles_pure, Hroles; reflexivity).
  rewrite (bind_pure _ _ _ _ d) by reflexivity.
  unfold Spec.creates in Hcreates. subst stmtSQL id.
  destruct (privileges d) as [| p ps] eqn:Hp.
  - destruct (roles d) as [| r rs] eqn:Hr; [discriminate |].
    destruct hasRoles; [| discriminate].
    rewrite (bind_pure _ _ _ _ (flattenList (r :: rs) "'" "'", false, List.length (r :: rs)))
      by reflexivity.
    rewrite (bind_pure _ _ _ _ (principal, isRole))
      by (unfold lift; rewrite Hprincipal; reflexivity).
    cbv zeta.
    match goal with
    | |- context [dbExec db ?s] =>
        assert (E : s = Spec.createStatement [] (r :: rs) (database d) (table d)
                          principal (tls_option d) isRole (grant d) true)
    end.
    { unfold Spec.createStatement, Spec.roleBased, Spec.privilegeBased.
      destruct isRole, (grant d), (tls_option d =? "");
        norm_strings; reflexivity. }
    rewrite E. reflexivity.
  - rewrite (bind_pure _ _ _ _ (flattenList (p :: ps) "" "", true, 0%nat)) by reflexivity.
    rewrite (bind_pure _ _ _ _ (principal, isRole))
      by (unfold lift; rewrite Hprincipal; reflexivity).
    cbv zeta.
    match goal with
    | |- context [dbExec db ?s] =>
        assert (E : s = Spec.createStatement (p :: ps) (roles d) (database d) (table d)
                          principal (tls_option d) isRole (grant d) hasRoles)
    end.
    { unfold Spec.createStatement, Spec.roleBased, Spec.privilegeBased.
      rewrite orb_true_r.
      destruct hasRoles, isRole, (grant d), (tls_option d =? "");
        norm_strings; reflexivity. }
    rewrite E. reflexivity.
Qed.

(** [ReadGrant] when [showGrants] fails. *)
Lemma ReadGrant_showGrants_error (cmp : string -> string -> Z) (meta : MySQLConfiguration)
      (db : DB) (d : ResourceData) (h : list event) (hasRoles isRole : bool)
      (principal err : string) :
  GetDbConn meta = Ok db ->
  returned (supportsRoles cmp db d h) = Ok hasRoles ->
  userOrRole (user d) (host d) (role d) hasRoles = Ok (principal, isRole) ->
  returned (showGrants db principal d h) = Err err ->
  ReadGrant cmp meta d h = ([Query ("SHOW GRANTS FOR " ++ principal)], SetId "" d, Ok tt).
Proof.
  intros Hdb Hroles Hprincipal Herr. unfold ReadGrant.
  rewrite (bind_pure _ _ _ _ db) by (unfold lift; rewrite Hdb; reflexivity).
  rewrite (bind_pure _ _ _ _ hasRoles)
    by (rewrite supportsRoles_pure, Hroles; reflexivity).
  rewrite (bind_pure _ _ _ _ d) by reflexivity.
  rewrite (bind_pure _ _ _ _ (principal, isRole))
    by (unfold lift; rewrite Hprincipal; reflexivity).
  pose proof (showGrants_data db principal d h) as Hd.
  pose proof (showGrants_emitted db principal d h) as He.
  destruct (showGrants db principal d h) as [[t d1] r].
  unfold dataAfter, emitted, returned in *. simpl in *. subst. reflexivity.
Qed.

(** X15: [CreateGrant] checks the resource before it sends anything.  A
    resource with no privileges and no roles is refused with
    [One of privileges or roles is required]; one with roles only, on a
    server without roles, with [Roles are only supported on MySQL 8 and
    above]; one whose principal does not resolve, with the error of
    [userOrRole].  In each case no statement is sent and the resource data
    are left as they were. *)
Theorem CreateGrant_rejects
        (cmp : string -> string -> Z) (meta : MySQLConfiguration) (db : DB)
        (d : ResourceData) (h : list event) (hasRoles : bool) :
  GetDbConn meta = Ok db ->
  returned (supportsRoles cmp db d h) = Ok hasRoles ->
  (privileges d = [] -> roles d = [] ->
   CreateGrant cmp meta d h = ([], d, Err "One of privileges or roles is required"))
  /\ (privileges d = [] -> roles d <> [] -> hasRoles = false ->
      CreateGrant cmp meta d h
      = ([], d, Err "Roles are only supported on MySQL 8 and above"))
  /\ (forall err,
         privileges d <> [] \/ (roles d <> [] /\ hasRoles = true) ->
         userOrRole (user d) (host d) (role d) hasRoles = Err err ->
         CreateGrant cmp meta d h = ([], d, Err err)).
Proof.
  intros Hdb Hroles. split; [| split].
  - intros Hp Hr. unfold CreateGrant. enter_call Hdb Hroles db hasRoles d.
    rewrite Hp, Hr. reflexivity.
  - intros Hp Hr Hno. unfold CreateGrant. enter_call Hdb Hroles db hasRoles d.
    rewrite Hp. subst hasRoles. destruct (roles d); [congruence | reflexivity].
  - intros err Hsome Herr. unfold CreateGrant. enter_call Hdb Hroles db hasRoles d.
    destruct (privileges d) as [| p ps].
    + destruct Hsome as [Hsome | [Hr ->]]; [congruence |].
      destruct (roles d) as [| r rs]; [congruence |].
      rewrite (bind_pure _ _ _ _ (flattenList (r :: rs) "'" "'", false, List.length (r :: rs)))
        by reflexivity.
      apply bind_error. unfold lift. rewrite Herr. reflexivity.
    + rewrite (bind_pure _ _ _ _ (flattenList (p :: ps) "" "", true, 0%nat)) by reflexivity.
      apply bind_error. unfold lift. rewrite Herr. reflexivity.
Qed.

Lemma CreateGrant_rejects_witness :
  CreateGrant Examples.lexical (Examples.connected (Examples.accepting Examples.mysql_5_7_30))
              (Examples.grantOf [] [] [] false) []
  = ([], Examples.grantOf [] [] [] false, Err "One of privileges or roles is required")
  /\ CreateGrant Examples.lexical
                 (Examples.connected (Examples.accepting Examples.mysql_5_7_30))
                 (Examples.grantOf [] [] ["app_role"] false) []
     = ([], Examples.grantOf [] [] ["app_role"] false,
        Err "Roles are only supported on MySQL 8 and above")
  /\ CreateGrant Examples.lexical
                 (Examples.connected (Examples.accepting Examples.mysql_5_7_30))
                 (Set_host "" (Examples.grantOf [] ["SELECT"] [] false)) []
     = ([], Set_host "" (Examples.grantOf [] ["SELECT"] [] false),
        Err "user with host or a role is required").
Proof.
  split; [| split].
  - destruct (CreateGrant_rejects
                Examples.lexical
                (Examples.connected (Examples.accepting Examples.mysql_5_7_30))
                (Examples.accepting Examples.mysql_5_7_30)
                (Examples.grantOf [] [] [] false) [] false eq_refl eq_refl) as (H & _).
    apply H; reflexivity.
  - destruct (CreateGrant_rejects
                Examples.lexical
                (Examples.connected (Examples.accepting Examples.mysql_5_7_30))
                (Examples.accepting Examples.mysql_5_7_30)
                (Examples.grantOf [] [] ["app_role"] false) [] false eq_refl eq_refl)
      as (_ & H & _).
    apply H; [reflexivity | discriminate | reflexivity].
  - destruct (CreateGrant_rejects
                Examples.lexical
                (Examples.connected (Examples.accepting Examples.mysql_5_7_30))
                (Examples.accepting Examples.mysql_5_7_30)
                (Set_host "" (Examples.grantOf [] ["SELECT"] [] false)) [] false
                eq_refl eq_refl) as (_ & _ & H).
    apply H; [left; discriminate | reflexivity].
Defined.

(** X16: once the resource is accepted, [CreateGrant] sends its one
    statement.  When the server refuses it, the error is returned as
    [Error running SQL (<statement>): <error>] and the identifier is not
    set.  When the server accepts it, the identifier is set to
    [<user>@<host>:<database>], or [<role>:<database>] for a role, with the
    database formatted, and the result is that of [ReadGrant] from there.
    So when the grants cannot be shown afterwards, [CreateGrant] returns no
    error and leaves the resource without identifier, although the grant
    was made. *)
Theorem CreateGrant_outcomes
        (cmp : string -> string -> Z) (meta : MySQLConfiguration) (db : DB)
        (d : ResourceData) (h : list event) (hasRoles isRole : bool)
        (principal : string) :
  GetDbConn meta = Ok db ->
  returned (supportsRoles cmp db d h) = Ok hasRoles ->
  userOrRole (user d) (host d) (role d) hasRoles = Ok (principal, isRole) ->
  Spec.creates (privileges d) (roles d) hasRoles = true ->
  let stmtSQL :=
    Spec.createStatement (privileges d) (roles d) (database d) (table d)
                         principal (tls_option d) isRole (grant d) hasRoles in
  let id :=
    if isRole then role d ++ ":" ++ formatDatabaseName (database d)
    else user d ++ "@" ++ host d ++ ":" ++ formatDatabaseName (database d) in
  let read := ReadGrant cmp meta (SetId id d) (h ++ [Exec stmtSQL])%list in
  (forall err,
      exec db h stmtSQL = Some err ->
      CreateGrant cmp meta d h
      = ([Exec stmtSQL], d, Err ("Error running SQL (" ++ stmtSQL ++ "): " ++ err)))
  /\ (exec db h stmtSQL = None ->
      CreateGrant cmp meta d h
      = (Exec stmtSQL :: emitted read, dataAfter read, returned read))
  /\ (forall hasRoles' isRole' principal' err,
         exec db h stmtSQL = None ->
         returned (supportsRoles cmp db (SetId id d) (h ++ [Exec stmtSQL])%list)
         = Ok hasRoles' ->
         userOrRole (user d) (host d) (role d) hasRoles' = Ok (principal', isRole') ->
         returned (showGrants db principal' (SetId id d) (h ++ [Exec stmtSQL])%list)
         = Err err ->
         CreateGrant cmp meta d h
         = ([Exec stmtSQL; Query ("SHOW GRANTS FOR " ++ principal')], SetId "" d, Ok tt)).
Proof.
  intros Hdb Hroles Hprincipal Hcreates stmtSQL id read.
  pose proof (CreateGrant_steps cmp meta db d h hasRoles isRole principal
                                Hdb Hroles Hprincipal Hcreates) as E.
  cbv zeta in E. fold stmtSQL id in E. rewrite E, bind_dbExec.
  assert (Hread : exec db h stmtSQL = None ->
                  (Exec stmtSQL
                     :: emitted (match exec db h stmtSQL with
                                 | Some err0 =>
                                     fail ("Error running SQL (" ++ stmtSQL ++ "): " ++ err0)
                                 | None => bind (modify (SetId id)) (fun _ => ReadGrant cmp meta)
                                 end d (h ++ [Exec stmtSQL])%list),
                   dataAfter (match exec db h stmtSQL with
                              | Some err0 =>
                                  fail ("Error running SQL (" ++ stmtSQL ++ "): " ++ err0)
                              | None => bind (modify (SetId id)) (fun _ => ReadGrant cmp meta)
                              end d (h ++ [Exec stmtSQL])%list),
                   returned (match exec db h stmtSQL with
                             | Some err0 =>
                                 fail ("Error running SQL (" ++ stmtSQL ++ "): " ++ err0)
                             | None => bind (modify (SetId id)) (fun _ => ReadGrant cmp meta)
                             end d (h ++ [Exec stmtSQL])%list))
                  = (Exec stmtSQL :: emitted read, dataAfter read, returned read)).
  { intro Hnone. rewrite Hnone. unfold bind, modify. rewrite app_nil_r. fold read.
    destruct read as [[t d'] r]. reflexivity. }
  split; [| split].
  - intros err Herr. rewrite Herr. reflexivity.
  - exact Hread.
  - intros hasRoles' isRole' principal' err Hnone Hroles' Hprincipal' Herr.
    rewrite (Hread Hnone). unfold read.
    rewrite (ReadGrant_showGrants_error cmp meta db (SetId id d) _ hasRoles' isRole'
                                        principal' err Hdb Hroles' Hprincipal' Herr).
    reflexivity.
Qed.

Lemma CreateGrant_outcomes_witness :
  CreateGrant Examples.lexical (Examples.connected (Examples.broken Examples.mysql_5_7_30))
              (Examples.grantOf [] ["SELECT"] [] true) []
  = ([Exec "GRANT SELECT ON `d1`.* TO 'jdoe'@'example.com' REQUIRE NONE WITH GRANT OPTION"],
     Examples.grantOf [] ["SELECT"] [] true,
     Err "Error running SQL (GRANT SELECT ON `d1`.* TO 'jdoe'@'example.com' REQUIRE NONE WITH GRANT OPTION): invalid connection")
  /\ CreateGrant Examples.lexical
                 (Examples.connected (Examples.unreadable Examples.mysql_5_7_30))
                 (Examples.grantOf [] ["SELECT"] [] true) []
     = ([Exec "GRANT SELECT ON `d1`.* TO 'jdoe'@'example.com' REQUIRE NONE WITH GRANT OPTION";
         Query "SHOW GRANTS FOR 'jdoe'@'example.com'"],
        SetId "" (Examples.grantOf [] ["SELECT"] [] true), Ok tt).
Proof.
  split.
  - destruct (CreateGrant_outcomes
                Examples.lexical
                (Examples.connected (Examples.broken Examples.mysql_5_7_30))
                (Examples.broken Examples.mysql_5_7_30)
                (Examples.grantOf [] ["SELECT"] [] true) [] false false
                "'jdoe'@'example.com'" eq_refl eq_refl eq_refl eq_refl) as (H & _).
    apply (H "invalid connection"). reflexivity.
  - destruct (CreateGrant_outcomes
                Examples.lexical
                (Examples.connected (Examples.unreadable Examples.mysql_5_7_30))
                (Examples.unreadable Examples.mysql_5_7_30)
                (Examples.grantOf [] ["SELECT"] [] true) [] false false
                "'jdoe'@'example.com'" eq_refl eq_refl eq_refl eq_refl) as (_ & _ & H).
    apply (H false false "'jdoe'@'example.com'" "invalid connection"); reflexivity.
Defined.

(** X17: [CreateGrants] makes the grants block after block and stops at
    the first block that fails, whether the block names no privilege and no
    role, names roles on a server without roles, or has its statement
    refused.  The statements of the blocks before it have been sent and
    nothing takes them back; the error of the block is returned and the
    identifier is not set. *)
Theorem CreateGrants_stops_at_first_failure
        (cmp : string -> string -> Z) (meta : MySQLConfiguration) (db : DB)
        (d : ResourceData) (h : list event) (hasRoles isRole : bool)
        (principal : string) (fs1 fs2 : list SubGrantRead.t) (f : SubGrantRead.t) :
  GetDbConn meta = Ok db ->
  (forall h', returned (supportsRoles cmp db d h') = Ok hasRoles) ->
  userOrRole (user d) (host d) (role d) hasRoles = Ok (principal, isRole) ->
  grants d = (fs1 ++ f :: fs2)%list ->
  let stmtOf := fun g =>
    Spec.createStatement (SubGrantRead.Privileges g) (SubGrantRead.Roles g)
                         (SubGrantRead.Database g) (SubGrantRead.Table g)
                         principal (tls_option d) isRole (SubGrantRead.Grant g) hasRoles in
  (forall g, In g fs1 ->
     Spec.creates (SubGrantRead.Privileges g) (SubGrantRead.Roles g) hasRoles = true) ->
  (forall g h', In g fs1 -> exec db h' (stmtOf g) = None) ->
  let sent := map Exec (map stmtOf fs1) in
  (SubGrantRead.Privileges f = [] -> SubGrantRead.Roles f = [] ->
   CreateGrants cmp meta d h
   = (sent, d, Err "one of privileges or roles is required"))
  /\ (SubGrantRead.Privileges f = [] -> SubGrantRead.Roles f <> [] -> hasRoles = false ->
      CreateGrants cmp meta d h
      = (sent, d, Err "roles are only supported on MySQL 8 and above"))
  /\ (forall err,
         Spec.creates (SubGrantRead.Privileges f) (SubGrantRead.Roles f) hasRoles = true ->
         exec db (h ++ sent)%list (stmtOf f) = Some err ->
         CreateGrants cmp meta d h
         = ((sent ++ [Exec (stmtOf f)])%list, d,
            Err ("error running SQL (" ++ stmtOf f ++ "): " ++ err))).
Proof.
  intros Hdb Hroles Hprincipal Hgrants stmtOf Hcreates Haccepts sent.
  assert (E : forall t e,
             CreateGrants_body cmp db f d (h ++ sent)%list = (t, d, Err e) ->
             CreateGrants cmp meta d h = ((sent ++ t)%list, d, Err e)).
  { intros t e Hbody. unfold CreateGrants.
    rewrite (bind_pure _ _ _ _ db) by (unfold lift; rewrite Hdb; reflexivity).
    rewrite (bind_pure _ _ _ _ d) by reflexivity.
    rewrite expandGrants_id, Hgrants.
    apply bind_error.
    rewrite (CreateGrants_loop_prefix cmp db d hasRoles isRole principal
               fs1 (f :: fs2) h Hroles Hprincipal Hcreates Haccepts).
    cbv zeta. fold stmtOf. fold sent.
    cbn [CreateGrants_loop]. unfold bind at 1 2 3. rewrite Hbody. reflexivity. }
  split; [| split].
  - intros Hp Hr. rewrite <- (app_nil_r sent) at 1. apply E.
    unfold CreateGrants_body.
    rewrite (bind_pure _ _ _ _ hasRoles)
      by (rewrite supportsRoles_pure, Hroles; reflexivity).
    rewrite (bind_pure _ _ _ _ d) by reflexivity.
    rewrite Hp, Hr. reflexivity.
  - intros Hp Hr Hno. rewrite <- (app_nil_r sent) at 1. apply E.
    unfold CreateGrants_body.
    rewrite (bind_pure _ _ _ _ hasRoles)
      by (rewrite supportsRoles_pure, Hroles; reflexivity).
    rewrite (bind_pure _ _ _ _ d) by reflexivity.
    rewrite Hp. subst hasRoles. destruct (SubGrantRead.Roles f); [congruence | reflexivity].
  - intros err Hc Herr. apply E.
    pose proof (CreateGrants_body_run cmp db f d (h ++ sent)%list hasRoles isRole principal
                  (Hroles _) Hprincipal Hc) as Hbody.
    cbv zeta in Hbody. fold (stmtOf f) in Hbody. rewrite Herr in Hbody. exact Hbody.
Qed.

Lemma CreateGrants_stops_at_first_failure_witness :
  CreateGrants Examples.lexical (Examples.connected (Examples.accepting Examples.mysql_5_7_30))
               (Examples.grantsOf [] [Examples.block "d1" ["SELECT"]; Examples.block "d2" []])
               []
  = ([Exec "GRANT SELECT ON `d1`.* TO 'jdoe'@'example.com' REQUIRE NONE"],
     Examples.grantsOf [] [Examples.block "d1" ["SELECT"]; Examples.block "d2" []],
     Err "one of privileges or roles is required").
Proof.
  destruct (CreateGrants_stops_at_first_failure
              Examples.lexical
              (Examples.connected (Examples.accepting Examples.mysql_5_7_30))
              (Examples.accepting Examples.mysql_5_7_30)
              (Examples.grantsOf [] [Examples.block "d1" ["SELECT"]; Examples.block "d2" []])
              [] false false "'jdoe'@'example.com'"
              [Examples.block "d1" ["SELECT"]] [] (Examples.block "d2" []))
    as (H & _).
  - reflexivity.
  - reflexivity.
  - reflexivity.
  - reflexivity.
  - intros g [<- | []]. reflexivity.
  - reflexivity.
  - apply H; reflexivity.
Defined.

(** ** The statements of a deletion *)

(** The body of the loop of [DeleteGrants], which is also what
    [DeleteGrant] does once the principal is known, on a server that accepts
    the first statement. *)
Lemma DeleteGrants_body_statements (db : DB) (principal : string) (isRole : bool)
      (f : SubGrantRead.t) (d : ResourceData) (h : list event) :
  let scope :=
    formatDatabaseName (SubGrantRead.Database f) ++ "."
    ++ formatTableName (SubGrantRead.Table f) in
  let first :=
    match isRole, SubGrantRead.Roles f with
    | false, [] =>
        [Spec.revokeGrantOption (SubGrantRead.Database f) (SubGrantRead.Table f) principal]
    | _, _ => []
    end in
  let whatToRevoke :=
    match SubGrantRead.Roles f, SubGrantRead.Privileges f with
    | _ :: _, _ => flattenList (SubGrantRead.Roles f) "'" "'"
    | [], _ :: _ => flattenList (SubGrantRead.Privileges f) "" "" ++ " ON " ++ scope
    | [], [] => "ALL ON " ++ scope
    end in
  let last := "REVOKE " ++ whatToRevoke ++ " FROM " ++ principal in
  (forall stmtSQL, In stmtSQL first -> exec db h stmtSQL = None) ->
  DeleteGrants_body db principal isRole f d h
  = ((map Exec first ++ [Exec last])%list, d,
     match exec db (h ++ map Exec first)%list last with
     | Some err => Err ("error revoking ALL (" ++ last ++ "): " ++ err)
     | None => Ok Continue
     end).
Proof.
  intros scope first whatToRevoke last Hfirst.
  unfold DeleteGrants_body. subst first whatToRevoke last scope.
  destruct isRole, (SubGrantRead.Roles f) as [| r rs] eqn:Hr;
    destruct (SubGrantRead.Privileges f) as [| p ps] eqn:Hp;
    unfold schema.List in *;
    cbn [negb andb List.length Nat.eqb Nat.ltb Nat.leb map app] in *;
    try (rewrite (bind_pure _ _ _ _ Continue) by reflexivity;
         rewrite bind_dbExec, app_nil_r;
         match goal with
         | |- context [exec db h ?s] => destruct (exec db h s)
         end; reflexivity).
  - rewrite bind_assoc, bind_dbExec.
    fold (Spec.revokeGrantOption (SubGrantRead.Database f) (SubGrantRead.Table f) principal).
    rewrite Hfirst by (left; reflexivity).
    rewrite (bind_pure _ _ _ _ Continue) by reflexivity.
    rewrite bind_dbExec. unfold emitted, dataAfter, returned. cbn [fst snd].
    match goal with
    | |- context [exec db (h ++ ?t)%list ?s] => destruct (exec db (h ++ t)%list s)
    end; reflexivity.
  - rewrite bind_assoc, bind_dbExec.
    fold (Spec.revokeGrantOption (SubGrantRead.Database f) (SubGrantRead.Table f) principal).
    rewrite Hfirst by (left; reflexivity).
    rewrite (bind_pure _ _ _ _ Continue) by reflexivity.
    rewrite bind_dbExec. unfold emitted, dataAfter, returned. cbn [fst snd].
    match goal with
    | |- context [exec db (h ++ ?t)%list ?s] => destruct (exec db (h ++ t)%list s)
    end; reflexivity.
Qed.

Lemma sameButValue_bind {A B C : Type} (m : M A) (f : A -> M B) (g : A -> M C)
      (d : ResourceData) (h : list event) :
  (forall a d' h', sameButValue (f a d' h') (g a d' h')) ->
  sameButValue (bind m f d h) (bind m g d h).
Proof.
  intro H. unfold bind. destruct (m d h) as [[t1 d1] [a | e]].
  - specialize (H a d1 (h ++ t1)%list).
    destruct (f a d1 (h ++ t1)%list) as [[t2 d2] r2].
    destruct (g a d1 (h ++ t1)%list) as [[t3 d3] r3].
    unfold sameButValue, emitted, dataAfter, returned in *. cbn [fst snd] in *.
    destruct H as (-> & -> & H). auto.
  - unfold sameButValue, emitted, dataAfter, returned. cbn [fst snd]. auto.
Qed.

(** [DeleteGrant] is the body of the loop of [DeleteGrants], run on the
    attributes of the resource. *)
Lemma DeleteGrant_body (cmp : string -> string -> Z) (meta : MySQLConfiguration)
      (db : DB) (d : ResourceData) (h : list event) (hasRoles isRole : bool)
      (principal : string) :
  GetDbConn meta = Ok db ->
  returned (supportsRoles cmp db d h) = Ok hasRoles ->
  userOrRole (user d) (host d) (role d) hasRoles = Ok (principal, isRole) ->
  let f := SubGrantRead.mk (database d) (table d) (privileges d) (roles d) (grant d) in
  sameButValue (DeleteGrant cmp meta d h) (DeleteGrants_body db principal isRole f d h).
Proof.
  intros Hdb Hroles Hprincipal f. unfold DeleteGrant.
  rewrite (bind_pure _ _ _ _ db) by (unfold lift; rewrite Hdb; reflexivity).
  rewrite (bind_pure _ _ _ _ d) by reflexivity.
  rewrite (bind_pure _ _ _ _ hasRoles)
    by (rewrite supportsRoles_pure, Hroles; reflexivity).
  rewrite (bind_pure _ _ _ _ (principal, isRole))
    by (unfold lift; rewrite Hprincipal; reflexivity).
  unfold DeleteGrants_body. subst f.
  cbn [SubGrantRead.Database SubGrantRead.Table SubGrantRead.Privileges SubGrantRead.Roles].
  cbv zeta. apply sameButValue_bind. intros [|] d' h'.
  - apply sameButValue_bind. intros [err |] d'' h''; repeat split.
  - repeat split.
Qed.

(** X18: the statements of [DeleteGrant].  For a principal that is not a
    role, on a resource without roles, [REVOKE GRANT OPTION] on the scope
    comes first.  The last statement revokes the roles of the resource when
    it has some, without naming a scope; else its privileges on the scope;
    else, when it has neither, [ALL] on the scope.  When the server refuses
    the last statement its error is returned as
    [error revoking ALL (<statement>): <error>], whatever the error: error
    1141 is let through for the first statement only. *)
Theorem DeleteGrant_statements
        (cmp : string -> string -> Z) (meta : MySQLConfiguration) (db : DB)
        (d : ResourceData) (h : list event) (hasRoles isRole : bool)
        (principal : string) :
  GetDbConn meta = Ok db ->
  returned (supportsRoles cmp db d h) = Ok hasRoles ->
  userOrRole (user d) (host d) (role d) hasRoles = Ok (principal, isRole) ->
  let scope := formatDatabaseName (database d) ++ "." ++ formatTableName (table d) in
  let first :=
    match isRole, roles d with
    | false, [] => [Spec.revokeGrantOption (database d) (table d) principal]
    | _, _ => []
    end in
  let whatToRevoke :=
    match roles d, privileges d with
    | _ :: _, _ => flattenList (roles d) "'" "'"
    | [], _ :: _ => flattenList (privileges d) "" "" ++ " ON " ++ scope
    | [], [] => "ALL ON " ++ scope
    end in
  let last := "REVOKE " ++ whatToRevoke ++ " FROM " ++ principal in
  (forall stmtSQL, In stmtSQL first -> exec db h stmtSQL = None) ->
  DeleteGrant cmp meta d h
  = ((map Exec first ++ [Exec last])%list, d,
     match exec db (h ++ map Exec first)%list last with
     | Some err => Err ("error revoking ALL (" ++ last ++ "): " ++ err)
     | None => Ok tt
     end).
Proof.
  intros Hdb Hroles Hprincipal scope first whatToRevoke last Hfirst.
  pose proof (DeleteGrant_body cmp meta db d h hasRoles isRole principal
                               Hdb Hroles Hprincipal) as Hsame.
  pose proof (DeleteGrants_body_statements
                db principal isRole
                (SubGrantRead.mk (database d) (table d) (privileges d) (roles d) (grant d))
                d h Hfirst) as Hbody.
  cbv zeta in Hsame, Hbody.
  cbn [SubGrantRead.Database SubGrantRead.Table SubGrantRead.Privileges SubGrantRead.Roles]
    in Hbody.
  fold scope in Hbody. fold first in Hbody. fold whatToRevoke in Hbody. fold last in Hbody.
  rewrite Hbody in Hsame. clear Hbody.
  destruct (DeleteGrant cmp meta d h) as [[t d'] r].
  unfold sameButValue, emitted, dataAfter, returned in Hsame. cbn [fst snd] in Hsame.
  destruct Hsame as (-> & -> & Hr).
  destruct (exec db (h ++ map Exec first)%list last) as [err |].
  - destruct r as [[] | e]; [contradiction | subst e; reflexivity].
  - destruct r as [[] | e]; [reflexivity | contradiction].
Qed.

Lemma DeleteGrant_statements_witness :
  DeleteGrant Examples.lexical (Examples.connected (Examples.accepting Examples.mysql_5_7_30))
              (Examples.grantOf [] [] [] false) []
  = ([Exec "REVOKE GRANT OPTION ON `d1`.* FROM 'jdoe'@'example.com'";
      Exec "REVOKE ALL ON `d1`.* FROM 'jdoe'@'example.com'"],
     Examples.grantOf [] [] [] false, Ok tt)
  /\ DeleteGrant Examples.lexical
                 (Examples.connected (Examples.accepting Examples.mysql_8_0_23))
                 (Examples.grantOf [] [] ["app_role"; "ops"] false) []
     = ([Exec "REVOKE 'app_role', 'ops' FROM 'jdoe'@'example.com'"],
        Examples.grantOf [] [] ["app_role"; "ops"] false, Ok tt).
Proof.
  split.
  - apply (DeleteGrant_statements
             Examples.lexical
             (Examples.connected (Examples.accepting Examples.mysql_5_7_30))
             (Examples.accepting Examples.mysql_5_7_30)
             (Examples.grantOf [] [] [] false) [] false false "'jdoe'@'example.com'");
      reflexivity.
  - apply (DeleteGrant_statements
             Examples.lexical
             (Examples.connected (Examples.accepting Examples.mysql_8_0_23))
             (Examples.accepting Examples.mysql_8_0_23)
             (Examples.grantOf [] [] ["app_role"; "ops"] false) [] true false
             "'jdoe'@'example.com'"); reflexivity.
Defined.

Lemma DeleteGrants_loop_statements (db : DB) (principal : string) (isRole : bool)
      (fs : list SubGrantRead.t) (d : ResourceData) (h : list event) :
  (forall h' stmtSQL, exec db h' stmtSQL = None) ->
  let statementsOf := fun f =>
    let scope :=
      formatDatabaseName (SubGrantRead.Database f) ++ "."
      ++ formatTableName (SubGrantRead.Table f) in
    let first :=
      match isRole, SubGrantRead.Roles f with
      | false, [] =>
          [Spec.revokeGrantOption (SubGrantRead.Database f) (SubGrantRead.Table f) principal]
      | _, _ => []
      end in
    let whatToRevoke :=
      match SubGrantRead.Roles f, SubGrantRead.Privileges f with
      | _ :: _, _ => flattenList (SubGrantRead.Roles f) "'" "'"
      | [], _ :: _ => flattenList (SubGrantRead.Privileges f) "" "" ++ " ON " ++ scope
      | [], [] => "ALL ON " ++ scope
      end in
    let last := "REVOKE " ++ whatToRevoke ++ " FROM " ++ principal in
    (first ++ [last])%list in
  DeleteGrants_loop db principal isRole fs d h
  = (map Exec (flat_map statementsOf fs), d, Ok tt).
Proof.
  intros Haccepts statementsOf. revert h.
  induction fs as [| f fs IH]; intro h; [reflexivity |].
  cbn [DeleteGrants_loop flat_map]. unfold bind.
  pose proof (DeleteGrants_body_statements db principal isRole f d h) as Hbody.
  cbv zeta in Hbody. rewrite Hbody by (intros; apply Haccepts). clear Hbody.
  rewrite Haccepts, IH. rewrite map_app. unfold statementsOf at 2.
  rewrite map_app. reflexivity.
Qed.

(** X19: on a server that accepts every statement, [DeleteGrants] sends
    for each block, in the order of the blocks, the statements [DeleteGrant]
    sends for a resource with the attributes of the block, and returns no
    error; the resource data are left as they were. *)
Theorem DeleteGrants_statements
        (cmp : string -> string -> Z) (meta : MySQLConfiguration) (db : DB)
        (d : ResourceData) (h : list event) (hasRoles isRole : bool)
        (principal : string) :
  GetDbConn meta = Ok db ->
  returned (supportsRoles cmp db d h) = Ok hasRoles ->
  userOrRole (user d) (host d) (role d) hasRoles = Ok (principal, isRole) ->
  (forall h' stmtSQL, exec db h' stmtSQL = None) ->
  let statementsOf := fun f =>
    let scope :=
      formatDatabaseName (SubGrantRead.Database f) ++ "."
      ++ formatTableName (SubGrantRead.Table f) in
    let first :=
      match isRole, SubGrantRead.Roles f with
      | false, [] =>
          [Spec.revokeGrantOption (SubGrantRead.Database f) (SubGrantRead.Table f) principal]
      | _, _ => []
      end in
    let whatToRevoke :=
      match SubGrantRead.Roles f, SubGrantRead.Privileges f with
      | _ :: _, _ => flattenList (SubGrantRead.Roles f) "'" "'"
      | [], _ :: _ => flattenList (SubGrantRead.Privileges f) "" "" ++ " ON " ++ scope
      | [], [] => "ALL ON " ++ scope
      end in
    let last := "REVOKE " ++ whatToRevoke ++ " FROM " ++ principal in
    (first ++ [last])%list in
  DeleteGrants cmp meta d h
  = (map Exec (flat_map statementsOf (grants d)), d, Ok tt).
Proof.
  intros Hdb Hroles Hprincipal Haccepts statementsOf. unfold DeleteGrants.
  enter_call Hdb Hroles db hasRoles d.
  rewrite (bind_pure _ _ _ _ (principal, isRole))
    by (unfold lift; rewrite Hprincipal; reflexivity).
  rewrite expandGrants_id.
  apply DeleteGrants_loop_statements. exact Haccepts.
Qed.

Lemma DeleteGrants_statements_witness :
  DeleteGrants Examples.lexical (Examples.connected (Examples.accepting Examples.mysql_5_7_30))
               (Examples.grantsOf [] [Examples.block "*" ["USAGE"];
                                      Examples.block "d1" ["UPDATE"; "SELECT"]]) []
  = ([Exec "REVOKE GRANT OPTION ON *.* FROM 'jdoe'@'example.com'";
      Exec "REVOKE USAGE ON *.* FROM 'jdoe'@'example.com'";
      Exec "REVOKE GRANT OPTION ON `d1`.* FROM 'jdoe'@'example.com'";
      Exec "REVOKE UPDATE, SELECT ON `d1`.* FROM 'jdoe'@'example.com'"],
     Examples.grantsOf [] [Examples.block "*" ["USAGE"];
                           Examples.block "d1" ["UPDATE"; "SELECT"]], Ok tt).
Proof.
  apply (DeleteGrants_statements
           Examples.lexical
           (Examples.connected (Examples.accepting Examples.mysql_5_7_30))
           (Examples.accepting Examples.mysql_5_7_30)
           (Examples.grantsOf [] [Examples.block "*" ["USAGE"];
                                  Examples.block "d1" ["UPDATE"; "SELECT"]]) []
           false false "'jdoe'@'example.com'"); reflexivity.
Defined.

(** ** A refused statement of an update *)

(** X20: [updatePrivileges] returns the error of the server as it is and
    takes nothing back.  A refused REVOKE ends the call before the GRANT is
    sent; a refused GRANT leaves the REVOKE sent before it in place.  When
    the two sets have the same privileges nothing is sent. *)
Theorem updatePrivileges_refused
        (newPrivs oldPrivs : schema.Set_ string) (db : DB)
        (user database table : string) (d : ResourceData) (h : list event) :
  let toRevoke := schema.Difference HashString oldPrivs newPrivs in
  let toGrant := schema.Difference HashString newPrivs oldPrivs in
  let revoke := Spec.revokeStatement toRevoke database table user in
  let grant := Spec.grantStatement toGrant database table user in
  (forall err,
      toRevoke <> [] -> exec db h revoke = Some err ->
      updatePrivileges newPrivs oldPrivs db user database table d h
      = ([Exec revoke], d, Err err))
  /\ (forall err,
         toRevoke <> [] -> toGrant <> [] ->
         exec db h revoke = None -> exec db (h ++ [Exec revoke])%list grant = Some err ->
         updatePrivileges newPrivs oldPrivs db user database table d h
         = ([Exec revoke; Exec grant], d, Err err))
  /\ (forall err,
         toRevoke = [] -> toGrant <> [] -> exec db h grant = Some err ->
         updatePrivileges newPrivs oldPrivs db user database table d h
         = ([Exec grant], d, Err err))
  /\ (toRevoke = [] -> toGrant = [] ->
      updatePrivileges newPrivs oldPrivs db user database table d h = ([], d, Ok tt)).
Proof.
  intros toRevoke toGrant revoke grant.
  rewrite updatePrivileges_plan. unfold Spec.singleScope.
  fold toRevoke toGrant. subst revoke grant.
  destruct toRevoke as [| r rs], toGrant as [| g gs]; repeat split;
    intros; try congruence; cbn [app]; rewrite ?runPlan_cons;
    repeat match goal with
           | H : exec _ _ _ = _ |- _ => rewrite H
           end; reflexivity.
Qed.

Lemma updatePrivileges_refused_witness :
  updatePrivileges ["UPDATE"; "SELECT"] ["SELECT"; "DELETE"]
                   (Examples.broken Examples.mysql_5_7_30)
                   "'jdoe'@'example.com'" "`d1`" "*"
                   (Examples.grantOf ["SELECT"; "DELETE"] ["UPDATE"; "SELECT"] [] false) []
  = ([Exec "REVOKE DELETE ON `d1`.* FROM 'jdoe'@'example.com'"],
     Examples.grantOf ["SELECT"; "DELETE"] ["UPDATE"; "SELECT"] [] false,
     Err "invalid connection").
Proof.
  destruct (updatePrivileges_refused
              ["UPDATE"; "SELECT"] ["SELECT"; "DELETE"]
              (Examples.broken Examples.mysql_5_7_30)
              "'jdoe'@'example.com'" "`d1`" "*"
              (Examples.grantOf ["SELECT"; "DELETE"] ["UPDATE"; "SELECT"] [] false) [])
    as (H & _).
  apply (H "invalid connection"); [discriminate | reflexivity].
Defined.

(** ** The identifier of an import *)

Lemma LastIndex_without (c : ascii) (s : string) :
  without c s = true -> strings.LastIndex s (String c "") = (-1)%Z.
Proof.
  induction s as [| x s IH]; [reflexivity |].
  cbn -[Ascii.eqb]. intro H. apply andb_true_iff in H as [Hx Hs].
  rewrite (IH Hs). cbn -[Ascii.eqb]. apply negb_true_iff in Hx. rewrite Hx. reflexivity.
Qed.

Lemma LastIndex_app (c : ascii) (user host : string) :
  without c host = true ->
  strings.LastIndex (user ++ String c host) (String c "") = Z.of_nat (String.length user).
Proof.
  intro Hhost. induction user as [| x user IH].
  - cbn -[Ascii.eqb]. rewrite (LastIndex_without c host Hhost).
    cbn -[Ascii.eqb]. rewrite Ascii.eqb_refl. reflexivity.
  - change (String x user ++ String c host) with (String x (user ++ String c host)).
    cbn [strings.LastIndex]. rewrite IH.
    destruct (Z.leb_spec 0 (Z.of_nat (String.length user))); [| lia].
    cbn [String.length]. lia.
Qed.

Lemma LastIndex_none (c : ascii) (s : string) :
  (strings.LastIndex s (String c "") < 0)%Z -> without c s = true.
Proof.
  induction s as [| y s IH]; [reflexivity |].
  cbn [strings.LastIndex].
  destruct (Z.leb_spec 0 (strings.LastIndex s (String c ""))) as [H0 | H0]; [lia |].
  cbn -[Ascii.eqb]. destruct (Ascii.eqb c y); [cbn; lia |].
  intros _. cbn [negb andb]. apply IH. exact H0.
Qed.

(** An identifier with a separator splits at its last one. *)
Lemma LastIndex_split (c : ascii) (s : string) :
  (0 <= strings.LastIndex s (String c ""))%Z ->
  exists user host,
    s = user ++ String c host /\ without c host = true.
Proof.
  induction s as [| x s IH]; [cbn; lia |].
  cbn [strings.LastIndex].
  destruct (Z.leb_spec 0 (strings.LastIndex s (String c ""))) as [Hs | Hs].
  - intros _. destruct (IH Hs) as (user & host & -> & Hhost).
    exists (String x user), host. split; [reflexivity | exact Hhost].
  - cbn -[Ascii.eqb]. destruct (Ascii.eqb_spec c x) as [<- | ]; [| cbn; lia].
    intros _. exists "", s. split; [reflexivity | apply LastIndex_none; exact Hs].
Qed.

Lemma substring_prefix (a b : string) :
  String.substring 0 (String.length a) (a ++ b) = a.
Proof.
  induction a as [| x a IH]; [destruct b; reflexivity |].
  simpl. rewrite IH. reflexivity.
Qed.

Lemma substring_all (s : string) : String.substring 0 (String.length s) s = s.
Proof.
  rewrite <- (string_app_nil_r s) at 2. apply substring_prefix.
Qed.

Lemma substring_skip (a b : string) (n : nat) :
  String.substring (String.length a) n (a ++ b) = String.substring 0 n b.
Proof.
  induction a as [| x a IH]; [reflexivity |]. simpl. exact IH.
Qed.

Lemma slice_user (c : ascii) (user host : string) :
  slice (user ++ String c host) 0 (Z.of_nat (String.length user)) = user.
Proof.
  unfold slice. rewrite Z.sub_0_r, Nat2Z.id. cbn [Z.to_nat]. apply substring_prefix.
Qed.

Lemma sliceFrom_host (c : ascii) (user host : string) :
  sliceFrom (user ++ String c host) (Z.of_nat (String.length user) + 1) = host.
Proof.
  unfold sliceFrom.
  replace (Z.to_nat (Z.of_nat (String.length user) + 1)) with (String.length (user ++ String c ""))
    by (rewrite string_length_app; cbn [String.length]; lia).
  replace (user ++ String c host) with ((user ++ String c "") ++ host)
    by (rewrite string_app_assoc; reflexivity).
  rewrite substring_skip.
  replace (String.length ((user ++ String c "") ++ host) - String.length (user ++ String c ""))%nat
    with (String.length host)
    by (rewrite (string_length_app (user ++ String c "") host); lia).
  apply substring_all.
Qed.

(** The importers after the identifier is split. *)
Lemma ImportGrant_steps (meta : MySQLConfiguration) (d : ResourceData) (h : list event)
      (user host : string) :
  Id d = user ++ "@" ++ host -> user <> "" -> without "@" host = true ->
  ImportGrant meta d h
  = bind (lift (GetDbConn meta))
         (fun db =>
            bind (showGrants db ("'" ++ user ++ "'@'" ++ host ++ "'"))
                 (fun grants => ret (map (restoreGrant user host) grants))) d h
  /\ ImportGrants meta d h
     = bind (lift (GetDbConn meta))
            (fun db =>
               bind (showGrants db ("'" ++ user ++ "'@'" ++ host ++ "'"))
                    (fun grants => ret [restoreGrants user host grants])) d h.
Proof.
  intros Hid Huser Hhost.
  assert (Hindex : strings.LastIndex (Id d) "@" = Z.of_nat (String.length user)).
  { rewrite Hid. apply (LastIndex_app "@"). exact Hhost. }
  assert (Hpos : (Z.of_nat (String.length user) <=? 0)%Z = false).
  { destruct user; [congruence |]. apply Z.leb_gt. cbn [String.length]. lia. }
  unfold ImportGrant, ImportGrants.
  rewrite !(bind_pure _ _ _ _ d) by reflexivity. cbv zeta.
  rewrite Hindex, Hpos, Hid.
  change (user ++ "@" ++ host) with (user ++ String "@" host).
  rewrite slice_user, sliceFrom_host. split; reflexivity.
Qed.

(** X21: the importers refuse an identifier that has no [@], or whose
    only [@] is its first byte, with [wrong ID format <id> (expected
    USER@HOST)], before they connect: nothing is sent.  Every other
    identifier is a user that is not empty, an [@] and a host without
    [@]. *)
Theorem Import_wrong_id (meta : MySQLConfiguration) (d : ResourceData) (h : list event) :
  (without "@" (Id d) = true
   \/ (exists host, Id d = "@" ++ host /\ without "@" host = true) ->
   ImportGrant meta d h
   = ([], d, Err ("wrong ID format " ++ Id d ++ " (expected USER@HOST)"))
   /\ ImportGrants meta d h
      = ([], d, Err ("wrong ID format " ++ Id d ++ " (expected USER@HOST)")))
  /\ (without "@" (Id d) = true
      \/ (exists host, Id d = "@" ++ host /\ without "@" host = true)
      \/ (exists user host,
             Id d = user ++ "@" ++ host /\ user <> "" /\ without "@" host = true)).
Proof.
  split.
  - intro H.
    assert (Hindex : (strings.LastIndex (Id d) "@" <=? 0)%Z = true).
    { destruct H as [H | (host & -> & H)].
      - rewrite (LastIndex_without "@" _ H). reflexivity.
      - pose proof (LastIndex_app "@" "" host H) as E.
        cbn [append String.length Z.of_nat] in E.
        change ("@" ++ host) with (String "@" host). rewrite E. reflexivity. }
    unfold ImportGrant, ImportGrants.
    rewrite !(bind_pure _ _ _ _ d) by reflexivity. cbv zeta.
    rewrite Hindex. split; reflexivity.
  - destruct (Z.leb_spec 0 (strings.LastIndex (Id d) "@")) as [H | H].
    + destruct (LastIndex_split "@" (Id d) H) as (user & host & E & Hhost).
      right. destruct user as [| c user].
      * left. exists host. split; [exact E | exact Hhost].
      * right. exists (String c user), host.
        split; [exact E | split; [discriminate | exact Hhost]].
    + left. apply LastIndex_none. exact H.
Qed.

Lemma Import_wrong_id_witness :
  ImportGrants (Examples.connected (Examples.accepting Examples.mysql_5_7_30))
               (SetId "@localhost" (Examples.grantsOf [] [])) []
  = ([], SetId "@localhost" (Examples.grantsOf [] []),
     Err "wrong ID format @localhost (expected USER@HOST)").
Proof.
  destruct (Import_wrong_id (Examples.connected (Examples.accepting Examples.mysql_5_7_30))
                            (SetId "@localhost" (Examples.grantsOf [] [])) []) as [H _].
  destruct H as [_ H].
  - right. exists "localhost". split; reflexivity.
  - exact H.
Defined.

(** X22: for an identifier [<user>@<host>], split at its last [@],
    [ImportGrants] asks for the grants of ['<user>'@'<host>'] and gives one
    resource for all of them: its identifier is the identifier imported and
    it has one block for each grant shown.  An error of [showGrants] is
    returned as it is, with no resource. *)
Theorem ImportGrants_one_resource
        (meta : MySQLConfiguration) (db : DB) (d : ResourceData) (h : list event)
        (user host : string) :
  Id d = user ++ "@" ++ host -> user <> "" -> without "@" host = true ->
  GetDbConn meta = Ok db ->
  let principal := "'" ++ user ++ "'@'" ++ host ++ "'" in
  (forall shown,
      returned (showGrants db principal d h) = Ok shown ->
      ImportGrants meta d h
      = ([Query ("SHOW GRANTS FOR " ++ principal)], d, Ok [restoreGrants user host shown])
      /\ Id (restoreGrants user host shown) = Id d
      /\ List.length (grants (restoreGrants user host shown)) = List.length shown)
  /\ (forall err,
         returned (showGrants db principal d h) = Err err ->
         ImportGrants meta d h = ([Query ("SHOW GRANTS FOR " ++ principal)], d, Err err)).
Proof.
  intros Hid Huser Hhost Hdb principal.
  destruct (ImportGrant_steps meta d h user host Hid Huser Hhost) as [_ E].
  rewrite E. rewrite (bind_pure _ _ _ _ db) by (unfold lift; rewrite Hdb; reflexivity).
  fold principal. unfold bind. split.
  - intros gs Hgs. rewrite showGrants_steps, Hgs. split; [reflexivity |].
    split; [symmetry; exact Hid |]. cbn. apply length_map.
  - intros err Herr. rewrite showGrants_steps, Herr. reflexivity.
Qed.

Lemma ImportGrants_one_resource_witness :
  ImportGrants (Examples.connected
                  (Examples.showing Examples.mysql_5_7_30
                     ["GRANT USAGE ON *.* TO 'jdoe'@'example.com'";
                      "GRANT SELECT ON `d1`.`t1` TO 'jdoe'@'example.com'"]))
               (Examples.grantsOf [] []) []
  = ([Query "SHOW GRANTS FOR 'jdoe'@'example.com'"], Examples.grantsOf [] [],
     Ok [restoreGrants "jdoe" "example.com"
           [MySQLGrant.mk "*" "*" ["USAGE"] false;
            MySQLGrant.mk "d1" "t1" ["SELECT"] false]]).
Proof.
  destruct (ImportGrants_one_resource
              (Examples.connected
                 (Examples.showing Examples.mysql_5_7_30
                    ["GRANT USAGE ON *.* TO 'jdoe'@'example.com'";
                     "GRANT SELECT ON `d1`.`t1` TO 'jdoe'@'example.com'"]))
              (Examples.showing Examples.mysql_5_7_30
                 ["GRANT USAGE ON *.* TO 'jdoe'@'example.com'";
                  "GRANT SELECT ON `d1`.`t1` TO 'jdoe'@'example.com'"])
              (Examples.grantsOf [] []) [] "jdoe" "example.com"
              eq_refl ltac:(discriminate) eq_refl eq_refl)
    as (H & _).
  apply (H [MySQLGrant.mk "*" "*" ["USAGE"] false;
            MySQLGrant.mk "d1" "t1" ["SELECT"] false]). reflexivity.
Defined.

(** X23: for an identifier [<user>@<host>], [ImportGrant] gives one
    resource for each grant shown, in the order of the rows.  The
    identifier of a resource is made of the user, the host and the database
    only: two of the resources have the same identifier exactly when their
    grants are on the same database, whatever the tables.  An error of
    [showGrants] is returned as it is, with no resource. *)
Theorem ImportGrant_resources
        (meta : MySQLConfiguration) (db : DB) (d : ResourceData) (h : list event)
        (user host : string) :
  Id d = user ++ "@" ++ host -> user <> "" -> without "@" host = true ->
  GetDbConn meta = Ok db ->
  let principal := "'" ++ user ++ "'@'" ++ host ++ "'" in
  (forall shown,
      returned (showGrants db principal d h) = Ok shown ->
      ImportGrant meta d h
      = ([Query ("SHOW GRANTS FOR " ++ principal)], d,
         Ok (map (restoreGrant user host) shown))
      /\ (forall g1 g2, In g1 shown -> In g2 shown ->
            (Id (restoreGrant user host g1) = Id (restoreGrant user host g2)
             <-> MySQLGrant.Database g1 = MySQLGrant.Database g2)))
  /\ (forall err,
         returned (showGrants db principal d h) = Err err ->
         ImportGrant meta d h = ([Query ("SHOW GRANTS FOR " ++ principal)], d, Err err)).
Proof.
  intros Hid Huser Hhost Hdb principal.
  destruct (ImportGrant_steps meta d h user host Hid Huser Hhost) as [E _].
  rewrite E. rewrite (bind_pure _ _ _ _ db) by (unfold lift; rewrite Hdb; reflexivity).
  fold principal. unfold bind. split.
  - intros shown Hshown.
    assert (Hinv : forall g, In g shown -> without "`" (MySQLGrant.Database g) = true).
    { rewrite showGrants_returned in Hshown.
      destruct (query db h ("SHOW GRANTS FOR " ++ principal)) as [rows | e]; [| discriminate].
      destruct (showGrants_rows_invariant rows [] shown Hshown) as (new & -> & _ & Hall).
      rewrite Forall_forall in Hall. intros g Hg. apply (Hall g Hg). }
    rewrite showGrants_steps, Hshown. split; [reflexivity |].
    intros g1 g2 H1 H2. cbn [restoreGrant Id SetId Set_user Set_host Set_database Set_table
                               Set_grant Set_tls_option Set_privileges Data_nil].
    split.
    + intro Eid. apply formatDatabaseName_inj; [apply Hinv, H1 | apply Hinv, H2 |].
      apply string_app_inv_head in Eid. cbn [append] in Eid. injection Eid as Eid.
      apply string_app_inv_head in Eid. cbn [append] in Eid. injection Eid as Eid.
      exact Eid.
    + intros ->. reflexivity.
  - intros err Herr. rewrite showGrants_steps, Herr. reflexivity.
Qed.

Lemma ImportGrant_resources_witness :
  ImportGrant (Examples.connected
                 (Examples.showing Examples.mysql_5_7_30
                    ["GRANT SELECT ON `d1`.`t1` TO 'jdoe'@'example.com'";
                     "GRANT UPDATE ON `d1`.`t2` TO 'jdoe'@'example.com'"]))
              (Examples.grantsOf [] []) []
  = ([Query "SHOW GRANTS FOR 'jdoe'@'example.com'"], Examples.grantsOf [] [],
     Ok [restoreGrant "jdoe" "example.com" (MySQLGrant.mk "d1" "t1" ["SELECT"] false);
         restoreGrant "jdoe" "example.com" (MySQLGrant.mk "d1" "t2" ["UPDATE"] false)])
  /\ Id (restoreGrant "jdoe" "example.com" (MySQLGrant.mk "d1" "t1" ["SELECT"] false))
     = Id (restoreGrant "jdoe" "example.com" (MySQLGrant.mk "d1" "t2" ["UPDATE"] false)).
Proof.
  destruct (ImportGrant_resources
              (Examples.connected
                 (Examples.showing Examples.mysql_5_7_30
                    ["GRANT SELECT ON `d1`.`t1` TO 'jdoe'@'example.com'";
                     "GRANT UPDATE ON `d1`.`t2` TO 'jdoe'@'example.com'"]))
              (Examples.showing Examples.mysql_5_7_30
                 ["GRANT SELECT ON `d1`.`t1` TO 'jdoe'@'example.com'";
                  "GRANT UPDATE ON `d1`.`t2` TO 'jdoe'@'example.com'"])
              (Examples.grantsOf [] []) [] "jdoe" "example.com"
              eq_refl ltac:(discriminate) eq_refl eq_refl)
    as (H & _).
  destruct (H [MySQLGrant.mk "d1" "t1" ["SELECT"] false;
               MySQLGrant.mk "d1" "t2" ["UPDATE"] false] eq_refl) as [H1 H2].
  split; [exact H1 |]. apply H2; [left; reflexivity | right; left; reflexivity |].
  reflexivity.
Defined.

